(** * The chat client: conversation window, capabilities, request shapes
      and response decoding

    A shallow embedding of [api/client/client.go] (package [client]) and of
    the parts of its collaborators that the client's behaviour depends on.

    Conventions.
    - A Go [string] is a [String.string]: a sequence of bytes.  Text is read
      as runes the way Go's [range] loop and [utf8.DecodeRuneInString] read
      it (see [GoStrings.runes]).
    - A Go [int] is a [Z].  Lengths, word counts and token costs are bounded
      by the number of bytes of the strings held in memory, so sums of them
      stay inside the 64-bit range and are written with plain [Z] addition.
      The only product of a caller-chosen number is the one in
      [calculateEffectiveContextWindow]; it wraps as Go's does.
    - Integer division is Go's: it truncates toward zero ([Z.quot]).
    - A Go [error] is the text of its message; [nil] is [None].
    - A run-time panic is [None] in the [Go] monad of section [Client]. *)

From Stdlib Require Import ZArith List String Ascii Bool Lia.
From Stdlib Require Import Sorted Permutation.
Import ListNotations.

Local Open Scope string_scope.
Local Open Scope list_scope.
Local Open Scope Z_scope.

(** ** Go strings *)

Module GoStrings.

Definition rune := Z.

Definition RuneError : rune := 0xFFFD.

(** The bytes of a string, as numbers in [0, 255]. *)
Definition bytes (s : string) : list Z :=
  map (fun a => Z.of_N (N_of_ascii a)) (list_ascii_of_string s).

Definition inRange (lo hi b : Z) : bool := (lo <=? b) && (b <=? hi).

(** [utf8.first] together with [utf8.acceptRanges]: for a leading byte,
    the length of the sequence it announces and the range its second byte
    has to lie in; [None] for a byte that cannot start a sequence. *)
Definition first (b0 : Z) : option (Z * Z * Z) :=
  if inRange 0xC2 0xDF b0 then Some (2, 0x80, 0xBF)
  else if b0 =? 0xE0 then Some (3, 0xA0, 0xBF)
  else if inRange 0xE1 0xEC b0 then Some (3, 0x80, 0xBF)
  else if b0 =? 0xED then Some (3, 0x80, 0x9F)
  else if inRange 0xEE 0xEF b0 then Some (3, 0x80, 0xBF)
  else if b0 =? 0xF0 then Some (4, 0x90, 0xBF)
  else if inRange 0xF1 0xF3 b0 then Some (4, 0x80, 0xBF)
  else if b0 =? 0xF4 then Some (4, 0x80, 0x8F)
  else None.

Definition cont (b : Z) : Z := Z.land b 0x3F.

(** The runes of a byte sequence, in the order a [range] loop yields
    them.  A byte that does not start a well-formed sequence is read as
    [RuneError] and the decoding resumes at the next byte. *)
Fixpoint decodeRunes (bs : list Z) : list rune :=
  match bs with
  | [] => []
  | b0 :: t0 =>
    if b0 <? 0x80 then b0 :: decodeRunes t0
    else
      match first b0 with
      | None => RuneError :: decodeRunes t0
      | Some (sz, lo, hi) =>
        match t0 with
        | [] => RuneError :: decodeRunes t0
        | b1 :: t1 =>
          if negb (inRange lo hi b1) then RuneError :: decodeRunes t0
          else if sz =? 2 then
            Z.lor (Z.shiftl (Z.land b0 0x1F) 6) (cont b1) :: decodeRunes t1
          else
            match t1 with
            | [] => RuneError :: decodeRunes t0
            | b2 :: t2 =>
              if negb (inRange 0x80 0xBF b2) then RuneError :: decodeRunes t0
              else if sz =? 3 then
                Z.lor (Z.shiftl (Z.land b0 0x0F) 12)
                      (Z.lor (Z.shiftl (cont b1) 6) (cont b2))
                :: decodeRunes t2
              else
                match t2 with
                | [] => RuneError :: decodeRunes t0
                | b3 :: t3 =>
                  if negb (inRange 0x80 0xBF b3)
                  then RuneError :: decodeRunes t0
                  else
                    Z.lor (Z.shiftl (Z.land b0 0x07) 18)
                          (Z.lor (Z.shiftl (cont b1) 12)
                                 (Z.lor (Z.shiftl (cont b2) 6) (cont b3)))
                    :: decodeRunes t3
                end
            end
        end
      end
  end.

Definition runes (s : string) : list rune := decodeRunes (bytes s).

(** [unicode.IsSpace]: the Latin-1 cases, then the White_Space table. *)
Definition IsSpace (r : rune) : bool :=
  if r <=? 0xFF then
    inRange 0x09 0x0D r || (r =? 0x20) || (r =? 0x85) || (r =? 0xA0)
  else
    (r =? 0x1680) || inRange 0x2000 0x200A r || inRange 0x2028 0x2029 r
    || (r =? 0x202F) || (r =? 0x205F) || (r =? 0x3000).

(** A word is kept as the runes it is made of. *)
Definition word := list rune.

(** [cur] holds, reversed, the runes of the word being read. *)
Fixpoint fieldsFrom (rs : list rune) (cur : list rune) : list word :=
  match rs with
  | [] => match cur with [] => [] | _ => [rev cur] end
  | r :: rest =>
    if IsSpace r then
      match cur with
      | [] => fieldsFrom rest []
      | _ => rev cur :: fieldsFrom rest []
      end
    else fieldsFrom rest (r :: cur)
  end.

(** [strings.Fields]: the maximal runs of non-space runes, in order. *)
Definition Fields (s : string) : list word := fieldsFrom (runes s) [].

(** [utf8.RuneCountInString] of a word of [Fields]. *)
Definition RuneCountInString (w : word) : Z := Z.of_nat (List.length w).

(** [strings.HasPrefix]. *)
Definition HasPrefix (s p : string) : bool := String.prefix p s.

(** [strings.Contains]: does [sub] occur in [s] at some byte offset. *)
Fixpoint Contains (s sub : string) : bool :=
  String.prefix sub s ||
  match s with
  | EmptyString => false
  | String _ s' => Contains s' sub
  end.

End GoStrings.
Import GoStrings.

(** ** Data model: packages [api], [history] and [config] *)

(** A [float64] is carried as its IEEE-754 bit pattern: the client copies
    these numbers from the configuration into requests and never computes
    with them.  The zero value of the type is the pattern [0]. *)
Definition float64 := Z.

(** An instant, as returned by [Timer.Now]. *)
Definition Time := Z.

Definition error := string.

Inductive Result (A : Type) : Type :=
| Ok (a : A)
| Err (e : error).
Arguments Ok {A} a.
Arguments Err {A} e.

Record ImageContent := {
  ImageContent_Type : string;
  ImageContent_URL : string
}.

Record InputAudio := {
  InputAudio_Data : string;
  InputAudio_Format : string
}.

Record AudioContent := {
  AudioContent_Type : string;
  AudioContent_InputAudio : InputAudio
}.

(** The dynamic values an [interface{}] holds in this program: what
    [json.Unmarshal] stores in one (nil, bool, float64, string, slice, map),
    the integers of a request and the two media lists the client builds for
    an attachment. *)
#[warnings="-register-all"]
Inductive any : Type :=
| AnyNil
| AnyBool (b : bool)
| AnyInt (z : Z)
| AnyFloat64 (f : float64)
| AnyString (s : string)
| AnySlice (l : list any)
| AnyMap (m : list (string * any))
| AnyImageContents (l : list ImageContent)
| AnyAudioContents (l : list AudioContent).

(** The type assertion [v.(string)] in its two-result form. *)
Definition assertString (v : any) : option string :=
  match v with
  | AnyString s => Some s
  | _ => None
  end.

Record Message := {
  Message_Role : string;
  Message_Name : string;
  Message_Content : any
}.

(** [history.History] embeds [api.Message]. *)
Record History := {
  History_Message : Message;
  History_Timestamp : Time
}.

Definition History_Content (h : History) : any :=
  Message_Content (History_Message h).

Record Config := {
  Config_Model : string;
  Config_MaxTokens : Z;
  Config_ContextWindow : Z;
  Config_Role : string;
  Config_Temperature : float64;
  Config_TopP : float64;
  Config_FrequencyPenalty : float64;
  Config_PresencePenalty : float64;
  Config_Seed : Z;
  Config_Effort : string;
  Config_OmitHistory : bool;
  Config_URL : string;
  Config_CompletionsPath : string;
  Config_ResponsesPath : string;
  Config_TranscriptionsPath : string;
  Config_AuthHeader : string;
  Config_AuthTokenPrefix : string;
  Config_APIKey : string;
  Config_ApifyAPIKey : string
}.

(** ** Constants of package [client] *)

Definition AssistantRole := "assistant".
Definition ErrEmptyResponse := "empty response".
Definition ErrUnsupportedProvider := "unsupported MCP provider".
Definition ErrHistoryTracking :=
  "history tracking needs to be enabled to use this feature".
Definition MaxTokenBufferPercentage : Z := 20.
Definition SystemRole := "system".
Definition UserRole := "user".
Definition FunctionRole := "function".
Definition SearchModelPattern := "-search".
Definition ApifyURL := "https://api.apify.com/v2/acts/".
Definition ApifyPath := "/run-sync-get-dataset-items".
Definition ApifyProxyConfig := "proxyConfiguration".
Definition o1Prefix := "o1".
Definition o1ProPattern := "o1-pro".
Definition gpt5Pattern := "gpt-5".
Definition messageType := "message".
Definition outputTextType := "output_text".

(** ** Model capabilities *)

Record ModelCapabilities := {
  SupportsTemperature : bool;
  SupportsStreaming : bool;
  UsesResponsesAPI : bool;
  OmitFirstSystemMsg : bool
}.

Definition GetCapabilities (model : string) : ModelCapabilities :=
  {| SupportsTemperature := negb (Contains model SearchModelPattern);
     SupportsStreaming := negb (Contains model o1ProPattern);
     UsesResponsesAPI :=
       Contains model o1ProPattern || Contains model gpt5Pattern;
     OmitFirstSystemMsg :=
       HasPrefix model o1Prefix && negb (Contains model o1ProPattern) |}.

(** ** Token costs *)

(** Go's [int] arithmetic on 64 bits: the representative in
    [-2^63, 2^63) of a mathematical result. *)
Definition wrap64 (z : Z) : Z := (z + 2 ^ 63) mod 2 ^ 64 - 2 ^ 63.

Definition calculateEffectiveContextWindow
    (window : Z) (bufferPercentage : Z) : Z :=
  let adjustedPercentage := wrap64 (100 - bufferPercentage) in
  let effectiveContextWindow :=
    Z.quot (wrap64 (window * adjustedPercentage)) 100 in
  effectiveContextWindow.

(** The sum of [utf8.RuneCountInString word] over [words]. *)
Definition charCountOf (words : list word) : Z :=
  fold_left (fun charCount w => charCount + RuneCountInString w) words 0.

(** The body of the loop of [countTokens] for a turn whose content is the
    text [s]. *)
Definition tokenCountForMessage (s : string) : Z :=
  let words := Fields s in
  let wordCount := Z.of_nat (List.length words) in
  let charCount := charCountOf words in
  Z.quot (charCount + wordCount) 2.

(** The loop of [countTokens], from the values [result] and [rolling] have
    before the remaining [entries].  [entry.Content.(string)] is the
    one-result type assertion: it panics on a content that is not text. *)
Fixpoint countTokensFrom (entries : list History)
    (result : Z) (rolling : list Z) : option (Z * list Z) :=
  match entries with
  | [] => Some (result, rolling)
  | entry :: rest =>
    match assertString (History_Content entry) with
    | None => None
    | Some s =>
      let t := tokenCountForMessage s in
      countTokensFrom rest (result + t) (rolling ++ [t])
    end
  end.

Definition countTokens (entries : list History) : option (Z * list Z) :=
  countTokensFrom entries 0 [].

(** ** Requests and responses of package [api] *)

Record CompletionsRequest := {
  CompletionsRequest_FrequencyPenalty : float64;
  CompletionsRequest_MaxTokens : Z;
  CompletionsRequest_Messages : list Message;
  CompletionsRequest_Model : string;
  CompletionsRequest_PresencePenalty : float64;
  CompletionsRequest_Seed : Z;
  CompletionsRequest_Stream : bool;
  CompletionsRequest_Temperature : float64;
  CompletionsRequest_TopP : float64
}.

Record Reasoning := { Reasoning_Effort : string }.

Record ResponsesRequest := {
  ResponsesRequest_Model : string;
  ResponsesRequest_Input : list Message;
  ResponsesRequest_MaxOutputTokens : Z;
  ResponsesRequest_Reasoning : Reasoning;
  ResponsesRequest_Stream : bool;
  ResponsesRequest_Temperature : float64;
  ResponsesRequest_TopP : float64
}.

Record Usage := {
  Usage_PromptTokens : Z;
  Usage_CompletionTokens : Z;
  Usage_TotalTokens : Z
}.

Record Choice := {
  Choice_Message : Message;
  Choice_FinishReason : string;
  Choice_Index : Z
}.

Record CompletionsResponse := {
  CompletionsResponse_Choices : list Choice;
  CompletionsResponse_Usage : Usage
}.

Record Content := {
  Content_Type : string;
  Content_Text : string
}.

Record Output := {
  Output_Type : string;
  Output_Content : list Content
}.

Record TokenUsage := { TokenUsage_TotalTokens : Z }.

Record ResponsesResponse := {
  ResponsesResponse_Output : list Output;
  ResponsesResponse_Usage : TokenUsage
}.

(** [Params] is a Go map: [None] is the nil map, on which an assignment
    panics. *)
Record MCPRequest := {
  MCPRequest_Provider : string;
  MCPRequest_Function : string;
  MCPRequest_Params : option (list (string * any))
}.

(** The values a call carries in its [context.Context]. *)
Record Context := {
  Context_BinaryData : option string;
  Context_ImagePath : option string;
  Context_AudioPath : option string
}.

(** *** The serialized request bodies *)

(** The document [json.Marshal] renders for a message. *)
Definition messageDocument (m : Message) : any :=
  AnyMap ([("role", AnyString (Message_Role m))]
          ++ (if (Message_Name m =? "")%string then []
              else [("name", AnyString (Message_Name m))])
          ++ [("content", Message_Content m)]).

(** The encoder's test for a field tagged [omitempty]. *)
Definition isEmptyFloat (f : float64) : bool := f =? 0.

Definition omitempty (key : string) (f : float64) : list (string * any) :=
  if isEmptyFloat f then [] else [(key, AnyFloat64 f)].

(** Modelled from the spec: the declaration of [api.CompletionsRequest],
    with the names its fields have in the body, is not part of the sources
    at hand.  The classic shape has the fields messages, model, max-tokens,
    frequency-penalty, presence-penalty, seed and the stream flag;
    temperature and top-p are left out of the body when they are not set. *)
Definition completionsDocument (req : CompletionsRequest) : any :=
  AnyMap ([("frequency_penalty",
            AnyFloat64 (CompletionsRequest_FrequencyPenalty req));
           ("max_tokens", AnyInt (CompletionsRequest_MaxTokens req));
           ("messages",
            AnySlice (map messageDocument (CompletionsRequest_Messages req)));
           ("model", AnyString (CompletionsRequest_Model req));
           ("presence_penalty",
            AnyFloat64 (CompletionsRequest_PresencePenalty req));
           ("seed", AnyInt (CompletionsRequest_Seed req));
           ("stream", AnyBool (CompletionsRequest_Stream req))]
          ++ omitempty "temperature" (CompletionsRequest_Temperature req)
          ++ omitempty "top_p" (CompletionsRequest_TopP req)).

(** Modelled from the spec: the declaration of [api.ResponsesRequest] is
    not part of the sources at hand.  The alternate shape has the fields
    model, input, max-output-tokens, a reasoning effort, the stream flag,
    and temperature and top-p, which are always in the body. *)
Definition responsesDocument (req : ResponsesRequest) : any :=
  AnyMap [("model", AnyString (ResponsesRequest_Model req));
          ("input",
           AnySlice (map messageDocument (ResponsesRequest_Input req)));
          ("max_output_tokens", AnyInt (ResponsesRequest_MaxOutputTokens req));
          ("reasoning",
           AnyMap [("effort",
                    AnyString (Reasoning_Effort
                                 (ResponsesRequest_Reasoning req)))]);
          ("stream", AnyBool (ResponsesRequest_Stream req));
          ("temperature", AnyFloat64 (ResponsesRequest_Temperature req));
          ("top_p", AnyFloat64 (ResponsesRequest_TopP req))].

(** The keys of the top level of a body. *)
Definition bodyKeys (doc : any) : list string :=
  match doc with
  | AnyMap m => map fst m
  | _ => []
  end.

Definition bodyField (doc : any) (key : string) : option any :=
  match doc with
  | AnyMap m =>
    match find (fun kv => (fst kv =? key)%string) m with
    | Some kv => Some (snd kv)
    | None => None
    end
  | _ => None
  end.

Definition hasKey (doc : any) (key : string) : bool :=
  existsb (fun k => (k =? key)%string) (bodyKeys doc).

(** ** Collaborators *)

(** [history.Store]. *)
Record Store := {
  Store_Read : list History * option error;
  Store_Write : list History -> option error
}.

(** [http.Caller].  A body that comes back is [None] when it is nil. *)
Record Caller := {
  Caller_Post : string -> string -> bool -> option string * option error;
  Caller_PostWithHeaders :
    string -> string -> list (string * string) -> option string * option error
}.

(** [Timer]: the answer of the [n]-th call of [Now]. *)
Record Timer := { Timer_Now : nat -> Time }.

(** [FileReader.Open] followed by reading the file to its end: an error of
    [Open], or the result of the read, itself the bytes or an error. *)
Record FileReader := {
  FileReader_Open : string -> Result (Result string)
}.

(** What the client calls and is taken as given here: [encoding/json],
    [mime/multipart], [path/filepath], [strings.ToLower], [sort.Strings],
    the constant [utils.ApifyProvider] and the document of
    [api.ProxyConfiguration], whose declarations are in other packages,
    and the helpers of the client that read and sniff files or format
    values with the casing tables ([formatKeyValues] and the three
    builders of an attachment). *)
Record Library := {
  json_Marshal : any -> Result string;
  json_UnmarshalCompletions : string -> Result CompletionsResponse;
  json_UnmarshalResponses : string -> Result ResponsesResponse;
  json_UnmarshalText : string -> Result string;
  json_UnmarshalAny : string -> Result any;
  multipart_Form : string -> string -> string -> string * string;
  filepath_Base : string -> string;
  strings_ToLower : string -> string;
  sort_Strings : list string -> list string;
  formatKeyValues : list (string * any) -> list string;
  ApifyProvider : string;
  proxyConfiguration : bool -> any;
  createImageContentFromBinary : string -> Result ImageContent;
  createImageContentFromURLOrFile : string -> Result ImageContent;
  createAudioContentFromFile : string -> Result AudioContent
}.

Record Collaborators := {
  caller : Caller;
  historyStore : Store;
  timer : Timer;
  reader : FileReader;
  lib : Library
}.

(** ** The client *)

(** The state a method of [*Client] reads and writes: the two exported
    fields, and a trace of the calls made to the collaborators (how many
    times the timer was asked, and the histories handed to
    [historyStore.Write], the latest first). *)
Record Client := {
  Client_Config : Config;
  Client_History : list History;
  Client_clock : nat;
  Client_written : list (list History)
}.

(** A method: from a state, a panic ([None]) or a result and a state. *)
Definition Go (A : Type) : Type := Client -> option (A * Client).

Definition ret {A} (a : A) : Go A := fun c => Some (a, c).

Definition bind {A B} (m : Go A) (k : A -> Go B) : Go B :=
  fun c => match m c with
           | None => None
           | Some (a, c') => k a c'
           end.

Definition panic {A} : Go A := fun _ => None.

Definition get : Go Client := fun c => Some (c, c).

Definition setHistory (h : list History) : Go unit :=
  fun c => Some (tt, {| Client_Config := Client_Config c;
                        Client_History := h;
                        Client_clock := Client_clock c;
                        Client_written := Client_written c |}).

Declare Scope go_scope.
Delimit Scope go_scope with go.
Notation "x <- m ;; k" := (bind m (fun x => k))
  (at level 61, m at next level, right associativity) : go_scope.
Notation "m ;; k" := (bind m (fun _ => k))
  (at level 61, right associativity) : go_scope.
Local Open Scope go_scope.

(** [strings.ReplaceAll s "~" "-"]. *)
Fixpoint replaceTilde (s : string) : string :=
  match s with
  | EmptyString => EmptyString
  | String a s' =>
    String (if Ascii.eqb a "~"%char then "-"%char else a) (replaceTilde s')
  end.

(** [strings.Join lines "\n"]. *)
Definition newline : string := String (ascii_of_nat 10) EmptyString.

Fixpoint joinLines (lines : list string) : string :=
  match lines with
  | [] => ""
  | [l] => l
  | l :: rest => (l ++ newline ++ joinLines rest)%string
  end.

(** The loop of [truncateHistory] from index [i] on: [rest] is
    [rolling[i:]] and [total] the sum so far.  The result is the value of
    [index] after the loop, [0] when no sum exceeds [diff]. *)
Fixpoint cutIndex (rest : list Z) (i : nat) (total diff : Z) : nat :=
  match rest with
  | [] => 0%nat
  | r :: rest' =>
    let total := total + r in
    if total >? diff then i else cutIndex rest' (S i) total diff
  end.

(** The inner loop of the alternate branch of [Query]: the text of the
    first entry of type [output_text], at which the loop breaks. *)
Fixpoint firstOutputText (contents : list Content) : option string :=
  match contents with
  | [] => None
  | content :: rest =>
    if (Content_Type content =? outputTextType)%string
    then Some (Content_Text content)
    else firstOutputText rest
  end.

(** The outer loop of the alternate branch of [Query], from the value
    [response] has before the remaining [outputs]. *)
Fixpoint scanOutputs (outputs : list Output) (response : string) : string :=
  match outputs with
  | [] => response
  | output :: rest =>
    if negb (Output_Type output =? messageType)%string
    then scanOutputs rest response
    else
      match firstOutputText (Output_Content output) with
      | Some text => scanOutputs rest text
      | None => scanOutputs rest response
      end
  end.

(** The loop over [c.History] of the two request builders, from [index]. *)
Fixpoint messagesFrom (caps : ModelCapabilities) (index : nat)
    (items : list History) : list Message :=
  match items with
  | [] => []
  | item :: rest =>
    if OmitFirstSystemMsg caps && (index =? 0)%nat
    then messagesFrom caps (S index) rest
    else History_Message item :: messagesFrom caps (S index) rest
  end.

Definition userMessage (content : any) : Message :=
  {| Message_Role := UserRole; Message_Name := "";
     Message_Content := content |}.

Section ClientMethods.

Variable env : Collaborators.

(** [c.timer.Now()]. *)
Definition now : Go Time :=
  fun c => Some (Timer_Now (timer env) (Client_clock c),
                 {| Client_Config := Client_Config c;
                    Client_History := Client_History c;
                    Client_clock := S (Client_clock c);
                    Client_written := Client_written c |}).

(** [c.historyStore.Write(c.History)]. *)
Definition writeHistory : Go (option error) :=
  fun c => Some (Store_Write (historyStore env) (Client_History c),
                 {| Client_Config := Client_Config c;
                    Client_History := Client_History c;
                    Client_clock := Client_clock c;
                    Client_written :=
                      Client_History c :: Client_written c |}).

(** [c.History = append(c.History, entry)]. *)
Definition appendHistory (entry : History) : Go unit :=
  c <- get ;;
  setHistory (Client_History c ++ [entry]).

Definition truncateHistory : Go unit :=
  c <- get ;;
  match countTokens (Client_History c) with
  | None => panic
  | Some (tokens, rolling) =>
    let effectiveTokenSize :=
      calculateEffectiveContextWindow
        (Config_ContextWindow (Client_Config c)) MaxTokenBufferPercentage in
    if tokens <=? effectiveTokenSize then ret tt
    else
      let diff := tokens - effectiveTokenSize in
      let index := cutIndex (skipn 1 rolling) 1 0 diff in
      match Client_History c with
      | [] => panic
      | h0 :: _ => setHistory (h0 :: skipn (index + 1) (Client_History c))
      end
  end.

Definition initHistory : Go unit :=
  c <- get ;;
  if negb (List.length (Client_History c) =? 0)%nat then ret tt
  else
    (if negb (Config_OmitHistory (Client_Config c))
     then setHistory (fst (Store_Read (historyStore env)))
     else ret tt) ;;
    c <- get ;;
    (if (List.length (Client_History c) =? 0)%nat
     then
       t <- now ;;
       setHistory [ {| History_Message :=
                         {| Message_Role := SystemRole;
                            Message_Name := "";
                            Message_Content := AnyNil |};
                       History_Timestamp := t |} ]
     else ret tt) ;;
    c <- get ;;
    match Client_History c with
    | [] => panic
    | h0 :: rest =>
      setHistory
        ({| History_Message :=
              {| Message_Role := Message_Role (History_Message h0);
                 Message_Name := Message_Name (History_Message h0);
                 Message_Content :=
                   AnyString (Config_Role (Client_Config c)) |};
            History_Timestamp := History_Timestamp h0 |} :: rest)
    end.

Definition addQuery (query : string) : Go unit :=
  let message := userMessage (AnyString query) in
  t <- now ;;
  appendHistory {| History_Message := message; History_Timestamp := t |} ;;
  truncateHistory.

Definition prepareQuery (input : string) : Go unit :=
  initHistory ;;
  addQuery input.

Definition updateHistory (response : string) : Go unit :=
  t <- now ;;
  appendHistory
    {| History_Message :=
         {| Message_Role := AssistantRole; Message_Name := "";
            Message_Content := AnyString response |};
       History_Timestamp := t |} ;;
  c <- get ;;
  if negb (Config_OmitHistory (Client_Config c))
  then _ <- writeHistory ;; ret tt
  else ret tt.

Definition getEndpoint (c : Client) (path : string) : string :=
  (Config_URL (Client_Config c) ++ path)%string.

Definition getChatEndpoint (c : Client) : string :=
  let caps := GetCapabilities (Config_Model (Client_Config c)) in
  if UsesResponsesAPI caps
  then getEndpoint c (Config_ResponsesPath (Client_Config c))
  else getEndpoint c (Config_CompletionsPath (Client_Config c)).

(** [processResponse], for the decoder [unmarshal] of the target type. *)
Definition processResponse {A} (unmarshal : string -> Result A)
    (raw : option string) : Result A :=
  match raw with
  | None => Err ErrEmptyResponse
  | Some bytes =>
    match unmarshal bytes with
    | Err e => Err ("failed to decode response: " ++ e)%string
    | Ok v => Ok v
    end
  end.

Definition appendMediaMessages (ctx : Context) (messages : list Message)
    : Result (list Message) :=
  match Context_BinaryData ctx with
  | Some data =>
    match createImageContentFromBinary (lib env) data with
    | Err e => Err e
    | Ok content =>
      Ok (messages ++ [userMessage (AnyImageContents [content])])
    end
  | None =>
    match Context_ImagePath ctx with
    | Some path =>
      match createImageContentFromURLOrFile (lib env) path with
      | Err e => Err e
      | Ok content =>
        Ok (messages ++ [userMessage (AnyImageContents [content])])
      end
    | None =>
      match Context_AudioPath ctx with
      | Some path =>
        match createAudioContentFromFile (lib env) path with
        | Err e => Err e
        | Ok content =>
          Ok (messages ++ [userMessage (AnyAudioContents [content])])
        end
      | None => Ok messages
      end
    end
  end.

Definition createCompletionsRequest (c : Client) (ctx : Context)
    (stream : bool) : Result CompletionsRequest :=
  let cfg := Client_Config c in
  let caps := GetCapabilities (Config_Model cfg) in
  let messages := messagesFrom caps 0 (Client_History c) in
  match appendMediaMessages ctx messages with
  | Err e => Err e
  | Ok messages =>
    let req :=
      {| CompletionsRequest_FrequencyPenalty := Config_FrequencyPenalty cfg;
         CompletionsRequest_MaxTokens := Config_MaxTokens cfg;
         CompletionsRequest_Messages := messages;
         CompletionsRequest_Model := Config_Model cfg;
         CompletionsRequest_PresencePenalty := Config_PresencePenalty cfg;
         CompletionsRequest_Seed := Config_Seed cfg;
         CompletionsRequest_Stream := stream;
         CompletionsRequest_Temperature := 0;
         CompletionsRequest_TopP := 0 |} in
    if SupportsTemperature caps
    then
      Ok {| CompletionsRequest_FrequencyPenalty :=
              CompletionsRequest_FrequencyPenalty req;
            CompletionsRequest_MaxTokens := CompletionsRequest_MaxTokens req;
            CompletionsRequest_Messages := CompletionsRequest_Messages req;
            CompletionsRequest_Model := CompletionsRequest_Model req;
            CompletionsRequest_PresencePenalty :=
              CompletionsRequest_PresencePenalty req;
            CompletionsRequest_Seed := CompletionsRequest_Seed req;
            CompletionsRequest_Stream := CompletionsRequest_Stream req;
            CompletionsRequest_Temperature := Config_Temperature cfg;
            CompletionsRequest_TopP := Config_TopP cfg |}
    else Ok req
  end.

Definition createResponsesRequest (c : Client) (ctx : Context)
    (stream : bool) : Result ResponsesRequest :=
  let cfg := Client_Config c in
  let caps := GetCapabilities (Config_Model cfg) in
  let messages := messagesFrom caps 0 (Client_History c) in
  match appendMediaMessages ctx messages with
  | Err e => Err e
  | Ok messages =>
    Ok {| ResponsesRequest_Model := Config_Model cfg;
          ResponsesRequest_Input := messages;
          ResponsesRequest_MaxOutputTokens := Config_MaxTokens cfg;
          ResponsesRequest_Reasoning :=
            {| Reasoning_Effort := Config_Effort cfg |};
          ResponsesRequest_Stream := stream;
          ResponsesRequest_Temperature := Config_Temperature cfg;
          ResponsesRequest_TopP := Config_TopP cfg |}
  end.

Definition createBody (c : Client) (ctx : Context) (stream : bool)
    : Result string :=
  let caps := GetCapabilities (Config_Model (Client_Config c)) in
  if UsesResponsesAPI caps
  then
    match createResponsesRequest c ctx stream with
    | Err e => Err e
    | Ok req => json_Marshal (lib env) (responsesDocument req)
    end
  else
    match createCompletionsRequest c ctx stream with
    | Err e => Err e
    | Ok req => json_Marshal (lib env) (completionsDocument req)
    end.

(** The bytes of a body, none for a nil one. *)
Definition bytesOf (raw : option string) : string :=
  match raw with
  | Some b => b
  | None => ""
  end.

Definition Query (ctx : Context) (input : string)
    : Go (string * Z * option error) :=
  prepareQuery input ;;
  c <- get ;;
  match createBody c ctx false with
  | Err e => ret ("", 0, Some e)
  | Ok body =>
    let endpoint := getChatEndpoint c in
    let (raw, err) := Caller_Post (caller env) endpoint body false in
    match err with
    | Some e => ret ("", 0, Some e)
    | None =>
      let caps := GetCapabilities (Config_Model (Client_Config c)) in
      if UsesResponsesAPI caps
      then
        match processResponse (json_UnmarshalResponses (lib env)) raw with
        | Err e => ret ("", 0, Some e)
        | Ok res =>
          let tokensUsed :=
            TokenUsage_TotalTokens (ResponsesResponse_Usage res) in
          let response := scanOutputs (ResponsesResponse_Output res) "" in
          if (response =? "")%string
          then ret ("", tokensUsed, Some "no response returned")
          else
            updateHistory response ;;
            ret (response, tokensUsed, None)
        end
      else
        match processResponse (json_UnmarshalCompletions (lib env)) raw with
        | Err e => ret ("", 0, Some e)
        | Ok res =>
          let tokensUsed :=
            Usage_TotalTokens (CompletionsResponse_Usage res) in
          match CompletionsResponse_Choices res with
          | [] => ret ("", tokensUsed, Some "no responses returned")
          | choice0 :: _ =>
            match assertString (Message_Content (Choice_Message choice0)) with
            | None =>
              ret ("", tokensUsed,
                   Some "response cannot be converted to a string")
            | Some response =>
              updateHistory response ;;
              ret (response, tokensUsed, None)
            end
          end
        end
    end
  end.

Definition Stream (ctx : Context) (input : string) : Go (option error) :=
  prepareQuery input ;;
  c <- get ;;
  match createBody c ctx true with
  | Err e => ret (Some e)
  | Ok body =>
    let endpoint := getChatEndpoint c in
    let (result, err) := Caller_Post (caller env) endpoint body true in
    match err with
    | Some e => ret (Some e)
    | None =>
      updateHistory (bytesOf result) ;;
      ret None
    end
  end.

(** The multipart form is written to a buffer in memory, which takes
    every write: only opening and reading the audio file can fail before
    the call. *)
Definition Transcribe (audioPath : string) : Go (string * option error) :=
  initHistory ;;
  match FileReader_Open (reader env) audioPath with
  | Err e => ret ("", Some ("failed to open audio file: " ++ e)%string)
  | Ok (Err e) => ret ("", Some e)
  | Ok (Ok contents) =>
    c <- get ;;
    let cfg := Client_Config c in
    let (body, contentType) :=
      multipart_Form (lib env) (Config_Model cfg)
                     (filepath_Base (lib env) audioPath) contents in
    let endpoint := getEndpoint c (Config_TranscriptionsPath cfg) in
    let headers :=
      [("Content-Type", contentType);
       (Config_AuthHeader cfg,
        (Config_AuthTokenPrefix cfg ++ " " ++ Config_APIKey cfg)%string)] in
    let (raw, err) :=
      Caller_PostWithHeaders (caller env) endpoint body headers in
    match err with
    | Some e => ret ("", Some e)
    | None =>
      match json_UnmarshalText (lib env) (bytesOf raw) with
      | Err e =>
        ret ("", Some ("failed to parse transcription: " ++ e)%string)
      | Ok text =>
        t <- now ;;
        appendHistory
          {| History_Message :=
               userMessage
                 (AnyString ("[transcribe] "
                             ++ filepath_Base (lib env) audioPath)%string);
             History_Timestamp := t |} ;;
        t <- now ;;
        appendHistory
          {| History_Message :=
               {| Message_Role := AssistantRole; Message_Name := "";
                  Message_Content := AnyString text |};
             History_Timestamp := t |} ;;
        truncateHistory ;;
        c <- get ;;
        (if negb (Config_OmitHistory (Client_Config c))
         then _ <- writeHistory ;; ret tt
         else ret tt) ;;
        ret (text, None)
      end
    end
  end.

(** [params[key] = value] on a map that is not nil. *)
Definition mapSet (m : list (string * any)) (key : string) (value : any)
    : list (string * any) :=
  filter (fun kv => negb (fst kv =? key)%string) m ++ [(key, value)].

(** The panic ([None]) is the assignment to an entry of a nil map. *)
Definition buildMCPRequest (c : Client) (mcp : MCPRequest)
    : option (Result (string * list (string * string) * string)) :=
  let provider := strings_ToLower (lib env) (MCPRequest_Provider mcp) in
  if negb (provider =? ApifyProvider (lib env))%string
  then Some (Err ErrUnsupportedProvider)
  else
    let apiKey := Config_ApifyAPIKey (Client_Config c) in
    if (apiKey =? "")%string
    then Some (Err ("the " ++ provider ++ " api key is not configured")%string)
    else
      match MCPRequest_Params mcp with
      | None => None
      | Some params =>
        let params :=
          mapSet params ApifyProxyConfig
                 (proxyConfiguration (lib env) true) in
        let endpoint :=
          (ApifyURL ++ MCPRequest_Function mcp ++ ApifyPath)%string in
        let headers :=
          [("Content-Type", "application/json");
           ("Authorization", ("Bearer " ++ apiKey)%string)] in
        match json_Marshal (lib env) (AnyMap params) with
        | Err e => Some (Err ("failed to marshal request: " ++ e)%string)
        | Ok body => Some (Ok (endpoint, headers, body))
        end
      end.

Definition formatMCPResponse (raw : option string) (function : string)
    : string :=
  let tag := ("[MCP: " ++ function ++ "]")%string in
  let formatted (lines : list string) :=
    (tag ++ newline ++ joinLines (sort_Strings (lib env) lines))%string in
  match json_UnmarshalAny (lib env) (bytesOf raw) with
  | Err _ => (tag ++ " (failed to decode response)")%string
  | Ok (AnySlice []) => (tag ++ " (no data returned)")%string
  | Ok (AnySlice (AnyMap obj :: _)) =>
    formatted (formatKeyValues (lib env) obj)
  | Ok (AnySlice (_ :: _)) => (tag ++ " (unexpected response format)")%string
  | Ok (AnyMap v) => formatted (formatKeyValues (lib env) v)
  | Ok _ => (tag ++ " (unexpected response format)")%string
  end.

Definition InjectMCPContext (mcp : MCPRequest) : Go (option error) :=
  c <- get ;;
  if Config_OmitHistory (Client_Config c)
  then ret (Some ErrHistoryTracking)
  else
    match buildMCPRequest c mcp with
    | None => panic
    | Some (Err e) => ret (Some e)
    | Some (Ok (endpoint, headers, body)) =>
      let (raw, err) :=
        Caller_PostWithHeaders (caller env) endpoint body headers in
      match err with
      | Some e => ret (Some e)
      | None =>
        let formatted := formatMCPResponse raw (MCPRequest_Function mcp) in
        initHistory ;;
        t <- now ;;
        appendHistory
          {| History_Message :=
               {| Message_Role := FunctionRole;
                  Message_Name := replaceTilde (MCPRequest_Function mcp);
                  Message_Content := AnyString formatted |};
             History_Timestamp := t |} ;;
        truncateHistory ;;
        writeHistory
      end
    end.

End ClientMethods.

(** ** The decoder of a classic stream (package [http]) *)

Module StreamDecoder.

(** [strings.Split s "\n"]. *)
Fixpoint splitLines (s : string) (cur : string) : list string :=
  match s with
  | EmptyString => [cur]
  | String a s' =>
    if Ascii.eqb a (ascii_of_nat 10)
    then cur :: splitLines s' ""
    else splitLines s' (cur ++ String a EmptyString)%string
  end.

(** What is left of [s] after the prefix [p], if [s] starts with it. *)
Fixpoint trimPrefix (p s : string) : option string :=
  match p, s with
  | EmptyString, _ => Some s
  | String a p', String b s' =>
    if Ascii.eqb a b then trimPrefix p' s' else None
  | String _ _, EmptyString => None
  end.

Definition dataPrefix := "data: ".
Definition doneMarker := "[DONE]".

Section Legacy.

(** The JSON decoder of a chunk, taken as given: the parser's message
    for a payload that is not well formed, otherwise the content of
    the chunk's delta, if it has one. *)
Variable parseChunk : string -> Result (option string).

(** Modelled from the spec: [ProcessResponse] is not part of the
    sources at hand, only its tests are.  The classic grammar is a
    sequence of [data: <json>] lines; the content of each delta is
    appended to a buffer, empty at first; lines with no delta content
    are ignored; the line [data: [DONE]], or the end of the stream,
    writes the buffer followed by one newline; a payload that does not
    parse discards the buffer and writes [Error: <message>] and a
    newline instead.  The result is the list of the writes made. *)
Fixpoint legacyFrom (lines : list string) (buffer : string)
    : list string :=
  match lines with
  | [] => [(buffer ++ newline)%string]
  | line :: rest =>
    match trimPrefix dataPrefix line with
    | None => legacyFrom rest buffer
    | Some payload =>
      if (payload =? doneMarker)%string
      then [(buffer ++ newline)%string]
      else
        match parseChunk payload with
        | Err msg => [("Error: " ++ msg ++ newline)%string]
        | Ok None => legacyFrom rest buffer
        | Ok (Some content) =>
          legacyFrom rest (buffer ++ content)%string
        end
    end
  end.

Definition legacyDecode (stream : string) : list string :=
  legacyFrom (splitLines stream "") "".

(** What the writer holds at the end. *)
Definition output (writes : list string) : string :=
  fold_right String.append "" writes.

(** The lines of a stream up to its first [data: [DONE]]. *)
Fixpoint beforeDone (lines : list string) : list string :=
  match lines with
  | [] => []
  | line :: rest =>
    match trimPrefix dataPrefix line with
    | Some payload =>
      if (payload =? doneMarker)%string then []
      else line :: beforeDone rest
    | None => line :: beforeDone rest
    end
  end.

(** The delta content a line carries, if any. *)
Definition deltaOf (line : string) : option string :=
  match trimPrefix dataPrefix line with
  | None => None
  | Some payload =>
    match parseChunk payload with
    | Ok (Some content) => Some content
    | _ => None
    end
  end.

(** The delta contents of a list of lines, in order, joined. *)
Fixpoint deltas (lines : list string) : string :=
  match lines with
  | [] => ""
  | line :: rest =>
    match deltaOf line with
    | Some content => (content ++ deltas rest)%string
    | None => deltas rest
    end
  end.

(** Every payload of the lines parses. *)
Definition wellFormed (lines : list string) : Prop :=
  Forall (fun line =>
            forall payload msg,
              trimPrefix dataPrefix line = Some payload ->
              parseChunk payload <> Err msg) lines.

End Legacy.

(** A [data:] line for a payload. *)
Definition dataLine (payload : string) : string :=
  (dataPrefix ++ payload)%string.

(** The lines of the stream of the test of [ProcessResponse]: a chunk
    that announces the role, three chunks with a content, a chunk that
    gives the finish reason, then the end marker; every line is followed
    by an empty one, and the stream starts with one. *)
Definition legacyLines (role a b c stop : string) : list string :=
  [ ""; dataLine role; ""; dataLine a; ""; dataLine b; ""; dataLine c; "";
    dataLine stop; ""; dataLine doneMarker; "" ].

Definition legacyStream (role a b c stop : string) : string :=
  joinLines (legacyLines role a b c stop).

(** A string with no line break in it. *)
Fixpoint noNewline (s : string) : bool :=
  match s with
  | EmptyString => true
  | String a s' => negb (Ascii.eqb a (ascii_of_nat 10)) && noNewline s'
  end.

End StreamDecoder.

(** ** Notions used to state the properties *)

(** The state [c] with [h] as its history. *)
Definition withHistory (c : Client) (h : list History) : Client :=
  {| Client_Config := Client_Config c;
     Client_History := h;
     Client_clock := Client_clock c;
     Client_written := Client_written c |}.

(** The collaborators [env] with a store whose [Write] is [w]. *)
Definition withWrite (env : Collaborators)
    (w : list History -> option error) : Collaborators :=
  {| caller := caller env;
     historyStore := {| Store_Read := Store_Read (historyStore env);
                        Store_Write := w |};
     timer := timer env;
     reader := reader env;
     lib := lib env |}.

(** A turn whose content is plain text. *)
Definition isText (h : History) : Prop :=
  exists s, History_Content h = AnyString s.

Definition sumZ (l : list Z) : Z := fold_right Z.add 0 l.

(** The cost of a text as the specification words it: the number of
    characters of its words plus the number of its words, halved. *)
Definition textCost (s : string) : Z :=
  (sumZ (map (fun w => Z.of_nat (List.length w)) (Fields s))
   + Z.of_nat (List.length (Fields s))) / 2.

(** The cost of a turn with a text content. *)
Definition turnCost (h : History) : Z :=
  match History_Content h with
  | AnyString s => textCost s
  | _ => 0
  end.

Definition totalCost (h : list History) : Z := sumZ (map turnCost h).

(** [s] occurs in [m]; [m] starts with [s]. *)
Definition occursIn (s m : string) : Prop :=
  exists pre post, m = (pre ++ s ++ post)%string.

Definition startsWith (s m : string) : Prop :=
  exists post, m = (s ++ post)%string.

(** [l'] keeps some of the elements of [l], in the order they have in
    [l]. *)
Inductive Subsequence {A} : list A -> list A -> Prop :=
| Subsequence_nil : Subsequence [] []
| Subsequence_keep x l' l : Subsequence l' l -> Subsequence (x :: l') (x :: l)
| Subsequence_drop x l' l : Subsequence l' l -> Subsequence l' (x :: l).

(** A message entry of an envelope that holds an [output_text] part. *)
Definition hasOutputText (output : Output) : bool :=
  (Output_Type output =? messageType)%string
  && match firstOutputText (Output_Content output) with
     | Some _ => true
     | None => false
     end.

(** The first [output_text] part of an envelope, in list order: the first
    one of the first message entry that holds one. *)
Fixpoint firstMatch (outputs : list Output) : option string :=
  match outputs with
  | [] => None
  | output :: rest =>
    if hasOutputText output
    then firstOutputText (Output_Content output)
    else firstMatch rest
  end.

(** The history [initHistory] starts from when the client holds none. *)
Definition loadedHistory (env : Collaborators) (c : Client) : list History :=
  if Config_OmitHistory (Client_Config c) then []
  else fst (Store_Read (historyStore env)).

(** Between [c] and [c'] the configuration did not change and the store
    was not written to. *)
Definition sameTrace (c c' : Client) : Prop :=
  Client_Config c' = Client_Config c
  /\ Client_written c' = Client_written c.

(** Between [c] and [c'] the history of [c'] was handed to the store,
    once. *)
Definition wroteHistory (c c' : Client) : Prop :=
  Client_written c' = Client_History c' :: Client_written c.

(** A call of [Query] on [c] gets as far as the decoding of an answer:
    the history is prepared, which leaves the state [c1], the body is
    built, and the transport returns the bytes [raw] and no error. *)
Definition reachesDecoder (env : Collaborators) (ctx : Context)
    (input : string) (c c1 : Client) (raw : option string) : Prop :=
  prepareQuery env input c = Some (tt, c1)
  /\ exists body,
       createBody env c1 ctx false = Ok body
       /\ Caller_Post (caller env) (getChatEndpoint c1) body false
          = (raw, None).

(** ** Sample configurations, histories and collaborators *)

Module Sample.

(** The configuration of the tests of the client. *)
Definition config (model : string) (window : Z) : Config :=
  {| Config_Model := model;
     Config_MaxTokens := 100;
     Config_ContextWindow := window;
     Config_Role := "You are a test assistant.";
     Config_Temperature := 0x3FE6666666666666;
     Config_TopP := 0x3FECCCCCCCCCCCCD;
     Config_FrequencyPenalty := 0x3FB999999999999A;
     Config_PresencePenalty := 0x3FC999999999999A;
     Config_Seed := 1;
     Config_Effort := "low";
     Config_OmitHistory := false;
     Config_URL := "https://api.mock-openai.com";
     Config_CompletionsPath := "/v1/test/completions";
     Config_ResponsesPath := "/v1/responses";
     Config_TranscriptionsPath := "/v1/test/transcriptions";
     Config_AuthHeader := "MockAuthorization";
     Config_AuthTokenPrefix := "MockBearer ";
     Config_APIKey := "mock-api-key";
     Config_ApifyAPIKey := "mock-apify-key" |}.

Definition turn (role : string) (content : any) : History :=
  {| History_Message := {| Message_Role := role; Message_Name := "";
                           Message_Content := content |};
     History_Timestamp := 0 |}.

Definition text (role content : string) : History :=
  turn role (AnyString content).

(** The history of the truncation test, with the query appended. *)
Definition history : list History :=
  [ text SystemRole "You are a test assistant.";
    text UserRole "question 1"; text AssistantRole "answer 1";
    text UserRole "question 2"; text AssistantRole "answer 2";
    text UserRole "question 3"; text AssistantRole "answer 3";
    text UserRole "test query" ].

Definition client (model : string) (window : Z) (h : list History)
    : Client :=
  {| Client_Config := config model window;
     Client_History := h;
     Client_clock := 0;
     Client_written := [] |}.

(** A history whose anchor alone costs more than the budget. *)
Definition anchored : list History :=
  [ text SystemRole "You are a test assistant.";
    text UserRole "question 1"; text AssistantRole "answer 1" ].

(** A history read back from a store in which a turn holds a list of
    media items. *)
Definition media : list History :=
  [ text SystemRole "You are a test assistant.";
    turn UserRole
         (AnySlice [AnyMap [("type", AnyString "image_url");
                            ("image_url",
                             AnyMap [("url", AnyString "https://x/y.png")])]])
  ].

Definition message (parts : list (string * string)) : Output :=
  {| Output_Type := messageType;
     Output_Content :=
       map (fun p => {| Content_Type := fst p; Content_Text := snd p |})
           parts |}.

Definition envelope (outputs : list Output) : ResponsesResponse :=
  {| ResponsesResponse_Output := outputs;
     ResponsesResponse_Usage := {| TokenUsage_TotalTokens := 42 |} |}.

Definition completions (choices : list Choice) : CompletionsResponse :=
  {| CompletionsResponse_Choices := choices;
     CompletionsResponse_Usage :=
       {| Usage_PromptTokens := 123; Usage_CompletionTokens := 456;
          Usage_TotalTokens := 789 |} |}.

Definition choice (content : any) : Choice :=
  {| Choice_Message := {| Message_Role := AssistantRole;
                          Message_Name := "";
                          Message_Content := content |};
     Choice_FinishReason := "";
     Choice_Index := 0 |}.

(** A store that holds [stored] and whose every write fails. *)
Definition failingStore (stored : list History) : Store :=
  {| Store_Read := (stored, None);
     Store_Write := fun _ => Some "write failed" |}.

Definition library (classic : CompletionsResponse)
    (alternate : ResponsesResponse) : Library :=
  {| json_Marshal := fun _ => Ok "{}";
     json_UnmarshalCompletions := fun _ => Ok classic;
     json_UnmarshalResponses := fun _ => Ok alternate;
     json_UnmarshalText := fun _ => Ok "transcribed text";
     json_UnmarshalAny := fun _ => Ok (AnyMap [("key", AnyString "value")]);
     multipart_Form := fun _ _ contents => (contents, "multipart/form-data");
     filepath_Base := fun p => p;
     strings_ToLower := fun s => s;
     sort_Strings := fun l => l;
     formatKeyValues := fun _ => ["Key: value"];
     ApifyProvider := "apify";
     proxyConfiguration := fun b => AnyMap [("useApifyProxy", AnyBool b)];
     createImageContentFromBinary := fun _ => Err "no image";
     createImageContentFromURLOrFile := fun _ => Err "no image";
     createAudioContentFromFile := fun _ => Err "no audio" |}.

(** Collaborators that answer every call, except for the store, whose
    writes fail. *)
Definition env (stored : list History) (classic : CompletionsResponse)
    (alternate : ResponsesResponse) : Collaborators :=
  {| caller :=
       {| Caller_Post := fun _ _ _ => (Some "answer", None);
          Caller_PostWithHeaders := fun _ _ _ => (Some "answer", None) |};
     historyStore := failingStore stored;
     timer := {| Timer_Now := fun n => Z.of_nat n |};
     reader := {| FileReader_Open := fun _ => Ok (Ok "audio") |};
     lib := library classic alternate |}.

Definition plainEnv : Collaborators :=
  env [] (completions [choice (AnyString "content")])
      (envelope [message [(outputTextType, "yes, it does")]]).

Definition noContext : Context :=
  {| Context_BinaryData := None; Context_ImagePath := None;
     Context_AudioPath := None |}.

Definition mcp : MCPRequest :=
  {| MCPRequest_Provider := "apify";
     MCPRequest_Function := "user~actor";
     MCPRequest_Params := Some [] |}.

(** A chunk decoder for payloads that are a digit for a chunk without
    content and a letter for a chunk with one. *)
Definition parseChunk (payload : string) : Result (option string) :=
  if (payload =? "A")%string then Ok (Some "a")
  else if (payload =? "B")%string then Ok (Some " b")
  else if (payload =? "C")%string then Ok (Some " c")
  else if (payload =? "0")%string then Ok None
  else if (payload =? "1")%string then Ok None
  else Err "unexpected end of JSON input".

End Sample.

(** The turn [addQuery] appends for [query] when the timer has been asked
    [clock] times. *)
Definition queryTurn (env : Collaborators) (query : string) (clock : nat)
    : History :=
  {| History_Message := userMessage (AnyString query);
     History_Timestamp := Timer_Now (timer env) clock |}.

(** The budget of a client. *)
Definition budgetOf (c : Client) : Z :=
  calculateEffectiveContextWindow
    (Config_ContextWindow (Client_Config c)) MaxTokenBufferPercentage.

(** The turn [updateHistory] appends for [response] when the timer has
    been asked [clock] times. *)
Definition assistantTurn (env : Collaborators) (response : string)
    (clock : nat) : History :=
  {| History_Message :=
       {| Message_Role := AssistantRole; Message_Name := "";
          Message_Content := AnyString response |};
     History_Timestamp := Timer_Now (timer env) clock |}.

(** The first turn of the history of [c] holds the text [role]. *)
Definition anchorIs (role : string) (c : Client) : Prop :=
  exists h0 rest,
    Client_History c = h0 :: rest /\ History_Content h0 = AnyString role.

(** The client holds no history yet, or one whose first turn holds the
    configured persona text. *)
Definition anchored (c : Client) : Prop :=
  Client_History c = [] \/ anchorIs (Config_Role (Client_Config c)) c.

(** A client with history tracking off. *)
Definition omitClient : Client :=
  {| Client_Config :=
       {| Config_Model := "gpt-3.5-turbo"; Config_MaxTokens := 100;
          Config_ContextWindow := 50;
          Config_Role := "You are a test assistant.";
          Config_Temperature := 0; Config_TopP := 0;
          Config_FrequencyPenalty := 0; Config_PresencePenalty := 0;
          Config_Seed := 1; Config_Effort := "low";
          Config_OmitHistory := true;
          Config_URL := "https://api.mock-openai.com";
          Config_CompletionsPath := "/v1/test/completions";
          Config_ResponsesPath := "/v1/responses";
          Config_TranscriptionsPath := "/v1/test/transcriptions";
          Config_AuthHeader := "MockAuthorization";
          Config_AuthTokenPrefix := "MockBearer ";
          Config_APIKey := "mock-api-key";
          Config_ApifyAPIKey := "mock-apify-key" |};
     Client_History := [];
     Client_clock := 0;
     Client_written := [] |}.

(** Collaborators whose reader cannot open any file. *)
Definition unreadableEnv : Collaborators :=
  {| caller := caller Sample.plainEnv;
     historyStore := historyStore Sample.plainEnv;
     timer := timer Sample.plainEnv;
     reader := {| FileReader_Open := fun _ => Err "no such file" |};
     lib := lib Sample.plainEnv |}.

(** From [c] to [c'] the configuration and the store are as they were and
    the first turn of the history, if there was one, is still first. *)
Definition keeps (c c' : Client) : Prop :=
  sameTrace c c'
  /\ forall h0 rest,
       Client_History c = h0 :: rest ->
       exists rest', Client_History c' = h0 :: rest'.

(** The messages of the history that go into a request. *)
Definition historyMessages (c : Client) : list Message :=
  let caps := GetCapabilities (Config_Model (Client_Config c)) in
  map History_Message
      (if OmitFirstSystemMsg caps then tl (Client_History c)
       else Client_History c).

(** The call carries no attachment. *)
Definition noAttachment (ctx : Context) : Prop :=
  Context_BinaryData ctx = None
  /\ Context_ImagePath ctx = None
  /\ Context_AudioPath ctx = None.

(** The number of bytes of the content of a turn, when it is text. *)
Definition contentBytes (h : History) : Z :=
  match History_Content h with
  | AnyString s => Z.of_nat (String.length s)
  | _ => 0
  end.

(** ** Listing the models *)

Definition gptPrefix := "gpt".

(** [sort.Slice] of the entries by [Id] with [<] on strings, which
    compares byte by byte.  Only the [Id] of an entry is read, so an entry
    is kept as its [Id]; the order of equal identifiers, which the sort
    leaves open, then makes no difference. *)
Fixpoint insertId (id : string) (sorted : list string) : list string :=
  match sorted with
  | [] => [id]
  | other :: rest =>
    if String.ltb other id then other :: insertId id rest
    else id :: other :: rest
  end.

Definition sortIds (ids : list string) : list string :=
  fold_right insertId [] ids.

(** The test on the identifier in the loop of [ListModels]. *)
Definition isChatModel (id : string) : bool :=
  HasPrefix id gptPrefix || HasPrefix id o1Prefix.

(** The line of [ListModels] for a model, [current] being the configured
    one. *)
Definition modelLine (current id : string) : string :=
  if negb (id =? current)%string then ("- " ++ id)%string
  else ("* " ++ id ++ " (current)")%string.

(** The loop of [ListModels] over the sorted entries. *)
Fixpoint modelLines (current : string) (data : list string) : list string :=
  match data with
  | [] => []
  | id :: rest =>
    if isChatModel id then modelLine current id :: modelLines current rest
    else modelLines current rest
  end.

Section Models.

(** [c.caller.Get], the decoder of [api.ListModelsResponse], which gives
    the identifiers of its entries, and [c.Config.ModelsPath]. *)
Variable callerGet : string -> option string * option error.
Variable unmarshalModels : string -> Result (list string).
Variable modelsPath : string.

Definition ListModels (c : Client) : Result (list string) :=
  let (raw, err) := callerGet (getEndpoint c modelsPath) in
  match err with
  | Some e => Err e
  | None =>
    match processResponse unmarshalModels raw with
    | Err e => Err e
    | Ok data =>
      Ok (modelLines (Config_Model (Client_Config c)) (sortIds data))
    end
  end.

End Models.

(** The identifiers are in ascending order. *)
Definition ascending (ids : list string) : Prop :=
  Sorted (fun a b => String.leb a b = true) ids.

(** ** Providing context *)

Definition byteOf (a : ascii) : Z := Z.of_N (N_of_ascii a).

(** [decodeRunes], with each rune the bytes it was read from. *)
Fixpoint decodeSpans (bs : list ascii) : list (rune * string) :=
  match bs with
  | [] => []
  | a0 :: t0 =>
    let b0 := byteOf a0 in
    let one := String a0 EmptyString in
    if b0 <? 0x80 then (b0, one) :: decodeSpans t0
    else
      match first b0 with
      | None => (RuneError, one) :: decodeSpans t0
      | Some (sz, lo, hi) =>
        match t0 with
        | [] => (RuneError, one) :: decodeSpans t0
        | a1 :: t1 =>
          let b1 := byteOf a1 in
          if negb (inRange lo hi b1) then (RuneError, one) :: decodeSpans t0
          else if sz =? 2 then
            (Z.lor (Z.shiftl (Z.land b0 0x1F) 6) (cont b1),
             String a0 (String a1 EmptyString)) :: decodeSpans t1
          else
            match t1 with
            | [] => (RuneError, one) :: decodeSpans t0
            | a2 :: t2 =>
              let b2 := byteOf a2 in
              if negb (inRange 0x80 0xBF b2)
              then (RuneError, one) :: decodeSpans t0
              else if sz =? 3 then
                (Z.lor (Z.shiftl (Z.land b0 0x0F) 12)
                       (Z.lor (Z.shiftl (cont b1) 6) (cont b2)),
                 String a0 (String a1 (String a2 EmptyString)))
                :: decodeSpans t2
              else
                match t2 with
                | [] => (RuneError, one) :: decodeSpans t0
                | a3 :: t3 =>
                  let b3 := byteOf a3 in
                  if negb (inRange 0x80 0xBF b3)
                  then (RuneError, one) :: decodeSpans t0
                  else
                    (Z.lor (Z.shiftl (Z.land b0 0x07) 18)
                           (Z.lor (Z.shiftl (cont b1) 12)
                                  (Z.lor (Z.shiftl (cont b2) 6) (cont b3))),
                     String a0 (String a1 (String a2 (String a3 EmptyString))))
                    :: decodeSpans t3
                end
            end
        end
      end
  end.

(** [cur] holds the bytes of the word being read. *)
Fixpoint fieldSpansFrom (spans : list (rune * string)) (cur : string)
    : list string :=
  match spans with
  | [] => match cur with EmptyString => [] | _ => [cur] end
  | (r, bytes) :: rest =>
    if IsSpace r then
      match cur with
      | EmptyString => fieldSpansFrom rest ""
      | _ => cur :: fieldSpansFrom rest ""
      end
    else fieldSpansFrom rest (cur ++ bytes)%string
  end.

(** [strings.Fields], the words kept as the strings they are. *)
Definition FieldsStr (s : string) : list string :=
  fieldSpansFrom (decodeSpans (list_ascii_of_string s)) "".

(** [strings.Join words " "]. *)
Fixpoint joinWords (words : list string) : string :=
  match words with
  | [] => ""
  | [w] => w
  | w :: rest => (w ++ " " ++ joinWords rest)%string
  end.

(** [words[i:end]], for [i <= end <= len(words)]. *)
Definition slice {A} (l : list A) (i j : nat) : list A :=
  firstn (j - i) (skipn i l).

Section Context.

Variable env : Collaborators.

(** The loop of [createHistoryEntriesFromString] from index [i]; [fuel]
    bounds the number of rounds, and a round moves [i] forward, so the
    number of words is fuel enough. *)
Fixpoint entriesFrom (fuel i : nat) (words : list string)
    : Go (list History) :=
  match fuel with
  | O => ret []
  | S fuel' =>
    if (i <? List.length words)%nat then
      let stop :=
        if (List.length words <? i + 100)%nat then List.length words
        else (i + 100)%nat in
      let content := joinWords (slice words i stop) in
      t <- now env ;;
      rest <- entriesFrom fuel' (i + 100) words ;;
      ret ({| History_Message := userMessage (AnyString content);
              History_Timestamp := t |} :: rest)
    else ret []
  end.

Definition createHistoryEntriesFromString (input : string)
    : Go (list History) :=
  let words := FieldsStr input in
  entriesFrom (List.length words) 0 words.

Definition ProvideContext (context : string) : Go unit :=
  initHistory env ;;
  historyEntries <- createHistoryEntriesFromString context ;;
  c <- get ;;
  setHistory (Client_History c ++ historyEntries).

End Context.

(** ** The history manager (package [history]) *)

Module Manager.

Definition assistantRole := "assistant".
Definition systemRole := "system".
Definition userRole := "user".
Definition functionRole := "function".

(** [time.Time{}], the zero instant. *)
Definition zeroTime : Time := 0.

Section Manager.

(** [Store.ReadThread], and what the library gives: [strings.ToUpper],
    the layout of an instant, and the text [%s] prints for a value that
    is not a string. *)
Variable readThread : string -> list History * option error.
Variable toUpper : string -> string.
Variable formatTime : Time -> string.
Variable formatValue : any -> string.

(** What [%s] prints for a content. *)
Definition sprintContent (v : any) : string :=
  match v with
  | AnyString s => s
  | _ => formatValue v
  end.

Definition formatHistory (entry : History) : string :=
  let role := Message_Role (History_Message entry) in
  let '(emoji, prefix, timestamp) :=
    if (role =? systemRole)%string then ("💻", newline, "")
    else if (role =? userRole)%string then
      ("👤", ("---" ++ newline)%string,
       if History_Timestamp entry =? zeroTime then ""
       else (" [" ++ formatTime (History_Timestamp entry) ++ "]")%string)
    else if (role =? functionRole)%string then
      ("🔌", ("---" ++ newline)%string, "")
    else if (role =? assistantRole)%string then ("🤖", newline, "")
    else ("", "", "") in
  (prefix ++ "**" ++ toUpper role ++ "** " ++ emoji ++ timestamp ++ ":"
   ++ newline ++ sprintContent (History_Content entry) ++ newline)%string.

(** The entry [Print] builds for the user messages it has put together. *)
Definition userEntry (content : string) (timestamp : Time) : History :=
  {| History_Message := {| Message_Role := userRole; Message_Name := "";
                           Message_Content := AnyString content |};
     History_Timestamp := timestamp |}.

(** The loop of [ParseUserHistory]; [None] is the panic of
    [entry.Content.(string)]. *)
Fixpoint parseUserFrom (entries : list History) (result : list string)
    : option (list string) :=
  match entries with
  | [] => Some result
  | entry :: rest =>
    if (Message_Role (History_Message entry) =? userRole)%string then
      match assertString (History_Content entry) with
      | None => None
      | Some s => parseUserFrom rest (result ++ [s])
      end
    else parseUserFrom rest result
  end.

Definition ParseUserHistory (thread : string)
    : option (list string * option error) :=
  let (historyEntries, err) := readThread thread in
  match err with
  | Some e => Some ([], Some e)
  | None =>
    match parseUserFrom historyEntries [] with
    | None => None
    | Some result => Some (result, None)
    end
  end.

(** The loop of [Print], from the values of [result], [lastRole] and
    [concatenatedMessage]. *)
Fixpoint printFrom (entries : list History)
    (result lastRole concatenatedMessage : string)
    : option (string * string * string) :=
  match entries with
  | [] => Some (result, lastRole, concatenatedMessage)
  | entry :: rest =>
    let role := Message_Role (History_Message entry) in
    if (role =? userRole)%string && (lastRole =? userRole)%string then
      match assertString (History_Content entry) with
      | None => None
      | Some s => printFrom rest result role (concatenatedMessage ++ s)%string
      end
    else
      let '(result, concatenatedMessage) :=
        if (lastRole =? userRole)%string
           && negb (concatenatedMessage =? "")%string
        then
          ((result
            ++ formatHistory
                 (userEntry concatenatedMessage (History_Timestamp entry)))%string,
           "")
        else (result, concatenatedMessage) in
      if (role =? userRole)%string then
        match assertString (History_Content entry) with
        | None => None
        | Some s => printFrom rest result role s
        end
      else
        printFrom rest (result ++ formatHistory entry)%string role
                  concatenatedMessage
  end.

Definition Print (thread : string) : option (string * option error) :=
  let (historyEntries, err) := readThread thread in
  match err with
  | Some e => Some ("", Some e)
  | None =>
    match printFrom historyEntries "" "" "" with
    | None => None
    | Some (result, lastRole, concatenatedMessage) =>
      if (lastRole =? userRole)%string
         && negb (concatenatedMessage =? "")%string
      then
        Some ((result
               ++ formatHistory (userEntry concatenatedMessage zeroTime))%string,
              None)
      else Some (result, None)
    end
  end.

(** The block [Print] gives for user messages put together, none when
    they are empty. *)
Definition userBlock (content : string) (timestamp : Time) : string :=
  if (content =? "")%string then ""
  else formatHistory (userEntry content timestamp).

End Manager.

(** An entry of role user whose content is text; one of another role. *)
Definition isUserText (entry : History) : Prop :=
  Message_Role (History_Message entry) = userRole /\ isText entry.

Definition notUser (entry : History) : Prop :=
  Message_Role (History_Message entry) <> userRole.

(** The text an entry holds, none when its content is not text. *)
Definition textOf (entry : History) : string :=
  match History_Content entry with
  | AnyString s => s
  | _ => ""
  end.

(** The texts of entries, joined with nothing in between. *)
Fixpoint texts (entries : list History) : string :=
  match entries with
  | [] => ""
  | entry :: rest => (textOf entry ++ texts rest)%string
  end.

(** An exchange: user messages in a row, possibly none, and the entry of
    another role that follows them. *)
Definition exchange : Type := list History * History.

Definition isExchange (x : exchange) : Prop :=
  Forall isUserText (fst x) /\ notUser (snd x).

Definition entriesOf (xs : list exchange) : list History :=
  List.concat (map (fun x => fst x ++ [snd x]) xs).

End Manager.

(** ** A thread of the history manager *)

Module ManagerSample.

Definition entry (role content : string) (timestamp : Time) : History :=
  {| History_Message := {| Message_Role := role; Message_Name := "";
                           Message_Content := AnyString content |};
     History_Timestamp := timestamp |}.

(** An entry of role user whose content is a list of image parts. *)
Definition picture : History :=
  {| History_Message := {| Message_Role := Manager.userRole;
                           Message_Name := "";
                           Message_Content := AnyImageContents [] |};
     History_Timestamp := 5 |}.

Definition exchanges : list Manager.exchange :=
  [([], entry Manager.systemRole "be brief" 0);
   ([entry Manager.userRole "how " 1; entry Manager.userRole "are you?" 2],
    entry Manager.assistantRole "fine" 3)].

Definition trailing : list History := [entry Manager.userRole "and now?" 4].

Definition readThread (thread : string) : list History * option error :=
  if (thread =? "default")%string then
    (Manager.entriesOf exchanges ++ trailing, None)
  else if (thread =? "pictures")%string then
    (Manager.entriesOf exchanges ++ [picture], None)
  else ([], Some "no such thread").

(** [strings.ToUpper] on the letters a to z. *)
Definition upper (a : ascii) : ascii :=
  let n := nat_of_ascii a in
  if ((97 <=? n) && (n <=? 122))%nat then ascii_of_nat (n - 32) else a.

Fixpoint toUpper (s : string) : string :=
  match s with
  | EmptyString => EmptyString
  | String a rest => String (upper a) (toUpper rest)
  end.

Definition formatTime (t : Time) : string :=
  if t =? 3 then "2024-05-01 10:00:03" else "2024-05-01 10:00:00".

Definition formatValue (v : any) : string := "".

End ManagerSample.

(** The turn [InjectMCPContext] appends for the function [function] when
    the transport has answered [raw] and the timer gives [t]. *)
Definition functionTurn (env : Collaborators) (function : string)
    (raw : option string) (t : Time) : History :=
  {| History_Message :=
       {| Message_Role := FunctionRole;
          Message_Name := replaceTilde function;
          Message_Content := AnyString (formatMCPResponse env raw function) |};
     History_Timestamp := t |}.

(** * Properties *)

(** ** Strings *)

Lemma prefix_startsWith (p s : string) :
  String.prefix p s = true <-> startsWith p s.
Proof.
  revert s. induction p as [|a p IH]; intros [|b s]; simpl.
  - split; [intros _; exists ""; reflexivity | reflexivity].
  - split; [intros _; exists (String b s); reflexivity | reflexivity].
  - split; [discriminate | intros [post H]; discriminate H].
  - destruct (ascii_dec a b) as [->|Hab].
    + rewrite IH. split; intros [post H]; exists post.
      * simpl. now rewrite H.
      * simpl in H. now inversion H.
    + split; [discriminate |].
      intros [post H]. simpl in H. inversion H; subst.
      exfalso. now apply Hab.
Qed.

Lemma Contains_occursIn (s sub : string) :
  Contains s sub = true <-> occursIn sub s.
Proof.
  induction s as [|a s IH].
  - cbn [Contains]. rewrite orb_false_r, prefix_startsWith.
    split.
    + intros [post H]. exists "", post. exact H.
    + intros [pre [post H]]. destruct pre; [exists post; exact H |].
      discriminate H.
  - cbn [Contains]. rewrite orb_true_iff, prefix_startsWith, IH.
    split.
    + intros [[post H] | [pre [post H]]].
      * exists "", post. exact H.
      * exists (String a pre), post. simpl. now rewrite H.
    + intros [pre [post H]]. destruct pre as [|b pre].
      * left. exists post. exact H.
      * right. exists pre, post. simpl in H. now inversion H.
Qed.

Lemma Contains_false (s sub : string) :
  Contains s sub = false <-> ~ occursIn sub s.
Proof.
  rewrite <- Contains_occursIn. destruct (Contains s sub); split; intros H.
  - discriminate.
  - exfalso. now apply H.
  - discriminate.
  - reflexivity.
Qed.

(** ** Model capabilities *)

(** C2.  For every model identifier [m], [GetCapabilities m] is a value
    fixed by [m] alone: temperature is supported unless ["-search"] occurs
    in [m]; streaming is supported unless ["o1-pro"] occurs in [m]; the
    responses API is used when ["o1-pro"] or ["gpt-5"] occurs in [m]; the
    first system message is omitted when [m] starts with ["o1"] and
    ["o1-pro"] does not occur in it.  The four identifiers of the table
    get the flags the table gives. *)
Theorem GetCapabilities_rules :
  (forall m,
      (SupportsTemperature (GetCapabilities m) = true
       <-> ~ occursIn "-search" m)
      /\ (SupportsStreaming (GetCapabilities m) = true
          <-> ~ occursIn "o1-pro" m)
      /\ (UsesResponsesAPI (GetCapabilities m) = true
          <-> occursIn "o1-pro" m \/ occursIn "gpt-5" m)
      /\ (OmitFirstSystemMsg (GetCapabilities m) = true
          <-> startsWith "o1" m /\ ~ occursIn "o1-pro" m))
  /\ SupportsTemperature (GetCapabilities "gpt-4o-search-preview") = false
  /\ UsesResponsesAPI (GetCapabilities "o1-pro") = true
  /\ SupportsStreaming (GetCapabilities "o1-pro") = false
  /\ UsesResponsesAPI (GetCapabilities "gpt-5-x") = true
  /\ OmitFirstSystemMsg (GetCapabilities "o1-mini") = true
  /\ UsesResponsesAPI (GetCapabilities "o1-mini") = false.
Proof.
  split; [| repeat split; reflexivity].
  intros m. unfold GetCapabilities; cbn [SupportsTemperature SupportsStreaming
    UsesResponsesAPI OmitFirstSystemMsg].
  unfold SearchModelPattern, o1ProPattern, gpt5Pattern, o1Prefix, HasPrefix.
  rewrite !negb_true_iff, orb_true_iff, andb_true_iff, negb_true_iff.
  rewrite !Contains_false, !Contains_occursIn, prefix_startsWith.
  repeat split; tauto.
Qed.

(** ** Token costs *)

Lemma charCountOf_from (words : list word) (start : Z) :
  fold_left (fun charCount w => charCount + RuneCountInString w) words start
  = start + sumZ (map (fun w => Z.of_nat (List.length w)) words).
Proof.
  revert start. induction words as [|w words IH]; intros start; simpl.
  - lia.
  - rewrite IH. unfold RuneCountInString. lia.
Qed.

Lemma sumZ_lengths_nonneg (words : list word) :
  0 <= sumZ (map (fun w => Z.of_nat (List.length w)) words).
Proof.
  induction words as [|w words IH]; simpl; lia.
Qed.

Lemma tokenCountForMessage_textCost (s : string) :
  tokenCountForMessage s = textCost s.
Proof.
  unfold tokenCountForMessage, textCost, charCountOf.
  rewrite charCountOf_from, Z.add_0_l.
  apply Z.quot_div_nonneg; [| lia].
  pose proof (sumZ_lengths_nonneg (Fields s)). lia.
Qed.

Lemma textCost_nonneg (s : string) : 0 <= textCost s.
Proof.
  unfold textCost. apply Z.div_pos; [| lia].
  pose proof (sumZ_lengths_nonneg (Fields s)). lia.
Qed.

Lemma turnCost_nonneg (h : History) : 0 <= turnCost h.
Proof.
  unfold turnCost. destruct (History_Content h); try lia.
  apply textCost_nonneg.
Qed.

Lemma totalCost_nonneg (h : list History) : 0 <= totalCost h.
Proof.
  unfold totalCost. induction h as [|x h IH]; simpl; [lia |].
  pose proof (turnCost_nonneg x). lia.
Qed.

Lemma Forall_nonneg_costs (h : list History) :
  Forall (fun z => 0 <= z) (map turnCost h).
Proof.
  induction h; simpl; constructor; auto using turnCost_nonneg.
Qed.

Lemma countTokensFrom_text (entries : list History) :
  Forall isText entries ->
  forall result rolling,
    countTokensFrom entries result rolling
    = Some (result + totalCost entries, rolling ++ map turnCost entries).
Proof.
  induction 1 as [|entry rest [s Hs] _ IH]; intros result rolling.
  - cbn. now rewrite Z.add_0_r, app_nil_r.
  - cbn [countTokensFrom]. rewrite Hs. cbn [assertString].
    rewrite IH, tokenCountForMessage_textCost.
    assert (Hc : turnCost entry = textCost s) by (unfold turnCost; now rewrite Hs).
    change (totalCost (entry :: rest)) with (turnCost entry + totalCost rest).
    cbn [map]. rewrite Hc, <- app_assoc, Z.add_assoc. reflexivity.
Qed.

Lemma countTokens_text (entries : list History) :
  Forall isText entries ->
  countTokens entries = Some (totalCost entries, map turnCost entries).
Proof.
  intros H. unfold countTokens. now rewrite countTokensFrom_text.
Qed.

(** A turn that is not text anywhere in the history makes [countTokens]
    panic. *)
Lemma countTokensFrom_not_text (entries : list History) (h : History) :
  In h entries ->
  assertString (History_Content h) = None ->
  forall result rolling, countTokensFrom entries result rolling = None.
Proof.
  induction entries as [|entry rest IH]; intros Hin Hh result rolling.
  - destruct Hin.
  - cbn [countTokensFrom].
    destruct (assertString (History_Content entry)) eqn:E; [| reflexivity].
    destruct Hin as [-> | Hin]; [congruence |].
    now apply IH.
Qed.

(** ** Truncation *)

Lemma wrap64_small (z : Z) : - 2 ^ 63 <= z < 2 ^ 63 -> wrap64 z = z.
Proof.
  intros H. unfold wrap64. rewrite Z.mod_small; lia.
Qed.

Lemma effective_window_in_range (window : Z) :
  - 2 ^ 63 <= window * (100 - 20) < 2 ^ 63 ->
  calculateEffectiveContextWindow window MaxTokenBufferPercentage
  = Z.quot (window * (100 - 20)) 100.
Proof.
  intros H. unfold calculateEffectiveContextWindow, MaxTokenBufferPercentage.
  rewrite (wrap64_small (100 - 20)) by lia.
  now rewrite wrap64_small.
Qed.

Lemma withHistory_same (c : Client) : withHistory c (Client_History c) = c.
Proof. now destruct c. Qed.

(** What a pass does on a history of text turns. *)
Lemma truncateHistory_text (c : Client) :
  Forall isText (Client_History c) ->
  truncateHistory c
  = let T := totalCost (Client_History c) in
    let B := calculateEffectiveContextWindow
               (Config_ContextWindow (Client_Config c))
               MaxTokenBufferPercentage in
    if T <=? B then Some (tt, c)
    else
      match Client_History c with
      | [] => None
      | h0 :: _ =>
        Some (tt,
              withHistory c
                (h0 :: skipn
                         (cutIndex (skipn 1 (map turnCost (Client_History c)))
                                   1 0 (T - B) + 1)
                         (Client_History c)))
      end.
Proof.
  intros H. unfold truncateHistory, bind, get.
  rewrite (countTokens_text _ H). cbv zeta.
  destruct (_ <=? _); [reflexivity |].
  destruct (Client_History c); reflexivity.
Qed.

Lemma sumZ_nonneg (l : list Z) : Forall (fun z => 0 <= z) l -> 0 <= sumZ l.
Proof.
  induction 1 as [|x l Hx _ IH]; unfold sumZ in *; cbn; lia.
Qed.

(** When no running sum exceeds [diff], the index keeps its zero value. *)
Lemma cutIndex_never (rest : list Z) :
  Forall (fun z => 0 <= z) rest ->
  forall i total diff,
    total + sumZ rest <= diff -> cutIndex rest i total diff = 0%nat.
Proof.
  induction 1 as [|r rest Hr Hrest IH]; intros i total diff Hle;
    cbn [cutIndex].
  - reflexivity.
  - change (sumZ (r :: rest)) with (r + sumZ rest) in Hle.
    pose proof (sumZ_nonneg rest Hrest).
    destruct (total + r >? diff) eqn:E.
    + apply Z.gtb_lt in E. lia.
    + apply IH. lia.
Qed.

(** C1.  For a history of text turns, the pass computes the cost of each
    turn as the number of characters of its whitespace-split words plus
    the number of these words, halved (integer division), and the budget
    as [contextWindow * (100 - 20) / 100] (integer division); when the
    overflow, the total cost less the budget, lies strictly between the
    cost of turn 1 and the sum of the costs of turns 1 and 2, the pass
    removes turns 1 and 2 and keeps turn 0 and the turns from index 3 on,
    in their order. *)
Theorem truncateHistory_evicts_turns_1_and_2
    (c : Client) (t0 t1 t2 : History) (rest : list History) :
  Client_History c = t0 :: t1 :: t2 :: rest ->
  Forall isText (Client_History c) ->
  let window := Config_ContextWindow (Client_Config c) in
  let T := totalCost (Client_History c) in
  let effectiveBudget :=
    calculateEffectiveContextWindow window MaxTokenBufferPercentage in
  let overflow := T - effectiveBudget in
  turnCost t1 < overflow < turnCost t1 + turnCost t2 ->
  countTokens (Client_History c) = Some (T, map turnCost (Client_History c))
  /\ (- 2 ^ 63 <= window * (100 - 20) < 2 ^ 63 ->
      effectiveBudget = Z.quot (window * (100 - 20)) 100)
  /\ truncateHistory c = Some (tt, withHistory c (t0 :: rest)).
Proof.
  intros Hh Htext window T effectiveBudget overflow Hover.
  split; [now apply countTokens_text |].
  split; [apply effective_window_in_range |].
  rewrite (truncateHistory_text c Htext). cbv zeta.
  fold window T effectiveBudget overflow.
  pose proof (turnCost_nonneg t1) as H1.
  destruct (T <=? effectiveBudget) eqn:E.
  - apply Z.leb_le in E. unfold overflow in Hover. lia.
  - rewrite Hh. cbn [map skipn cutIndex].
    rewrite !Z.gtb_ltb.
    replace (overflow <? 0 + turnCost t1) with false
      by (symmetry; apply Z.ltb_ge; lia).
    replace (overflow <? 0 + turnCost t1 + turnCost t2) with true
      by (symmetry; apply Z.ltb_lt; lia).
    reflexivity.
Qed.

Lemma truncateHistory_evicts_turns_1_and_2_witness :
  truncateHistory (Sample.client "gpt-3.5-turbo" 48 Sample.history)
  = Some (tt, Sample.client "gpt-3.5-turbo" 48
                (Sample.text SystemRole "You are a test assistant."
                 :: skipn 3 Sample.history)).
Proof.
  refine (proj2 (proj2
    (truncateHistory_evicts_turns_1_and_2
       (Sample.client "gpt-3.5-turbo" 48 Sample.history)
       _ _ _ _ eq_refl _ _))).
  - repeat constructor; eexists; reflexivity.
  - vm_compute. split; reflexivity.
Defined.

(** C5, as the code has it.  When the overflow is at least the sum of the
    costs of the turns after the anchor, no running sum exceeds it, the
    cut index keeps its initial value [0] and the removal is empty: the
    pass leaves the whole history in place, turn 1 included, and does not
    check the total against the budget again. *)
Theorem truncateHistory_overflow_beyond_all
    (c : Client) (h0 : History) (rest : list History) :
  Client_History c = h0 :: rest ->
  Forall isText (Client_History c) ->
  let T := totalCost (Client_History c) in
  let effectiveBudget :=
    calculateEffectiveContextWindow
      (Config_ContextWindow (Client_Config c)) MaxTokenBufferPercentage in
  T > effectiveBudget ->
  T - effectiveBudget >= totalCost rest ->
  cutIndex (skipn 1 (map turnCost (Client_History c))) 1 0
           (T - effectiveBudget) = 0%nat
  /\ truncateHistory c = Some (tt, c)
  /\ totalCost (Client_History c) > effectiveBudget.
Proof.
  intros Hh Htext T effectiveBudget Hover Hall.
  assert (Hcut : cutIndex (skipn 1 (map turnCost (Client_History c))) 1 0
                          (T - effectiveBudget) = 0%nat).
  { rewrite Hh. cbn [map skipn]. apply cutIndex_never.
    - apply Forall_nonneg_costs.
    - unfold totalCost in Hall. lia. }
  split; [exact Hcut |]. split; [| exact Hover].
  rewrite (truncateHistory_text c Htext). cbv zeta.
  fold T effectiveBudget. rewrite Hcut.
  destruct (T <=? effectiveBudget) eqn:E; [reflexivity |].
  rewrite Hh at 1. rewrite Hh at 1. cbn [Nat.add skipn].
  rewrite <- Hh. now rewrite withHistory_same.
Qed.

Lemma truncateHistory_overflow_beyond_all_witness :
  truncateHistory (Sample.client "gpt-3.5-turbo" 10 Sample.anchored)
  = Some (tt, Sample.client "gpt-3.5-turbo" 10 Sample.anchored).
Proof.
  refine (proj1 (proj2
    (truncateHistory_overflow_beyond_all
       (Sample.client "gpt-3.5-turbo" 10 Sample.anchored)
       _ _ eq_refl _ _ _))).
  - repeat constructor; eexists; reflexivity.
  - vm_compute. reflexivity.
  - vm_compute. discriminate.
Defined.

(** C5, as it is worded, fails: it has the pass delete the turn at index
    1.  On the sample history, whose anchor alone costs more than the
    budget, the pass deletes nothing. *)
Lemma truncateHistory_does_not_delete_turn_1 :
  ~ (forall (c : Client) (h0 h1 : History) (rest : list History),
        Client_History c = h0 :: h1 :: rest ->
        Forall isText (Client_History c) ->
        let T := totalCost (Client_History c) in
        let effectiveBudget :=
          calculateEffectiveContextWindow
            (Config_ContextWindow (Client_Config c))
            MaxTokenBufferPercentage in
        T > effectiveBudget ->
        T - effectiveBudget >= totalCost (h1 :: rest) ->
        truncateHistory c = Some (tt, withHistory c (h0 :: rest))).
Proof.
  intros claim.
  specialize (claim (Sample.client "gpt-3.5-turbo" 10 Sample.anchored)
                    _ _ _ eq_refl).
  assert (Htext : Forall isText Sample.anchored)
    by (repeat constructor; eexists; reflexivity).
  specialize (claim Htext). cbv zeta in claim.
  assert (H : truncateHistory (Sample.client "gpt-3.5-turbo" 10 Sample.anchored)
              = Some (tt, Sample.client "gpt-3.5-turbo" 10 Sample.anchored))
    by (vm_compute; reflexivity).
  rewrite H in claim.
  assert (Hc : Some (tt, Sample.client "gpt-3.5-turbo" 10 Sample.anchored)
               = Some (tt, withHistory
                             (Sample.client "gpt-3.5-turbo" 10 Sample.anchored)
                             [Sample.text SystemRole "You are a test assistant.";
                              Sample.text AssistantRole "answer 1"])).
  { apply claim; vm_compute; [reflexivity | discriminate]. }
  discriminate Hc.
Qed.

Lemma Subsequence_refl {A} (l : list A) : Subsequence l l.
Proof. induction l; constructor; assumption. Qed.

Lemma Subsequence_skipn {A} (k : nat) (l : list A) :
  Subsequence (skipn k l) l.
Proof.
  revert l. induction k as [|k IH]; intros l.
  - apply Subsequence_refl.
  - destruct l as [|x l]; [constructor |].
    cbn [skipn]. constructor. apply IH.
Qed.

(** What a pass that completes leaves: the history itself, or its first
    turn followed by a suffix of the others. *)
Lemma truncateHistory_result (c c' : Client) (h0 : History)
    (rest : list History) :
  Client_History c = h0 :: rest ->
  truncateHistory c = Some (tt, c') ->
  Client_Config c' = Client_Config c
  /\ exists k, Client_History c' = h0 :: skipn k rest.
Proof.
  intros Hh. unfold truncateHistory, bind, get.
  destruct (countTokens (Client_History c)) as [[tokens rolling]|];
    [| discriminate].
  destruct (_ <=? _).
  - intros [= <-]. split; [reflexivity |]. exists 0%nat. exact Hh.
  - rewrite Hh. unfold setHistory. intros [= <-].
    cbn [Client_Config Client_History].
    split; [reflexivity |]. rewrite Nat.add_1_r. cbn [skipn].
    eexists. reflexivity.
Qed.

Lemma truncateHistory_total (c : Client) (h0 : History)
    (rest : list History) :
  Client_History c = h0 :: rest ->
  Forall isText (Client_History c) ->
  exists c', truncateHistory c = Some (tt, c').
Proof.
  intros Hh Htext. rewrite (truncateHistory_text c Htext). cbv zeta.
  destruct (_ <=? _); [eauto |]. rewrite Hh. eauto.
Qed.

(** C9.  A truncation pass on a history that is not empty, when it
    completes, keeps the turn at index 0 and keeps the turns it retains in
    the order they had; on a history of text turns it completes.  When the
    client holds no history, [initHistory] leaves a history whose first
    turn has the configured persona text as its content and is followed by
    the turns that followed the first one in the store: the anchor of a
    stored history is overwritten, no system turn is added in front of
    it. *)
Theorem anchor_kept_and_overwritten :
  (forall (c : Client) (h0 : History) (rest : list History),
      Client_History c = h0 :: rest ->
      (Forall isText (Client_History c) ->
       exists c', truncateHistory c = Some (tt, c'))
      /\ (forall c',
             truncateHistory c = Some (tt, c') ->
             nth_error (Client_History c') 0 = Some h0
             /\ Subsequence (Client_History c') (Client_History c)))
  /\ (forall (env : Collaborators) (c : Client),
         Client_History c = [] ->
         exists c' anchor,
           initHistory env c = Some (tt, c')
           /\ Client_History c' = anchor :: tl (loadedHistory env c)
           /\ History_Content anchor
              = AnyString (Config_Role (Client_Config c))
           /\ Client_Config c' = Client_Config c
           /\ (forall first others,
                  loadedHistory env c = first :: others ->
                  Message_Role (History_Message anchor)
                  = Message_Role (History_Message first)
                  /\ List.length (Client_History c')
                     = List.length (loadedHistory env c))).
Proof.
  split.
  - intros c h0 rest Hh. split.
    + now apply truncateHistory_total with h0 rest.
    + intros c' Hrun.
      destruct (truncateHistory_result c c' h0 rest Hh Hrun) as [_ [k Hk]].
      rewrite Hk, Hh. split; [reflexivity |].
      constructor. apply Subsequence_skipn.
  - intros env c Hh. unfold initHistory, loadedHistory, bind, get.
    rewrite Hh. cbn [List.length Nat.eqb negb].
    destruct c as [cfg h clock written]. cbn in Hh. subst h.
    cbn [Client_Config Client_History].
    destruct (Config_OmitHistory cfg); cbn.
    + do 2 eexists. split; [reflexivity |]. cbn.
      split; [reflexivity | split; [reflexivity | split; [reflexivity |]]].
      intros ? ? Heq. discriminate Heq.
    + destruct (fst (Store_Read (historyStore env))) as [|first others]; cbn.
      * do 2 eexists. split; [reflexivity |]. cbn.
        split; [reflexivity | split; [reflexivity | split; [reflexivity |]]].
        intros ? ? Heq. discriminate Heq.
      * do 2 eexists. split; [reflexivity |]. cbn.
        split; [reflexivity | split; [reflexivity | split; [reflexivity |]]].
        intros ? ? [= <- <-]. split; reflexivity.
Qed.

Lemma anchor_kept_and_overwritten_witness :
  (exists c',
      truncateHistory (Sample.client "gpt-3.5-turbo" 48 Sample.history)
      = Some (tt, c'))
  /\ exists c' anchor,
       initHistory (Sample.env Sample.anchored (Sample.completions [])
                               (Sample.envelope []))
                   (Sample.client "gpt-3.5-turbo" 48 [])
       = Some (tt, c')
       /\ Client_History c' = anchor :: tl Sample.anchored
       /\ History_Content anchor = AnyString "You are a test assistant.".
Proof.
  split.
  - refine (proj1 (proj1 anchor_kept_and_overwritten
                     (Sample.client "gpt-3.5-turbo" 48 Sample.history)
                     _ _ eq_refl) _).
    repeat constructor; eexists; reflexivity.
  - destruct (proj2 anchor_kept_and_overwritten
                (Sample.env Sample.anchored (Sample.completions [])
                            (Sample.envelope []))
                (Sample.client "gpt-3.5-turbo" 48 []) eq_refl)
      as [c' [anchor [H1 [H2 [H3 _]]]]].
    exists c', anchor. repeat split; assumption.
Defined.

(** When the client already holds a history, [initHistory] returns at
    once. *)
Lemma initHistory_materialized (env : Collaborators) (c : Client)
    (h0 : History) (rest : list History) :
  Client_History c = h0 :: rest -> initHistory env c = Some (tt, c).
Proof.
  intros Hh. unfold initHistory, bind, get. now rewrite Hh.
Qed.

(** C10, on the code.  The claim has a turn whose content is not text
    count for nothing and the pass complete.  [countTokens] asserts that
    every content is a string: with a turn whose content is not one
    anywhere in the history, it panics, and so does the truncation pass. *)
Theorem countTokens_panics_on_media_content (c : Client) (h : History) :
  In h (Client_History c) ->
  assertString (History_Content h) = None ->
  countTokens (Client_History c) = None /\ truncateHistory c = None.
Proof.
  intros Hin Hh.
  assert (Hcount : countTokens (Client_History c) = None)
    by (unfold countTokens; now rewrite (countTokensFrom_not_text _ h Hin Hh)).
  split; [exact Hcount |].
  unfold truncateHistory, bind, get. now rewrite Hcount.
Qed.

(** The history read back from a store in which a turn holds a list of
    media items makes the pass panic, and with it the call of [Query] that
    loads this history. *)
Lemma countTokens_panics_on_media_content_witness :
  (countTokens Sample.media = None
   /\ truncateHistory (Sample.client "gpt-3.5-turbo" 50 Sample.media) = None)
  /\ Query (Sample.env Sample.media
                       (Sample.completions [Sample.choice (AnyString "content")])
                       (Sample.envelope []))
           Sample.noContext "test query"
           (Sample.client "gpt-3.5-turbo" 50 [])
     = None.
Proof.
  split.
  - apply (countTokens_panics_on_media_content
             (Sample.client "gpt-3.5-turbo" 50 Sample.media)
             (Sample.turn UserRole
                (AnySlice [AnyMap [("type", AnyString "image_url");
                                   ("image_url",
                                    AnyMap [("url",
                                             AnyString "https://x/y.png")])]]))).
    + right. left. reflexivity.
    + reflexivity.
  - vm_compute. reflexivity.
Defined.

(** ** Decoding an answer *)

Lemma updateHistory_total (env : Collaborators) (response : string)
    (c : Client) :
  exists c', updateHistory env response c = Some (tt, c').
Proof.
  unfold updateHistory, bind, now, appendHistory, get, setHistory,
    writeHistory, ret.
  cbn. destruct (Config_OmitHistory (Client_Config c)); cbn;
    eexists; reflexivity.
Qed.

(** Where [Query] stands once the transport has answered. *)
Lemma Query_after_transport (env : Collaborators) (ctx : Context)
    (input : string) (c c1 : Client) (raw : option string) :
  reachesDecoder env ctx input c c1 raw ->
  Query env ctx input c
  = if UsesResponsesAPI (GetCapabilities (Config_Model (Client_Config c1)))
    then
      match processResponse (json_UnmarshalResponses (lib env)) raw with
      | Err e => Some ("", 0, Some e, c1)
      | Ok res =>
        let tokensUsed :=
          TokenUsage_TotalTokens (ResponsesResponse_Usage res) in
        let response := scanOutputs (ResponsesResponse_Output res) "" in
        if (response =? "")%string
        then Some ("", tokensUsed, Some "no response returned", c1)
        else
          match updateHistory env response c1 with
          | Some (_, c2) => Some (response, tokensUsed, None, c2)
          | None => None
          end
      end
    else
      match processResponse (json_UnmarshalCompletions (lib env)) raw with
      | Err e => Some ("", 0, Some e, c1)
      | Ok res =>
        let tokensUsed := Usage_TotalTokens (CompletionsResponse_Usage res) in
        match CompletionsResponse_Choices res with
        | [] => Some ("", tokensUsed, Some "no responses returned", c1)
        | choice0 :: _ =>
          match assertString (Message_Content (Choice_Message choice0)) with
          | None =>
            Some ("", tokensUsed,
                  Some "response cannot be converted to a string", c1)
          | Some response =>
            match updateHistory env response c1 with
            | Some (_, c2) => Some (response, tokensUsed, None, c2)
            | None => None
            end
          end
        end
      end.
Proof.
  intros [Hprep [body [Hbody Hpost]]].
  unfold Query, bind at 1. rewrite Hprep.
  unfold bind at 1, get at 1. rewrite Hbody, Hpost.
  destruct (UsesResponsesAPI _).
  - destruct (processResponse _ raw) as [res | e]; [| reflexivity].
    cbv zeta. destruct (_ =? _)%string; [reflexivity |].
    unfold bind, ret. destruct (updateHistory _ _ _) as [[[] c2]|]; reflexivity.
  - destruct (processResponse _ raw) as [res | e]; [| reflexivity].
    cbv zeta. destruct (CompletionsResponse_Choices res); [reflexivity |].
    destruct (assertString _); [| reflexivity].
    unfold bind, ret. destruct (updateHistory _ _ _) as [[[] c2]|]; reflexivity.
Qed.

Lemma firstMatch_no_text (outputs : list Output) :
  filter hasOutputText outputs = [] -> firstMatch outputs = None.
Proof.
  induction outputs as [|output rest IH]; cbn; [reflexivity |].
  destruct (hasOutputText output); [discriminate | exact IH].
Qed.

(** With at most one message entry that holds an [output_text] part, the
    scan ends on the first match. *)
Lemma scanOutputs_single (outputs : list Output) :
  (List.length (filter hasOutputText outputs) <= 1)%nat ->
  forall response,
    scanOutputs outputs response
    = match firstMatch outputs with
      | Some text => text
      | None => response
      end.
Proof.
  induction outputs as [|output rest IH]; intros Hle response;
    [reflexivity |].
  cbn [scanOutputs firstMatch filter] in *. unfold hasOutputText in *.
  destruct (Output_Type output =? messageType)%string; cbn [negb andb] in *.
  - destruct (firstOutputText (Output_Content output)) as [text|].
    + cbn [List.length] in Hle.
      assert (Hnone : filter (fun o => hasOutputText o) rest = []).
      { destruct (filter _ rest) eqn:E; [reflexivity |].
        cbn in Hle. lia. }
      rewrite IH by (unfold hasOutputText in Hnone; rewrite Hnone; cbn; lia).
      now rewrite (firstMatch_no_text rest Hnone).
    + now apply IH.
  - now apply IH.
Qed.

(** C3, as the code has it.  On a well-formed envelope of the responses
    API in which at most one message entry holds an [output_text] part,
    [Query] takes the first such part in list order: when its text is not
    empty, it is the result, with the total tokens of the envelope and no
    error; when there is no such part, or its text is empty, [Query] fails
    with "no response returned" and still returns the total tokens of the
    envelope. *)
Theorem Query_responses_first_output_text
    (env : Collaborators) (ctx : Context) (input : string)
    (c c1 : Client) (raw : option string) (res : ResponsesResponse) :
  reachesDecoder env ctx input c c1 raw ->
  UsesResponsesAPI (GetCapabilities (Config_Model (Client_Config c1))) = true ->
  processResponse (json_UnmarshalResponses (lib env)) raw = Ok res ->
  (List.length (filter hasOutputText (ResponsesResponse_Output res)) <= 1)%nat ->
  let tokens := TokenUsage_TotalTokens (ResponsesResponse_Usage res) in
  let failure := Some ("", tokens, Some "no response returned", c1) in
  match firstMatch (ResponsesResponse_Output res) with
  | Some text =>
    if (text =? "")%string
    then Query env ctx input c = failure
    else exists c2,
        updateHistory env text c1 = Some (tt, c2)
        /\ Query env ctx input c = Some (text, tokens, None, c2)
  | None => Query env ctx input c = failure
  end.
Proof.
  intros Hreach Hcaps Hres Hsingle tokens failure.
  rewrite (Query_after_transport _ _ _ _ _ _ Hreach), Hcaps, Hres. cbv zeta.
  rewrite (scanOutputs_single _ Hsingle).
  destruct (firstMatch _) as [text|]; [| reflexivity].
  destruct (text =? "")%string; [reflexivity |].
  destruct (updateHistory_total env text c1) as [c2 Hc2].
  exists c2. now rewrite Hc2.
Qed.

Lemma Query_responses_first_output_text_witness :
  exists c2,
    Query Sample.plainEnv Sample.noContext "what's the weather"
          (Sample.client "gpt-5" 50 [])
    = Some ("yes, it does", 42, None, c2).
Proof.
  pose proof (Query_responses_first_output_text
                Sample.plainEnv Sample.noContext "what's the weather"
                (Sample.client "gpt-5" 50 []) _ (Some "answer")
                (Sample.envelope
                   [Sample.message [(outputTextType, "yes, it does")]])
                (conj eq_refl (ex_intro _ "{}" (conj eq_refl eq_refl)))
                eq_refl eq_refl (le_n 1)) as H.
  cbv zeta in H. cbn [firstMatch] in H.
  destruct H as [c2 [_ H]]. exists c2. exact H.
Defined.

(** C3, as it is worded, fails on two counts.  With two message entries
    that each hold an [output_text] part, the result is the text of the
    later entry, not the first match: the [break] leaves the inner loop
    only.  With a first match whose text is empty, the call fails. *)
Lemma Query_responses_not_first_match :
  (firstMatch [Sample.message [(outputTextType, "A")];
               Sample.message [(outputTextType, "B")]] = Some "A"
   /\ option_map fst
        (Query (Sample.env [] (Sample.completions [])
                  (Sample.envelope
                     [Sample.message [(outputTextType, "A")];
                      Sample.message [(outputTextType, "B")]]))
               Sample.noContext "what's the weather"
               (Sample.client "gpt-5" 50 []))
      = Some ("B", 42, None))
  /\ (firstMatch [Sample.message [(outputTextType, "")]] = Some ""
      /\ option_map fst
           (Query (Sample.env [] (Sample.completions [])
                     (Sample.envelope [Sample.message [(outputTextType, "")]]))
                  Sample.noContext "what's the weather"
                  (Sample.client "gpt-5" 50 []))
         = Some ("", 42, Some "no response returned")).
Proof.
  repeat split; vm_compute; reflexivity.
Qed.

(** C4.  On a well-formed envelope of the completions API, [Query] fails
    with "no responses returned" when the list of choices is empty, and
    with "response cannot be converted to a string" when the content of
    the message of the first choice is not a string; in both cases it
    returns the total tokens read from the envelope with the error. *)
Theorem Query_completions_failures
    (env : Collaborators) (ctx : Context) (input : string)
    (c c1 : Client) (raw : option string) (res : CompletionsResponse) :
  reachesDecoder env ctx input c c1 raw ->
  UsesResponsesAPI (GetCapabilities (Config_Model (Client_Config c1))) = false ->
  processResponse (json_UnmarshalCompletions (lib env)) raw = Ok res ->
  let tokens := Usage_TotalTokens (CompletionsResponse_Usage res) in
  (CompletionsResponse_Choices res = [] ->
   Query env ctx input c
   = Some ("", tokens, Some "no responses returned", c1))
  /\ (forall choice0 others,
         CompletionsResponse_Choices res = choice0 :: others ->
         assertString (Message_Content (Choice_Message choice0)) = None ->
         Query env ctx input c
         = Some ("", tokens,
                 Some "response cannot be converted to a string", c1)).
Proof.
  intros Hreach Hcaps Hres tokens.
  rewrite (Query_after_transport _ _ _ _ _ _ Hreach), Hcaps, Hres. cbv zeta.
  split.
  - intros ->. reflexivity.
  - intros choice0 others -> ->. reflexivity.
Qed.

Lemma Query_completions_failures_witness :
  (exists c1,
      Query (Sample.env [] (Sample.completions []) (Sample.envelope []))
            Sample.noContext "test query"
            (Sample.client "gpt-3.5-turbo" 50 [])
      = Some ("", 789, Some "no responses returned", c1))
  /\ exists c1,
      Query (Sample.env []
               (Sample.completions [Sample.choice (AnyFloat64 0)])
               (Sample.envelope []))
            Sample.noContext "test query"
            (Sample.client "gpt-3.5-turbo" 50 [])
      = Some ("", 789, Some "response cannot be converted to a string", c1).
Proof.
  split; eexists.
  - refine (proj1 (Query_completions_failures
                     (Sample.env [] (Sample.completions []) (Sample.envelope []))
                     Sample.noContext "test query"
                     (Sample.client "gpt-3.5-turbo" 50 []) _ (Some "answer")
                     (Sample.completions [])
                     (conj eq_refl (ex_intro _ "{}" (conj eq_refl eq_refl)))
                     eq_refl eq_refl) eq_refl).
  - refine (proj2 (Query_completions_failures
                     (Sample.env []
                        (Sample.completions [Sample.choice (AnyFloat64 0)])
                        (Sample.envelope []))
                     Sample.noContext "test query"
                     (Sample.client "gpt-3.5-turbo" 50 []) _ (Some "answer")
                     (Sample.completions [Sample.choice (AnyFloat64 0)])
                     (conj eq_refl (ex_intro _ "{}" (conj eq_refl eq_refl)))
                     eq_refl eq_refl) _ _ eq_refl eq_refl).
Defined.

(** ** Request shapes *)

Ltac request_cases :=
  unfold completionsDocument, responsesDocument, omitempty, hasKey,
    bodyKeys, bodyField;
  cbn [CompletionsRequest_Temperature CompletionsRequest_TopP
       CompletionsRequest_FrequencyPenalty CompletionsRequest_MaxTokens
       CompletionsRequest_Messages CompletionsRequest_Model
       CompletionsRequest_PresencePenalty CompletionsRequest_Seed
       CompletionsRequest_Stream];
  change (isEmptyFloat 0) with true;
  repeat match goal with
         | |- context [isEmptyFloat ?f] => destruct (isEmptyFloat f)
         end;
  cbn; repeat split; try reflexivity; try discriminate.

(** C7.  The request of the completions API carries the configured
    temperature and top-p only when the model supports temperature: when
    it does not, the body has neither key; a key that is in the body has
    the configured value, and the model supports temperature.  The
    request of the responses API has both keys, with the configured
    values, whatever the model supports.  The body of a call is the
    rendering of one of these two documents. *)
Theorem temperature_only_when_supported
    (env : Collaborators) (c : Client) (ctx : Context) (stream : bool) :
  let cfg := Client_Config c in
  let caps := GetCapabilities (Config_Model cfg) in
  (forall req,
      createCompletionsRequest env c ctx stream = Ok req ->
      let body := completionsDocument req in
      (SupportsTemperature caps = false ->
       hasKey body "temperature" = false /\ hasKey body "top_p" = false)
      /\ (SupportsTemperature caps = true ->
          CompletionsRequest_Temperature req = Config_Temperature cfg
          /\ CompletionsRequest_TopP req = Config_TopP cfg)
      /\ (hasKey body "temperature" = true ->
          SupportsTemperature caps = true
          /\ bodyField body "temperature"
             = Some (AnyFloat64 (Config_Temperature cfg)))
      /\ (hasKey body "top_p" = true ->
          SupportsTemperature caps = true
          /\ bodyField body "top_p" = Some (AnyFloat64 (Config_TopP cfg))))
  /\ (forall req,
         createResponsesRequest env c ctx stream = Ok req ->
         let body := responsesDocument req in
         bodyField body "temperature"
         = Some (AnyFloat64 (Config_Temperature cfg))
         /\ bodyField body "top_p" = Some (AnyFloat64 (Config_TopP cfg)))
  /\ (forall bytes,
         createBody env c ctx stream = Ok bytes ->
         if UsesResponsesAPI caps
         then exists req,
             createResponsesRequest env c ctx stream = Ok req
             /\ json_Marshal (lib env) (responsesDocument req) = Ok bytes
         else exists req,
             createCompletionsRequest env c ctx stream = Ok req
             /\ json_Marshal (lib env) (completionsDocument req) = Ok bytes).
Proof.
  intros cfg caps. split; [| split].
  - intros req. unfold createCompletionsRequest. fold cfg caps.
    destruct (appendMediaMessages _ _ _) as [messages | e]; [| discriminate].
    destruct (SupportsTemperature caps); intros [= <-]; cbv zeta.
    + split; [intros H; discriminate H |]. split; [now split |].
      split; intros H; (split; [reflexivity |]); revert H; request_cases.
    + split; [intros _; request_cases |].
      split; [intros H; discriminate H |].
      split; intros H; exfalso; revert H; request_cases.
  - intros req. unfold createResponsesRequest. fold cfg caps.
    destruct (appendMediaMessages _ _ _) as [messages | e]; [| discriminate].
    intros [= <-]. cbv zeta. split; reflexivity.
  - intros bytes. unfold createBody. fold cfg caps.
    destruct (UsesResponsesAPI caps).
    + destruct (createResponsesRequest _ _ _ _) as [req | e];
        [| discriminate].
      intros H. exists req. now split.
    + destruct (createCompletionsRequest _ _ _ _) as [req | e];
        [| discriminate].
      intros H. exists req. now split.
Qed.

Lemma temperature_only_when_supported_witness :
  (exists req,
      createCompletionsRequest
        Sample.plainEnv (Sample.client "gpt-4o-search-preview" 50 Sample.history)
        Sample.noContext false = Ok req
      /\ hasKey (completionsDocument req) "temperature" = false
      /\ hasKey (completionsDocument req) "top_p" = false)
  /\ exists req,
      createResponsesRequest
        Sample.plainEnv (Sample.client "gpt-5-search" 50 Sample.history)
        Sample.noContext false = Ok req
      /\ bodyField (responsesDocument req) "temperature"
         = Some (AnyFloat64 0x3FE6666666666666).
Proof.
  split; eexists; (split; [reflexivity |]).
  - exact (proj1 (proj1 (temperature_only_when_supported
                           Sample.plainEnv
                           (Sample.client "gpt-4o-search-preview" 50
                                          Sample.history)
                           Sample.noContext false) _ eq_refl) eq_refl).
  - exact (proj1 (proj1 (proj2 (temperature_only_when_supported
                                  Sample.plainEnv
                                  (Sample.client "gpt-5-search" 50
                                                 Sample.history)
                                  Sample.noContext false)) _ eq_refl)).
Defined.

(** ** Writes to the history store *)

Lemma sameTrace_refl (c : Client) : sameTrace c c.
Proof. now split. Qed.

Lemma sameTrace_trans (c1 c2 c3 : Client) :
  sameTrace c1 c2 -> sameTrace c2 c3 -> sameTrace c1 c3.
Proof. intros [H1 H2] [H3 H4]. split; congruence. Qed.

Lemma truncateHistory_trace (c c' : Client) :
  truncateHistory c = Some (tt, c') -> sameTrace c c'.
Proof.
  unfold truncateHistory, bind, get, setHistory, ret.
  destruct (countTokens _) as [[tokens rolling]|]; [| discriminate].
  destruct (_ <=? _); [intros [= <-]; apply sameTrace_refl |].
  destruct (Client_History c); [discriminate |].
  intros [= <-]. now split.
Qed.

Lemma initHistory_trace (env : Collaborators) (c c' : Client) :
  initHistory env c = Some (tt, c') -> sameTrace c c'.
Proof.
  destruct c as [cfg h clock written].
  unfold initHistory, bind, get, setHistory, ret, now.
  destruct h as [|h0 rest]; cbn.
  - destruct (Config_OmitHistory cfg); cbn.
    + intros [= <-]. now split.
    + destruct (fst (Store_Read (historyStore env))); cbn;
        intros [= <-]; now split.
  - intros [= <-]. now split.
Qed.

Lemma addQuery_trace (env : Collaborators) (query : string) (c c' : Client) :
  addQuery env query c = Some (tt, c') -> sameTrace c c'.
Proof.
  unfold addQuery, bind at 1, now. unfold bind at 1, appendHistory at 1.
  unfold bind, get, setHistory. intros H.
  apply truncateHistory_trace in H. destruct H as [H1 H2]. now split.
Qed.

Lemma prepareQuery_trace (env : Collaborators) (input : string)
    (c c' : Client) :
  prepareQuery env input c = Some (tt, c') -> sameTrace c c'.
Proof.
  unfold prepareQuery, bind.
  destruct (initHistory env c) as [[[] c1]|] eqn:E; [| discriminate].
  intros H. apply initHistory_trace in E. apply addQuery_trace in H.
  now apply sameTrace_trans with c1.
Qed.

Lemma updateHistory_trace (env : Collaborators) (response : string)
    (c c' : Client) :
  updateHistory env response c = Some (tt, c') ->
  Client_Config c' = Client_Config c
  /\ (Config_OmitHistory (Client_Config c) = false -> wroteHistory c c').
Proof.
  unfold updateHistory, bind, now, appendHistory, get, setHistory,
    writeHistory, ret, wroteHistory.
  cbn. destruct (Config_OmitHistory (Client_Config c)); cbn;
    intros [= <-]; split; try reflexivity; intros H; discriminate H.
Qed.

(** A call of [Query] that returns no error went through
    [updateHistory]. *)
Lemma Query_success (env : Collaborators) (ctx : Context) (input : string)
    (c c' : Client) (response : string) (tokens : Z) :
  Query env ctx input c = Some (response, tokens, None, c') ->
  exists c1,
    prepareQuery env input c = Some (tt, c1)
    /\ updateHistory env response c1 = Some (tt, c').
Proof.
  unfold Query, bind at 1.
  destruct (prepareQuery env input c) as [[[] c1]|]; [| discriminate].
  unfold bind at 1, get at 1.
  destruct (createBody env c1 ctx false) as [body | e]; [| discriminate].
  destruct (Caller_Post _ _ _ _) as [raw [e|]]; [discriminate |].
  destruct (UsesResponsesAPI _).
  - destruct (processResponse _ raw) as [res | e]; [| discriminate].
    cbv zeta. destruct (_ =? _)%string; [discriminate |].
    unfold bind, ret.
    destruct (updateHistory _ _ _) as [[[] c2]|] eqn:E; [| discriminate].
    intros [= <- <- <-]. exists c1. now split.
  - destruct (processResponse _ raw) as [res | e]; [| discriminate].
    cbv zeta. destruct (CompletionsResponse_Choices res); [discriminate |].
    destruct (assertString _) as [text|]; [| discriminate].
    unfold bind, ret.
    destruct (updateHistory _ _ _) as [[[] c2]|] eqn:E; [| discriminate].
    intros [= <- <- <-]. exists c1. now split.
Qed.

Lemma Stream_success (env : Collaborators) (ctx : Context) (input : string)
    (c c' : Client) :
  Stream env ctx input c = Some (None, c') ->
  exists c1 response,
    prepareQuery env input c = Some (tt, c1)
    /\ updateHistory env response c1 = Some (tt, c').
Proof.
  unfold Stream, bind at 1.
  destruct (prepareQuery env input c) as [[[] c1]|]; [| discriminate].
  unfold bind at 1, get at 1.
  destruct (createBody env c1 ctx true) as [body | e]; [| discriminate].
  destruct (Caller_Post _ _ _ _) as [result [e|]]; [discriminate |].
  unfold bind, ret.
  destruct (updateHistory _ _ _) as [[[] c2]|] eqn:E; [| discriminate].
  intros [= <-]. exists c1, (bytesOf result). now split.
Qed.

Lemma bind_Some {A B} (m : Go A) (k : A -> Go B) (c : Client)
    (r : B * Client) :
  bind m k c = Some r ->
  exists a c1, m c = Some (a, c1) /\ k a c1 = Some r.
Proof.
  unfold bind. destruct (m c) as [[a c1]|]; [| discriminate].
  intros H. now exists a, c1.
Qed.

Lemma now_trace (env : Collaborators) (c c' : Client) (t : Time) :
  now env c = Some (t, c') -> sameTrace c c'.
Proof. intros [= _ <-]. now split. Qed.

Lemma appendHistory_sameTrace (entry : History) (c c' : Client) (u : unit) :
  appendHistory entry c = Some (u, c') -> sameTrace c c'.
Proof. intros [= _ <-]. now split. Qed.

(** One step of a run: the first action of [H] and what follows it. *)
Ltac step H c1 Hstep :=
  apply bind_Some in H; destruct H as (? & c1 & Hstep & H).

(** The end of [Transcribe] and of [InjectMCPContext]: an entry is
    appended and the history truncated. *)
Lemma append_truncate_trace (env : Collaborators) (entry : Time -> History)
    (A : Type) (k : Go A) (c : Client) (r : A * Client) :
  (t <- now env ;; appendHistory (entry t) ;; truncateHistory ;; k) c
  = Some r ->
  exists c2, sameTrace c c2 /\ k c2 = Some r.
Proof.
  intros H.
  step H c1 H1. apply now_trace in H1.
  step H c2 H2. apply appendHistory_sameTrace in H2.
  step H c3 H3. destruct x1. apply truncateHistory_trace in H3.
  exists c3. split; [| exact H].
  eauto using sameTrace_trans.
Qed.

Lemma Transcribe_success (env : Collaborators) (audioPath : string)
    (c c' : Client) (text : string) :
  Transcribe env audioPath c = Some (text, None, c') ->
  Config_OmitHistory (Client_Config c) = false ->
  wroteHistory c c'.
Proof.
  intros H Homit. unfold Transcribe in H.
  step H c1 Hinit. destruct x. apply initHistory_trace in Hinit.
  destruct (FileReader_Open _ _) as [[contents | e] | e];
    [| discriminate | discriminate].
  step H c1' Hget. injection Hget as <- <-.
  destruct (multipart_Form _ _ _ _) as [body contentType].
  destruct (Caller_PostWithHeaders _ _ _ _) as [raw [e|]]; [discriminate |].
  destruct (json_UnmarshalText _ _) as [t | e]; [| discriminate].
  step H c2 H1. apply now_trace in H1.
  step H c3 H2. apply appendHistory_sameTrace in H2.
  apply append_truncate_trace in H. destruct H as (c4 & H3 & H).
  step H c5 Hget. injection Hget as <- <-.
  assert (Htr : sameTrace c c4) by eauto using sameTrace_trans.
  destruct Htr as [Hcfg Hwr].
  rewrite Hcfg, Homit in H. cbn [negb] in H.
  unfold bind, writeHistory, ret in H. injection H as <- <-.
  unfold wroteHistory. cbn. now rewrite Hwr.
Qed.

(** What [InjectMCPContext] returns once it has written. *)
Lemma InjectMCPContext_result (env : Collaborators) (mcp : MCPRequest)
    (c c' : Client) (err : option error) :
  InjectMCPContext env mcp c = Some (err, c') ->
  Client_written c' = Client_written c
  \/ (wroteHistory c c'
      /\ err = Store_Write (historyStore env) (Client_History c')).
Proof.
  intros H. unfold InjectMCPContext in H.
  step H c0 Hget. injection Hget as <- <-.
  destruct (Config_OmitHistory _); [injection H as <- <-; now left |].
  destruct (buildMCPRequest env c mcp) as [[[[endpoint headers] body] | e]|];
    [| injection H as <- <-; now left | discriminate].
  destruct (Caller_PostWithHeaders _ _ _ _) as [raw [e|]];
    [injection H as <- <-; now left |].
  step H c1 Hinit. destruct x. apply initHistory_trace in Hinit.
  apply append_truncate_trace in H. destruct H as (c2 & Htr & H).
  assert (Hall : sameTrace c c2) by eauto using sameTrace_trans.
  destruct Hall as [Hcfg Hwr].
  unfold writeHistory in H. injection H as <- <-. right.
  unfold wroteHistory. cbn. split; [now rewrite Hwr | reflexivity].
Qed.

(** C8.  [Query], [Stream] and [Transcribe] do not depend on what the
    write to the history store returns: with any other outcome of the
    write they return the same values and leave the same state.  A call
    of one of them that returns no error, with history tracking on, has
    handed its history to the store: whether that write failed plays no
    part.  [InjectMCPContext], once it has handed its history to the
    store, returns what the write returned, so a failure of the write is
    the error of the call. *)
Theorem history_write_failures :
  (forall env w ctx input c,
      Query (withWrite env w) ctx input c = Query env ctx input c)
  /\ (forall env w ctx input c,
         Stream (withWrite env w) ctx input c = Stream env ctx input c)
  /\ (forall env w audioPath c,
         Transcribe (withWrite env w) audioPath c
         = Transcribe env audioPath c)
  /\ (forall env ctx input c response tokens c',
         Query env ctx input c = Some (response, tokens, None, c') ->
         Config_OmitHistory (Client_Config c) = false ->
         wroteHistory c c')
  /\ (forall env ctx input c c',
         Stream env ctx input c = Some (None, c') ->
         Config_OmitHistory (Client_Config c) = false ->
         wroteHistory c c')
  /\ (forall env audioPath c text c',
         Transcribe env audioPath c = Some (text, None, c') ->
         Config_OmitHistory (Client_Config c) = false ->
         wroteHistory c c')
  /\ (forall env mcp c err c',
         InjectMCPContext env mcp c = Some (err, c') ->
         Client_written c' = Client_written c
         \/ (wroteHistory c c'
             /\ err = Store_Write (historyStore env) (Client_History c'))).
Proof.
  split; [reflexivity |]. split; [reflexivity |]. split; [reflexivity |].
  split; [| split; [| split]].
  - intros env ctx input c response tokens c' Hrun Homit.
    destruct (Query_success _ _ _ _ _ _ _ Hrun) as [c1 [Hprep Hupd]].
    apply prepareQuery_trace in Hprep. destruct Hprep as [Hcfg Hwr].
    apply updateHistory_trace in Hupd. destruct Hupd as [_ Hupd].
    unfold wroteHistory in *. rewrite <- Hwr. apply Hupd. congruence.
  - intros env ctx input c c' Hrun Homit.
    destruct (Stream_success _ _ _ _ _ Hrun) as [c1 [response [Hprep Hupd]]].
    apply prepareQuery_trace in Hprep. destruct Hprep as [Hcfg Hwr].
    apply updateHistory_trace in Hupd. destruct Hupd as [_ Hupd].
    unfold wroteHistory in *. rewrite <- Hwr. apply Hupd. congruence.
  - intros env audioPath c text c'. apply Transcribe_success.
  - intros env mcp c err c'. apply InjectMCPContext_result.
Qed.

Lemma history_write_failures_witness :
  (exists c',
      Query Sample.plainEnv Sample.noContext "test query"
            (Sample.client "gpt-3.5-turbo" 50 [])
      = Some ("content", 789, None, c')
      /\ wroteHistory (Sample.client "gpt-3.5-turbo" 50 []) c'
      /\ Store_Write (historyStore Sample.plainEnv) (Client_History c')
         = Some "write failed")
  /\ exists c',
      InjectMCPContext Sample.plainEnv Sample.mcp
                       (Sample.client "gpt-3.5-turbo" 50 [])
      = Some (Some "write failed", c')
      /\ Some "write failed"
         = Store_Write (historyStore Sample.plainEnv) (Client_History c').
Proof.
  split.
  - eexists. split; [vm_compute; reflexivity |]. split; [| reflexivity].
    apply (proj1 (proj2 (proj2 (proj2 history_write_failures)))
                 Sample.plainEnv Sample.noContext "test query"
                 (Sample.client "gpt-3.5-turbo" 50 []) "content" 789);
      vm_compute; reflexivity.
  - eexists. split; [vm_compute; reflexivity |].
    match goal with
    | |- _ = Store_Write _ (Client_History ?c') =>
      assert (E : InjectMCPContext Sample.plainEnv Sample.mcp
                    (Sample.client "gpt-3.5-turbo" 50 [])
                  = Some (Some "write failed", c'))
        by (vm_compute; reflexivity);
      destruct (proj2 (proj2 (proj2 (proj2 (proj2 (proj2
                  history_write_failures)))))
                  _ _ _ _ _ E) as [H | [_ H]];
      [vm_compute in H; discriminate H | exact H]
    end.
Defined.

(** ** The classic stream *)

Import StreamDecoder.

Lemma append_empty_r (s : string) : (s ++ "")%string = s.
Proof. induction s as [|a s IH]; cbn; [reflexivity | now rewrite IH]. Qed.

Lemma append_assoc3 (s1 s2 s3 : string) :
  (s1 ++ s2 ++ s3)%string = ((s1 ++ s2) ++ s3)%string.
Proof. induction s1 as [|a s1 IH]; cbn; [reflexivity | now rewrite IH]. Qed.

Lemma append_cons_assoc (cur : string) (a : ascii) (s : string) :
  ((cur ++ String a "") ++ s)%string = (cur ++ String a s)%string.
Proof. induction cur as [|b cur IH]; cbn; [reflexivity | now rewrite IH]. Qed.

Lemma splitLines_noNewline (s cur : string) :
  noNewline s = true -> splitLines s cur = [(cur ++ s)%string].
Proof.
  revert cur. induction s as [|a s IH]; intros cur H; cbn in *.
  - now rewrite append_empty_r.
  - apply andb_true_iff in H. destruct H as [Ha Hs].
    apply negb_true_iff in Ha. rewrite Ha, IH by assumption.
    now rewrite append_cons_assoc.
Qed.

Lemma splitLines_line (s rest cur : string) :
  noNewline s = true ->
  splitLines (s ++ newline ++ rest) cur
  = (cur ++ s)%string :: splitLines rest "".
Proof.
  revert cur. induction s as [|a s IH]; intros cur H; cbn in *.
  - now rewrite append_empty_r.
  - apply andb_true_iff in H. destruct H as [Ha Hs].
    apply negb_true_iff in Ha. rewrite Ha, IH by assumption.
    now rewrite append_cons_assoc.
Qed.

(** Splitting undoes joining, for lines that hold no line break. *)
Lemma splitLines_joinLines (lines : list string) :
  lines <> [] ->
  Forall (fun l => noNewline l = true) lines ->
  splitLines (joinLines lines) "" = lines.
Proof.
  induction lines as [|l rest IH]; intros Hne Hall; [contradiction |].
  inversion Hall as [|? ? Hl Hrest]; subst.
  destruct rest as [|l2 rest].
  - cbn [joinLines]. now rewrite splitLines_noNewline.
  - change (joinLines (l :: l2 :: rest))
      with (l ++ newline ++ joinLines (l2 :: rest))%string.
    rewrite splitLines_line by assumption. cbn [append].
    f_equal. apply IH; [discriminate | assumption].
Qed.

Lemma legacyFrom_until_done (parseChunk : string -> Result (option string))
    (lines : list string) :
  wellFormed parseChunk (beforeDone lines) ->
  forall buffer,
    legacyFrom parseChunk lines buffer
    = [(buffer ++ deltas parseChunk (beforeDone lines) ++ newline)%string].
Proof.
  induction lines as [|line rest IH]; intros Hwf buffer;
    cbn [legacyFrom beforeDone deltas] in *; [reflexivity |].
  unfold deltaOf.
  destruct (trimPrefix dataPrefix line) as [payload|] eqn:Etrim.
  - destruct (payload =? doneMarker)%string; [reflexivity |].
    inversion Hwf as [|? ? Hline Hrest]; subst.
    cbn [deltas]. unfold deltaOf. rewrite Etrim.
    destruct (parseChunk payload) as [[content|] | msg] eqn:Eparse.
    + rewrite IH by assumption. now rewrite <- !append_assoc3.
    + now apply IH.
    + exfalso. exact (Hline payload msg Etrim Eparse).
  - inversion Hwf as [|? ? Hline Hrest]; subst.
    cbn [deltas]. unfold deltaOf. rewrite Etrim. now apply IH.
Qed.

(** C6.  Fed a stream of the shape of the test, whose [data:] lines
    carry the delta contents "a", " b" and " c" and are followed by
    [data: [DONE]], the decoder of classic streams makes one write, of
    "a b c" and a newline.  In general, on a stream whose payloads parse,
    it makes exactly one write: the delta contents of the lines before
    the first [data: [DONE]], or of all lines when the stream ends
    without one, in their order, followed by one newline; the lines
    without a delta content add nothing. *)
Theorem legacy_stream_output :
  (forall (parseChunk : string -> Result (option string))
          (role a b c stop : string),
      parseChunk role = Ok None ->
      parseChunk a = Ok (Some "a") ->
      parseChunk b = Ok (Some " b") ->
      parseChunk c = Ok (Some " c") ->
      parseChunk stop = Ok None ->
      Forall (fun p => noNewline p = true /\ p <> doneMarker)
             [role; a; b; c; stop] ->
      legacyDecode parseChunk (legacyStream role a b c stop)
      = [("a b c" ++ newline)%string]
      /\ output (legacyDecode parseChunk (legacyStream role a b c stop))
         = ("a b c" ++ newline)%string)
  /\ (forall (parseChunk : string -> Result (option string))
             (lines : list string),
         wellFormed parseChunk (beforeDone lines) ->
         legacyFrom parseChunk lines ""
         = [(deltas parseChunk (beforeDone lines) ++ newline)%string]).
Proof.
  split.
  - intros parseChunk role a b c stop Hrole Ha Hb Hc Hstop Hall.
    assert (Hrun : legacyDecode parseChunk (legacyStream role a b c stop)
                   = [("a b c" ++ newline)%string]).
    { repeat match goal with
             | H : Forall _ (_ :: _) |- _ =>
               let Hn := fresh "Hn" in
               let Hd := fresh "Hd" in
               inversion H as [|? ? [Hn Hd] ?]; subst; clear H;
               apply String.eqb_neq in Hd
             end.
      unfold legacyDecode, legacyStream.
      rewrite splitLines_joinLines;
        [| discriminate
         | unfold legacyLines, dataLine;
           repeat constructor; cbn; assumption].
      unfold legacyLines, dataLine. cbn [legacyFrom trimPrefix dataPrefix
        append Ascii.eqb Bool.eqb].
      rewrite Hd, Hrole, Hd0, Ha, Hd1, Hb, Hd2, Hc, Hd3, Hstop.
      reflexivity. }
    split; [exact Hrun |]. rewrite Hrun. reflexivity.
  - intros parseChunk lines Hwf.
    now rewrite (legacyFrom_until_done parseChunk lines Hwf "").
Qed.

Lemma legacy_stream_output_witness :
  legacyDecode Sample.parseChunk (legacyStream "0" "A" "B" "C" "1")
  = [("a b c" ++ newline)%string].
Proof.
  refine (proj1 (proj1 legacy_stream_output
                       Sample.parseChunk "0" "A" "B" "C" "1"
                       eq_refl eq_refl eq_refl eq_refl eq_refl _)).
  repeat constructor; discriminate.
Defined.

(** * Further properties of the code *)

(** ** The truncation pass *)

Lemma sumZ_app (l1 l2 : list Z) : sumZ (l1 ++ l2) = sumZ l1 + sumZ l2.
Proof.
  induction l1 as [|x l1 IH]; [reflexivity |].
  change (sumZ ((x :: l1) ++ l2)) with (x + sumZ (l1 ++ l2)).
  change (sumZ (x :: l1)) with (x + sumZ l1). lia.
Qed.

Lemma sumZ_firstn_skipn (k : nat) (l : list Z) :
  sumZ (firstn k l) + sumZ (skipn k l) = sumZ l.
Proof. now rewrite <- sumZ_app, firstn_skipn. Qed.

Lemma Forall_nonneg_firstn (k : nat) (l : list Z) :
  Forall (fun z => 0 <= z) l -> Forall (fun z => 0 <= z) (firstn k l).
Proof.
  intros H. revert k. induction H as [|x l Hx _ IH]; intros [|k]; cbn;
    constructor; auto.
Qed.

Lemma Forall_nonneg_skipn (k : nat) (l : list Z) :
  Forall (fun z => 0 <= z) l -> Forall (fun z => 0 <= z) (skipn k l).
Proof.
  intros H. revert k. induction H as [|x l Hx Hl IH]; intros [|k]; cbn;
    try constructor; auto.
Qed.

(** The sums of the prefixes of a list of costs grow with the prefix. *)
Lemma sumZ_firstn_mono (j k : nat) (l : list Z) :
  Forall (fun z => 0 <= z) l -> (j <= k)%nat ->
  sumZ (firstn j l) <= sumZ (firstn k l).
Proof.
  intros H. revert j k. induction H as [|x l Hx Hl IH]; intros j k Hjk.
  - now rewrite !firstn_nil.
  - destruct j as [|j]; destruct k as [|k]; try lia.
    + cbn [firstn]. change (sumZ []) with 0.
      apply sumZ_nonneg. constructor; [assumption |].
      now apply Forall_nonneg_firstn.
    + cbn [firstn].
      change (sumZ (x :: firstn j l)) with (x + sumZ (firstn j l)).
      change (sumZ (x :: firstn k l)) with (x + sumZ (firstn k l)).
      specialize (IH j k). lia.
Qed.

(** Where the scan stops when some running sum exceeds [diff]: at the
    first index whose running sum does. *)
Lemma cutIndex_first (rest : list Z) :
  Forall (fun z => 0 <= z) rest ->
  forall i total diff,
    total <= diff ->
    diff < total + sumZ rest ->
    exists j,
      cutIndex rest i total diff = (i + j)%nat
      /\ (j < List.length rest)%nat
      /\ total + sumZ (firstn j rest) <= diff
      /\ diff < total + sumZ (firstn (S j) rest).
Proof.
  induction 1 as [|r rest Hr Hrest IH]; intros i total diff Hle Hlt.
  - change (sumZ []) with 0 in Hlt. lia.
  - change (sumZ (r :: rest)) with (r + sumZ rest) in Hlt.
    cbn [cutIndex]. destruct (total + r >? diff) eqn:E.
    + exists 0%nat. apply Z.gtb_lt in E. cbn [firstn List.length].
      change (sumZ []) with 0. change (sumZ [r]) with (r + 0).
      repeat split; lia.
    + assert (total + r <= diff)
        by (rewrite Z.gtb_ltb in E; now apply Z.ltb_ge in E).
      destruct (IH (S i) (total + r) diff) as [j [Hj [Hlen [Hlo Hhi]]]];
        [lia | lia |].
      exists (S j). cbn [List.length]. rewrite !firstn_cons.
      change (sumZ (r :: firstn j rest)) with (r + sumZ (firstn j rest)).
      change (sumZ (r :: firstn (S j) rest))
        with (r + sumZ (firstn (S j) rest)).
      repeat split; lia.
Qed.

Lemma isText_skipn (k : nat) (l : list History) :
  Forall isText l -> Forall isText (skipn k l).
Proof.
  intros H. revert k. induction H as [|x l Hx Hl IH]; intros [|k]; cbn;
    try constructor; auto.
Qed.

Lemma totalCost_cons (h0 : History) (rest : list History) :
  totalCost (h0 :: rest) = turnCost h0 + totalCost rest.
Proof. reflexivity. Qed.

Lemma totalCost_firstn_skipn (k : nat) (l : list History) :
  totalCost (firstn k l) + totalCost (skipn k l) = totalCost l.
Proof.
  unfold totalCost. rewrite <- sumZ_app, <- map_app. now rewrite firstn_skipn.
Qed.

(** What a pass that has to evict does when the anchor alone costs less
    than the budget. *)
Lemma truncateHistory_evicts (c : Client) (h0 : History)
    (rest : list History) :
  Client_History c = h0 :: rest ->
  Forall isText (Client_History c) ->
  let T := totalCost (Client_History c) in
  let B := calculateEffectiveContextWindow
             (Config_ContextWindow (Client_Config c))
             MaxTokenBufferPercentage in
  B < T ->
  turnCost h0 < B ->
  exists k,
    truncateHistory c = Some (tt, withHistory c (h0 :: skipn (S k) rest))
    /\ (k < List.length rest)%nat
    /\ totalCost (firstn k rest) <= T - B
    /\ T - B < totalCost (firstn (S k) rest).
Proof.
  intros Hh Htext T B HT H0.
  assert (HTeq : T = turnCost h0 + totalCost rest)
    by (unfold T; now rewrite Hh).
  destruct (cutIndex_first (map turnCost rest) (Forall_nonneg_costs rest)
                           1 0 (T - B)) as [j [Hj [Hlen [Hlo Hhi]]]].
  { lia. }
  { fold (totalCost rest). lia. }
  exists j. rewrite length_map in Hlen.
  rewrite firstn_map in Hlo, Hhi. fold (totalCost (firstn j rest)) in Hlo.
  fold (totalCost (firstn (S j) rest)) in Hhi.
  split; [| repeat split; lia].
  rewrite (truncateHistory_text c Htext). cbv zeta. fold T B.
  destruct (T <=? B) eqn:E; [apply Z.leb_le in E; lia |].
  rewrite Hh. cbn [map skipn]. rewrite Hj.
  replace (1 + j + 1)%nat with (S (S j)) by lia. reflexivity.
Qed.

Lemma countTokensFrom_Some_text (entries : list History) :
  forall result rolling r,
    countTokensFrom entries result rolling = Some r ->
    Forall isText entries.
Proof.
  induction entries as [|entry rest IH]; intros result rolling r H;
    [constructor |].
  cbn [countTokensFrom] in H.
  destruct (History_Content entry) eqn:E; cbn [assertString] in H;
    try discriminate H.
  constructor; [eexists; exact E | eapply IH; exact H].
Qed.

Lemma truncateHistory_Some_text (c c' : Client) :
  truncateHistory c = Some (tt, c') -> Forall isText (Client_History c).
Proof.
  unfold truncateHistory, bind, get, countTokens.
  destruct (countTokensFrom _ _ _) as [r|] eqn:E; [| discriminate].
  intros _. eapply countTokensFrom_Some_text. exact E.
Qed.

(** The pass when the anchor alone costs at least the budget. *)
Lemma truncateHistory_degenerate (c : Client) (h0 : History)
    (rest : list History) :
  Client_History c = h0 :: rest ->
  Forall isText (Client_History c) ->
  calculateEffectiveContextWindow
    (Config_ContextWindow (Client_Config c)) MaxTokenBufferPercentage
  <= turnCost h0 ->
  truncateHistory c = Some (tt, c).
Proof.
  intros Hh Htext H0.
  rewrite (truncateHistory_text c Htext). cbv zeta.
  destruct (_ <=? _) eqn:E; [reflexivity |]. apply Z.leb_gt in E.
  rewrite Hh in *. rewrite totalCost_cons in *. cbn [map skipn].
  rewrite cutIndex_never.
  - cbn [Nat.add skipn]. rewrite <- Hh. now rewrite withHistory_same.
  - apply Forall_nonneg_costs.
  - fold (totalCost rest). lia.
Qed.

(** A pass that has to evict leaves a total cost below the budget. *)
Lemma truncateHistory_evicts_below (c : Client) (h0 : History)
    (rest : list History) :
  Client_History c = h0 :: rest ->
  Forall isText (Client_History c) ->
  let B := calculateEffectiveContextWindow
             (Config_ContextWindow (Client_Config c))
             MaxTokenBufferPercentage in
  B < totalCost (Client_History c) ->
  turnCost h0 < B ->
  exists c',
    truncateHistory c = Some (tt, c')
    /\ totalCost (Client_History c') < B.
Proof.
  intros Hh Htext B HT H0.
  destruct (truncateHistory_evicts c h0 rest Hh Htext HT H0)
    as [k [Hrun [Hlen [Hlo Hhi]]]].
  eexists. split; [exact Hrun |]. cbn [withHistory Client_History].
  fold B in Hhi. rewrite Hh, totalCost_cons in Hhi.
  rewrite totalCost_cons.
  pose proof (totalCost_firstn_skipn (S k) rest). lia.
Qed.

(** X1.  When the anchor alone costs less than the budget, a pass on a
    history of text turns ends with a history whose total cost is within
    the budget. *)
Theorem truncateHistory_fits_budget (c : Client) (h0 : History)
    (rest : list History) :
  Client_History c = h0 :: rest ->
  Forall isText (Client_History c) ->
  let B := calculateEffectiveContextWindow
             (Config_ContextWindow (Client_Config c))
             MaxTokenBufferPercentage in
  turnCost h0 < B ->
  exists c',
    truncateHistory c = Some (tt, c')
    /\ totalCost (Client_History c') <= B.
Proof.
  intros Hh Htext B H0.
  destruct (Z_le_gt_dec (totalCost (Client_History c)) B) as [Hle | Hgt].
  - exists c. split; [| exact Hle].
    rewrite (truncateHistory_text c Htext). cbv zeta. fold B.
    now apply Z.leb_le in Hle; rewrite Hle.
  - destruct (truncateHistory_evicts_below c h0 rest Hh Htext)
      as [c' [Hrun Hlt]]; [fold B; lia | exact H0 |].
    exists c'. split; [exact Hrun | fold B in Hlt; lia].
Qed.

Lemma truncateHistory_fits_budget_witness :
  exists c',
    truncateHistory (Sample.client "gpt-3.5-turbo" 50 Sample.history)
    = Some (tt, c')
    /\ totalCost (Client_History c') <= 40.
Proof.
  apply (truncateHistory_fits_budget
           (Sample.client "gpt-3.5-turbo" 50 Sample.history) _ _ eq_refl).
  - repeat constructor; eexists; reflexivity.
  - vm_compute. reflexivity.
Defined.

(** X2.  A pass that has to evict, on a history of text turns whose
    anchor costs less than the budget, evicts the oldest turns after the
    anchor and stops as soon as their cost exceeds the overflow: the
    turns evicted before the last one cost at most the overflow. *)
Theorem truncateHistory_evicts_oldest_first (c : Client) (h0 : History)
    (rest : list History) :
  Client_History c = h0 :: rest ->
  Forall isText (Client_History c) ->
  let T := totalCost (Client_History c) in
  let B := calculateEffectiveContextWindow
             (Config_ContextWindow (Client_Config c))
             MaxTokenBufferPercentage in
  B < T ->
  turnCost h0 < B ->
  exists k c',
    truncateHistory c = Some (tt, c')
    /\ (k < List.length rest)%nat
    /\ Client_History c' = h0 :: skipn (S k) rest
    /\ totalCost (firstn k rest) <= T - B
    /\ T - B < totalCost (firstn (S k) rest).
Proof.
  intros Hh Htext T B HT H0.
  destruct (truncateHistory_evicts c h0 rest Hh Htext HT H0)
    as [k [Hrun [Hlen [Hlo Hhi]]]].
  exists k. eexists. split; [exact Hrun |]. repeat split; assumption.
Qed.

Lemma truncateHistory_evicts_oldest_first_witness :
  exists k c',
    truncateHistory (Sample.client "gpt-3.5-turbo" 50 Sample.history)
    = Some (tt, c')
    /\ (k < 7)%nat
    /\ Client_History c'
       = Sample.text SystemRole "You are a test assistant."
         :: skipn (S k) (tl Sample.history).
Proof.
  destruct (truncateHistory_evicts_oldest_first
              (Sample.client "gpt-3.5-turbo" 50 Sample.history) _ _ eq_refl)
    as [k [c' [H1 [H2 [H3 _]]]]].
  - repeat constructor; eexists; reflexivity.
  - vm_compute. reflexivity.
  - vm_compute. reflexivity.
  - exists k, c'. repeat split; assumption.
Defined.

(** X3.  A second pass right after a pass that completed changes
    nothing. *)
Theorem truncateHistory_idempotent (c c' : Client) :
  truncateHistory c = Some (tt, c') ->
  truncateHistory c' = Some (tt, c').
Proof.
  intros Hrun.
  pose proof (truncateHistory_Some_text c c' Hrun) as Htext.
  pose proof Hrun as Hrun'.
  rewrite (truncateHistory_text c Htext) in Hrun'. cbv zeta in Hrun'.
  destruct (_ <=? _) eqn:E in Hrun'.
  - injection Hrun' as <-. exact Hrun.
  - apply Z.leb_gt in E.
    destruct (Client_History c) as [|h0 rest] eqn:Hh; [discriminate |].
    clear Hrun'. rewrite <- Hh in Htext.
    destruct (Z_lt_ge_dec (turnCost h0)
                (calculateEffectiveContextWindow
                   (Config_ContextWindow (Client_Config c))
                   MaxTokenBufferPercentage)) as [Hlt | Hge].
    + destruct (truncateHistory_evicts_below c h0 rest Hh Htext)
        as [c1 [Hrun1 Hfit]]; [rewrite Hh; exact E | exact Hlt |].
      apply Z.lt_le_incl in Hfit.
      rewrite Hrun in Hrun1. injection Hrun1 as <-.
      destruct (truncateHistory_trace c c' Hrun) as [Hcfg _].
      assert (Htext' : Forall isText (Client_History c')).
      { destruct (truncateHistory_result c c' h0 rest Hh Hrun)
          as [_ [k Hk]].
        rewrite Hk. rewrite Hh in Htext.
        inversion Htext as [|? ? H0 Hrest]; subst.
        constructor; [assumption | now apply isText_skipn]. }
      rewrite (truncateHistory_text c' Htext'). cbv zeta. rewrite Hcfg.
      apply Z.leb_le in Hfit. now rewrite Hfit.
    + rewrite (truncateHistory_degenerate c h0 rest Hh Htext) in Hrun
        by lia.
      injection Hrun as <-.
      apply (truncateHistory_degenerate c h0 rest Hh Htext). lia.
Qed.

Lemma truncateHistory_idempotent_witness :
  truncateHistory
    (Sample.client "gpt-3.5-turbo" 50 (firstn 1 Sample.history
                                       ++ skipn 3 Sample.history))
  = Some (tt, Sample.client "gpt-3.5-turbo" 50
                (firstn 1 Sample.history ++ skipn 3 Sample.history)).
Proof.
  apply (truncateHistory_idempotent
           (Sample.client "gpt-3.5-turbo" 50 Sample.history)).
  vm_compute. reflexivity.
Defined.

(** ** Adding a query *)

Lemma addQuery_unfold (env : Collaborators) (query : string) (c : Client) :
  addQuery env query c
  = truncateHistory
      {| Client_Config := Client_Config c;
         Client_History :=
           Client_History c ++ [queryTurn env query (Client_clock c)];
         Client_clock := S (Client_clock c);
         Client_written := Client_written c |}.
Proof. reflexivity. Qed.

Lemma totalCost_app (l1 l2 : list History) :
  totalCost (l1 ++ l2) = totalCost l1 + totalCost l2.
Proof. unfold totalCost. now rewrite map_app, sumZ_app. Qed.

Lemma totalCost_firstn_le (k : nat) (l : list History) :
  totalCost (firstn k l) <= totalCost l.
Proof.
  pose proof (totalCost_firstn_skipn k l).
  pose proof (totalCost_nonneg (skipn k l)). lia.
Qed.

Lemma turnCost_queryTurn (env : Collaborators) (query : string) (n : nat) :
  turnCost (queryTurn env query n) = textCost query.
Proof. reflexivity. Qed.

Lemma isText_with_query (env : Collaborators) (query : string) (n : nat)
    (h : list History) :
  Forall isText h -> Forall isText (h ++ [queryTurn env query n]).
Proof.
  intros H. apply Forall_app. split; [assumption |].
  constructor; [eexists; reflexivity | constructor].
Qed.

(** X4.  When the anchor and the query together cost less than the
    budget, the history [addQuery] leaves on a history of text turns ends
    with the query: the turns evicted, if any, are older ones. *)
Theorem addQuery_keeps_query (env : Collaborators) (query : string)
    (c : Client) (h0 : History) (rest : list History) :
  Client_History c = h0 :: rest ->
  Forall isText (Client_History c) ->
  turnCost h0 + textCost query < budgetOf c ->
  exists c' k,
    addQuery env query c = Some (tt, c')
    /\ (k <= List.length rest)%nat
    /\ Client_History c'
       = h0 :: skipn k rest ++ [queryTurn env query (Client_clock c)].
Proof.
  intros Hh Htext Hfit. rewrite addQuery_unfold.
  set (turn := queryTurn env query (Client_clock c)).
  set (c1 := {| Client_Config := Client_Config c;
                Client_History := Client_History c ++ [turn];
                Client_clock := S (Client_clock c);
                Client_written := Client_written c |}).
  assert (Hh1 : Client_History c1 = h0 :: (rest ++ [turn]))
    by (cbn; now rewrite Hh).
  assert (Htext1 : Forall isText (Client_History c1))
    by (apply isText_with_query; exact Htext).
  pose proof (textCost_nonneg query) as Hq.
  destruct (Z_le_gt_dec (totalCost (Client_History c1)) (budgetOf c))
    as [Hle | Hgt].
  - exists c1, 0%nat. split; [| split; [lia | exact Hh1]].
    rewrite (truncateHistory_text c1 Htext1). cbv zeta.
    change (calculateEffectiveContextWindow _ _) with (budgetOf c).
    now apply Z.leb_le in Hle; rewrite Hle.
  - destruct (truncateHistory_evicts c1 h0 _ Hh1 Htext1)
      as [k [Hrun [Hlen [Hlo Hhi]]]].
    { change (calculateEffectiveContextWindow _ _) with (budgetOf c). lia. }
    { change (calculateEffectiveContextWindow _ _) with (budgetOf c). lia. }
    change (calculateEffectiveContextWindow _ _) with (budgetOf c) in Hlo.
    rewrite length_app in Hlen. cbn [List.length] in Hlen.
    assert (Hk : (k < List.length rest)%nat).
    { destruct (Nat.eq_dec k (List.length rest)) as [-> | Hne]; [| lia].
      exfalso. rewrite firstn_app, firstn_all, Nat.sub_diag in Hlo.
      cbn [firstn] in Hlo. rewrite app_nil_r in Hlo.
      rewrite Hh1, totalCost_cons, totalCost_app in Hlo.
      change (totalCost [turn]) with (turnCost turn + 0) in Hlo.
      unfold turn in Hlo. rewrite turnCost_queryTurn in Hlo.
      clear - Hlo Hfit. lia. }
    eexists. exists (S k). split; [exact Hrun |]. split; [lia |].
    cbn [withHistory Client_History]. f_equal.
    rewrite skipn_app. replace (S k - List.length rest)%nat with 0%nat by lia.
    reflexivity.
Qed.

Lemma addQuery_keeps_query_witness :
  exists c' k,
    addQuery Sample.plainEnv "test query"
             (Sample.client "gpt-3.5-turbo" 50 (firstn 7 Sample.history))
    = Some (tt, c')
    /\ (k <= 6)%nat
    /\ Client_History c'
       = Sample.text SystemRole "You are a test assistant."
         :: skipn k (firstn 6 (tl Sample.history))
            ++ [queryTurn Sample.plainEnv "test query" 0].
Proof.
  apply (addQuery_keeps_query
           Sample.plainEnv "test query"
           (Sample.client "gpt-3.5-turbo" 50 (firstn 7 Sample.history))
           _ _ eq_refl).
  - repeat constructor; eexists; reflexivity.
  - vm_compute. reflexivity.
Defined.

(** X5.  When the anchor costs less than the budget but the anchor and
    the query together reach it, and the total exceeds it, [addQuery]
    evicts every turn after the anchor, the query it has just appended
    included: the history is left with the anchor alone. *)
Theorem addQuery_evicts_query (env : Collaborators) (query : string)
    (c : Client) (h0 : History) (rest : list History) :
  Client_History c = h0 :: rest ->
  Forall isText (Client_History c) ->
  turnCost h0 < budgetOf c ->
  budgetOf c <= turnCost h0 + textCost query ->
  budgetOf c < totalCost (Client_History c) + textCost query ->
  exists c',
    addQuery env query c = Some (tt, c')
    /\ Client_History c' = [h0].
Proof.
  intros Hh Htext H0 Hreach Hover. rewrite addQuery_unfold.
  set (turn := queryTurn env query (Client_clock c)).
  set (c1 := {| Client_Config := Client_Config c;
                Client_History := Client_History c ++ [turn];
                Client_clock := S (Client_clock c);
                Client_written := Client_written c |}).
  assert (Hh1 : Client_History c1 = h0 :: (rest ++ [turn]))
    by (cbn; now rewrite Hh).
  assert (Htext1 : Forall isText (Client_History c1))
    by (apply isText_with_query; exact Htext).
  assert (HT1 : totalCost (Client_History c1)
                = totalCost (Client_History c) + textCost query).
  { cbn [c1 Client_History]. rewrite totalCost_app.
    change (totalCost [turn]) with (turnCost turn + 0).
    unfold turn. rewrite turnCost_queryTurn. lia. }
  destruct (truncateHistory_evicts c1 h0 _ Hh1 Htext1)
    as [k [Hrun [Hlen [Hlo Hhi]]]].
  { change (calculateEffectiveContextWindow _ _) with (budgetOf c). lia. }
  { exact H0. }
  change (calculateEffectiveContextWindow _ _) with (budgetOf c) in Hhi.
  rewrite length_app in Hlen. cbn [List.length] in Hlen.
  assert (Hk : k = List.length rest).
  { destruct (Nat.eq_dec k (List.length rest)) as [-> | Hne];
      [reflexivity |].
    exfalso. rewrite firstn_app in Hhi.
    replace (S k - List.length rest)%nat with 0%nat in Hhi by lia.
    rewrite firstn_O, app_nil_r in Hhi.
    pose proof (totalCost_firstn_le (S k) rest).
    rewrite HT1, Hh, totalCost_cons in Hhi.
    clear - Hhi H Hreach. lia. }
  eexists. split; [exact Hrun |]. cbn [withHistory Client_History].
  subst k. rewrite skipn_all2; [reflexivity |].
  rewrite length_app. cbn [List.length]. lia.
Qed.

Lemma addQuery_evicts_query_witness :
  exists c',
    addQuery Sample.plainEnv "a question that is much longer than the budget"
             (Sample.client "gpt-3.5-turbo" 25 (firstn 3 Sample.history))
    = Some (tt, c')
    /\ Client_History c'
       = [Sample.text SystemRole "You are a test assistant."].
Proof.
  apply (addQuery_evicts_query
           Sample.plainEnv "a question that is much longer than the budget"
           (Sample.client "gpt-3.5-turbo" 25 (firstn 3 Sample.history))
           _ _ eq_refl).
  - repeat constructor; eexists; reflexivity.
  - vm_compute. reflexivity.
  - vm_compute. discriminate.
  - vm_compute. reflexivity.
Defined.

(** ** What a call leaves behind *)

Lemma updateHistory_effect (env : Collaborators) (response : string)
    (c c' : Client) :
  updateHistory env response c = Some (tt, c') ->
  Client_Config c' = Client_Config c
  /\ Client_History c'
     = Client_History c ++ [assistantTurn env response (Client_clock c)]
  /\ Client_written c'
     = if Config_OmitHistory (Client_Config c) then Client_written c
       else Client_History c' :: Client_written c.
Proof.
  unfold updateHistory, bind, now, appendHistory, get, setHistory,
    writeHistory, ret.
  cbn. destruct (Config_OmitHistory (Client_Config c)); cbn;
    intros [= <-]; repeat split.
Qed.

(** The two ways a call of [Query] ends: with an error, in the state the
    preparation left, or through [updateHistory]. *)
Lemma Query_cases (env : Collaborators) (ctx : Context) (input : string)
    (c c' : Client) (response : string) (tokens : Z) (err : option error) :
  Query env ctx input c = Some (response, tokens, err, c') ->
  exists c1,
    prepareQuery env input c = Some (tt, c1)
    /\ ((err <> None /\ response = "" /\ c' = c1)
        \/ (err = None /\ updateHistory env response c1 = Some (tt, c'))).
Proof.
  unfold Query, bind at 1.
  destruct (prepareQuery env input c) as [[[] c1]|]; [| discriminate].
  intros H. exists c1. split; [reflexivity |]. revert H.
  unfold bind at 1, get at 1.
  destruct (createBody env c1 ctx false) as [body | e];
    [| intros [= <- <- <- <-]; left; repeat split; discriminate].
  destruct (Caller_Post _ _ _ _) as [raw [e|]];
    [intros [= <- <- <- <-]; left; repeat split; discriminate |].
  destruct (UsesResponsesAPI _).
  - destruct (processResponse _ raw) as [res | e];
      [| intros [= <- <- <- <-]; left; repeat split; discriminate].
    cbv zeta. destruct (_ =? _)%string;
      [intros [= <- <- <- <-]; left; repeat split; discriminate |].
    unfold bind, ret.
    destruct (updateHistory _ _ _) as [[[] c2]|] eqn:E; [| discriminate].
    intros [= <- <- <- <-]. right. now split.
  - destruct (processResponse _ raw) as [res | e];
      [| intros [= <- <- <- <-]; left; repeat split; discriminate].
    cbv zeta. destruct (CompletionsResponse_Choices res);
      [intros [= <- <- <- <-]; left; repeat split; discriminate |].
    destruct (assertString _) as [text|];
      [| intros [= <- <- <- <-]; left; repeat split; discriminate].
    unfold bind, ret.
    destruct (updateHistory _ _ _) as [[[] c2]|] eqn:E; [| discriminate].
    intros [= <- <- <- <-]. right. now split.
Qed.

Lemma Stream_cases (env : Collaborators) (ctx : Context) (input : string)
    (c c' : Client) (err : option error) :
  Stream env ctx input c = Some (err, c') ->
  exists c1,
    prepareQuery env input c = Some (tt, c1)
    /\ ((err <> None /\ c' = c1)
        \/ (err = None
            /\ exists result,
                 Caller_Post (caller env) (getChatEndpoint c1)
                             (match createBody env c1 ctx true with
                              | Ok body => body
                              | Err _ => ""
                              end) true = (result, None)
                 /\ updateHistory env (bytesOf result) c1 = Some (tt, c'))).
Proof.
  unfold Stream, bind at 1.
  destruct (prepareQuery env input c) as [[[] c1]|]; [| discriminate].
  intros H. exists c1. split; [reflexivity |]. revert H.
  unfold bind at 1, get at 1.
  destruct (createBody env c1 ctx true) as [body | e];
    [| intros [= <- <-]; left; split; [discriminate | reflexivity]].
  destruct (Caller_Post _ _ _ _) as [result [e|]] eqn:Epost;
    [intros [= <- <-]; left; split; [discriminate | reflexivity] |].
  unfold bind, ret.
  destruct (updateHistory _ _ _) as [[[] c2]|] eqn:E; [| discriminate].
  intros [= <- <-]. right. split; [reflexivity |].
  exists result. now split.
Qed.

(** X6.  A call of [Query] or [Stream] that returns an error leaves the
    client in the state the preparation of the query left it in: the
    question stays in the history, no assistant turn is appended and the
    store is not written to; [Query] then returns the empty text. *)
Theorem failed_call_keeps_question :
  (forall env ctx input c c' response tokens e,
      Query env ctx input c = Some (response, tokens, Some e, c') ->
      response = ""
      /\ prepareQuery env input c = Some (tt, c')
      /\ Client_written c' = Client_written c)
  /\ (forall env ctx input c c' e,
         Stream env ctx input c = Some (Some e, c') ->
         prepareQuery env input c = Some (tt, c')
         /\ Client_written c' = Client_written c).
Proof.
  split.
  - intros env ctx input c c' response tokens e Hrun.
    destruct (Query_cases _ _ _ _ _ _ _ _ Hrun)
      as [c1 [Hprep [[_ [Hr ->]] | [Habs _]]]]; [| discriminate Habs].
    repeat split; try assumption.
    now destruct (prepareQuery_trace _ _ _ _ Hprep).
  - intros env ctx input c c' e Hrun.
    destruct (Stream_cases _ _ _ _ _ _ Hrun)
      as [c1 [Hprep [[_ ->] | [Habs _]]]]; [| discriminate Habs].
    split; [assumption |].
    now destruct (prepareQuery_trace _ _ _ _ Hprep).
Qed.

Lemma failed_call_keeps_question_witness :
  exists c',
    Query (Sample.env [] (Sample.completions []) (Sample.envelope []))
          Sample.noContext "test query"
          (Sample.client "gpt-3.5-turbo" 50 [])
    = Some ("", 789, Some "no responses returned", c')
    /\ map History_Content (Client_History c')
       = [AnyString "You are a test assistant."; AnyString "test query"]
    /\ Client_written c' = [].
Proof.
  eexists. split; [vm_compute; reflexivity |].
  split; [reflexivity |].
  apply (proj1 failed_call_keeps_question
               (Sample.env [] (Sample.completions []) (Sample.envelope []))
               Sample.noContext "test query"
               (Sample.client "gpt-3.5-turbo" 50 []) _
               "" 789 "no responses returned").
  vm_compute. reflexivity.
Defined.

(** X7.  A call of [Query] or [Stream] that returns no error appends to
    the prepared history exactly one turn, of role assistant, that holds
    the text returned ([Query]) or the bytes the transport returned
    ([Stream]). *)
Theorem successful_call_appends_answer :
  (forall env ctx input c c' response tokens,
      Query env ctx input c = Some (response, tokens, None, c') ->
      exists c1,
        prepareQuery env input c = Some (tt, c1)
        /\ Client_History c'
           = Client_History c1
             ++ [assistantTurn env response (Client_clock c1)])
  /\ (forall env ctx input c c',
         Stream env ctx input c = Some (None, c') ->
         exists c1 body result,
           prepareQuery env input c = Some (tt, c1)
           /\ createBody env c1 ctx true = Ok body
           /\ Caller_Post (caller env) (getChatEndpoint c1) body true
              = (result, None)
           /\ Client_History c'
              = Client_History c1
                ++ [assistantTurn env (bytesOf result) (Client_clock c1)]).
Proof.
  split.
  - intros env ctx input c c' response tokens Hrun.
    destruct (Query_cases _ _ _ _ _ _ _ _ Hrun)
      as [c1 [Hprep [[Habs _] | [_ Hupd]]]]; [now contradiction Habs |].
    exists c1. split; [assumption |].
    now destruct (updateHistory_effect _ _ _ _ Hupd) as [_ [H _]].
  - intros env ctx input c c' Hrun.
    pose proof Hrun as Hrun'. unfold Stream, bind at 1 in Hrun'.
    destruct (prepareQuery env input c) as [[[] c1]|] eqn:Hprep;
      [| discriminate].
    unfold bind at 1, get at 1 in Hrun'.
    destruct (createBody env c1 ctx true) as [body | e] eqn:Hbody;
      [| discriminate].
    destruct (Caller_Post _ _ _ _) as [result [e|]] eqn:Hpost;
      [discriminate |].
    unfold bind, ret in Hrun'.
    destruct (updateHistory _ _ _) as [[[] c2]|] eqn:Hupd; [| discriminate].
    injection Hrun' as <-.
    exists c1, body, result. repeat split; try assumption.
    now destruct (updateHistory_effect _ _ _ _ Hupd) as [_ [H _]].
Qed.

Lemma successful_call_appends_answer_witness :
  exists c',
    Query Sample.plainEnv Sample.noContext "test query"
          (Sample.client "gpt-3.5-turbo" 50 [])
    = Some ("content", 789, None, c')
    /\ exists c1,
        prepareQuery Sample.plainEnv "test query"
                     (Sample.client "gpt-3.5-turbo" 50 [])
        = Some (tt, c1)
        /\ Client_History c'
           = Client_History c1
             ++ [assistantTurn Sample.plainEnv "content" (Client_clock c1)].
Proof.
  eexists. split; [vm_compute; reflexivity |].
  apply (proj1 successful_call_appends_answer
               Sample.plainEnv Sample.noContext "test query"
               (Sample.client "gpt-3.5-turbo" 50 []) _ "content" 789).
  vm_compute. reflexivity.
Defined.

(** The two ways a call of [Transcribe] ends: with an error, in the
    state [initHistory] left, or with the two turns appended, the history
    truncated and, unless tracking is off, handed to the store. *)
Lemma Transcribe_cases (env : Collaborators) (audioPath : string)
    (c c' : Client) (text : string) (err : option error) :
  Transcribe env audioPath c = Some (text, err, c') ->
  exists c1,
    initHistory env c = Some (tt, c1)
    /\ ((err <> None /\ text = "" /\ c' = c1)
        \/ (err = None
            /\ exists c2,
                 sameTrace c1 c2
                 /\ Client_History c' = Client_History c2
                 /\ Client_written c'
                    = if Config_OmitHistory (Client_Config c)
                      then Client_written c
                      else Client_History c' :: Client_written c)).
Proof.
  intros H. unfold Transcribe in H.
  step H c1 Hinit. destruct x. exists c1. split; [exact Hinit |].
  apply initHistory_trace in Hinit.
  destruct (FileReader_Open _ _) as [[contents | e] | e];
    [| injection H as <- <- <-; left; repeat split; discriminate
     | injection H as <- <- <-; left; repeat split; discriminate].
  step H c1' Hget. injection Hget as <- <-.
  destruct (multipart_Form _ _ _ _) as [body contentType].
  destruct (Caller_PostWithHeaders _ _ _ _) as [raw [e|]];
    [injection H as <- <- <-; left; repeat split; discriminate |].
  destruct (json_UnmarshalText _ _) as [t | e];
    [| injection H as <- <- <-; left; repeat split; discriminate].
  step H c2 H1. apply now_trace in H1.
  step H c3 H2. apply appendHistory_sameTrace in H2.
  apply append_truncate_trace in H. destruct H as (c4 & H3 & H).
  step H c5 Hget. injection Hget as <- <-.
  assert (Htr : sameTrace c1 c4) by eauto using sameTrace_trans.
  assert (Hall : sameTrace c c4) by eauto using sameTrace_trans.
  destruct Hall as [Hcfg Hwr].
  right. rewrite Hcfg in H.
  destruct (Config_OmitHistory (Client_Config c)); cbn [negb] in H;
    unfold bind, writeHistory, ret in H; injection H as <- <- <-;
    (split; [reflexivity |]); exists c4; cbn; repeat split;
    try apply Htr; congruence.
Qed.

(** X8.  With history tracking off, no call writes to the store:
    [Query], [Stream] and [Transcribe] leave the store as it was, whatever
    they return, and [InjectMCPContext] refuses at once, with the error
    that tracking is needed, and leaves the client untouched. *)
Theorem omit_history_never_writes :
  (forall env ctx input c r c',
      Config_OmitHistory (Client_Config c) = true ->
      Query env ctx input c = Some (r, c') ->
      Client_written c' = Client_written c)
  /\ (forall env ctx input c r c',
         Config_OmitHistory (Client_Config c) = true ->
         Stream env ctx input c = Some (r, c') ->
         Client_written c' = Client_written c)
  /\ (forall env audioPath c r c',
         Config_OmitHistory (Client_Config c) = true ->
         Transcribe env audioPath c = Some (r, c') ->
         Client_written c' = Client_written c)
  /\ (forall env mcp c,
         Config_OmitHistory (Client_Config c) = true ->
         InjectMCPContext env mcp c = Some (Some ErrHistoryTracking, c)).
Proof.
  split; [| split; [| split]].
  - intros env ctx input c [[response tokens] err] c' Homit Hrun.
    destruct (Query_cases _ _ _ _ _ _ _ _ Hrun)
      as [c1 [Hprep [[_ [_ ->]] | [_ Hupd]]]];
      destruct (prepareQuery_trace _ _ _ _ Hprep) as [Hcfg Hwr];
      [exact Hwr |].
    destruct (updateHistory_effect _ _ _ _ Hupd) as [_ [_ H]].
    rewrite Hcfg, Homit in H. congruence.
  - intros env ctx input c err c' Homit Hrun.
    destruct (Stream_cases _ _ _ _ _ _ Hrun)
      as [c1 [Hprep [[_ ->] | [_ [result [_ Hupd]]]]]];
      destruct (prepareQuery_trace _ _ _ _ Hprep) as [Hcfg Hwr];
      [exact Hwr |].
    destruct (updateHistory_effect _ _ _ _ Hupd) as [_ [_ H]].
    rewrite Hcfg, Homit in H. congruence.
  - intros env audioPath c [text err] c' Homit Hrun.
    destruct (Transcribe_cases _ _ _ _ _ _ Hrun)
      as [c1 [Hinit [[_ [_ ->]] | [_ [c2 [_ [_ H]]]]]]].
    + now destruct (initHistory_trace _ _ _ Hinit).
    + now rewrite Homit in H.
  - intros env mcp c Homit. unfold InjectMCPContext, bind, get.
    now rewrite Homit.
Qed.

Lemma omit_history_never_writes_witness :
  exists c',
    Query Sample.plainEnv Sample.noContext "test query" omitClient
    = Some ("content", 789, None, c')
    /\ Client_written c' = [].
Proof.
  eexists. split; [vm_compute; reflexivity |].
  apply (proj1 omit_history_never_writes
               Sample.plainEnv Sample.noContext "test query" omitClient
               ("content", 789, None) _ eq_refl).
  vm_compute. reflexivity.
Defined.

(** X9.  A call of [Transcribe] that returns an error returns the empty
    text and appends nothing: the client is in the state [initHistory]
    left, with the anchor materialised, and the store is not written
    to. *)
Theorem failed_Transcribe_only_initializes
    (env : Collaborators) (audioPath : string) (c c' : Client)
    (text : string) (e : error) :
  Transcribe env audioPath c = Some (text, Some e, c') ->
  text = ""
  /\ initHistory env c = Some (tt, c')
  /\ Client_written c' = Client_written c.
Proof.
  intros Hrun.
  destruct (Transcribe_cases _ _ _ _ _ _ Hrun)
    as [c1 [Hinit [[_ [Ht ->]] | [Habs _]]]]; [| discriminate Habs].
  repeat split; try assumption.
  now destruct (initHistory_trace _ _ _ Hinit).
Qed.

Lemma failed_Transcribe_only_initializes_witness :
  exists c',
    Transcribe unreadableEnv "missing.wav"
               (Sample.client "gpt-3.5-turbo" 50 [])
    = Some ("", Some "failed to open audio file: no such file", c')
    /\ initHistory unreadableEnv (Sample.client "gpt-3.5-turbo" 50 [])
       = Some (tt, c').
Proof.
  eexists. split; [vm_compute; reflexivity |].
  apply (failed_Transcribe_only_initializes
           unreadableEnv "missing.wav"
           (Sample.client "gpt-3.5-turbo" 50 []) _ ""
           "failed to open audio file: no such file").
  vm_compute. reflexivity.
Defined.

(** ** The anchor across calls *)

(** X10.  [initHistory] never panics; it leaves a history that is not
    empty, asks the timer at most once, changes neither the configuration
    nor the store, and a second call right after it changes nothing. *)
Theorem initHistory_total_idempotent (env : Collaborators) (c : Client) :
  exists c1,
    initHistory env c = Some (tt, c1)
    /\ Client_History c1 <> []
    /\ (Client_clock c1 <= S (Client_clock c))%nat
    /\ sameTrace c c1
    /\ initHistory env c1 = Some (tt, c1).
Proof.
  destruct c as [cfg h clock written].
  destruct h as [|h0 rest].
  - unfold initHistory at 1, bind, get, setHistory, ret, now.
    cbn. destruct (Config_OmitHistory cfg); cbn.
    + eexists. split; [reflexivity |].
      repeat split; cbn; try discriminate; try lia.
    + destruct (fst (Store_Read (historyStore env))); cbn;
        (eexists; split; [reflexivity |]);
        repeat split; cbn; try discriminate; try lia.
  - exists {| Client_Config := cfg; Client_History := h0 :: rest;
              Client_clock := clock; Client_written := written |}.
    repeat split; cbn; try discriminate; try lia.
Qed.

Lemma keeps_refl (c : Client) : keeps c c.
Proof. split; [apply sameTrace_refl | eauto]. Qed.

Lemma keeps_trans (c1 c2 c3 : Client) :
  keeps c1 c2 -> keeps c2 c3 -> keeps c1 c3.
Proof.
  intros [H1 K1] [H2 K2]. split; [eauto using sameTrace_trans |].
  intros h0 rest Hh. destruct (K1 _ _ Hh) as [rest' Hh']. eauto.
Qed.

Lemma now_keeps (env : Collaborators) (c c' : Client) (t : Time) :
  now env c = Some (t, c') -> keeps c c'.
Proof. intros [= _ <-]. split; [now split | eauto]. Qed.

Lemma appendHistory_keeps (entry : History) (c c' : Client) (u : unit) :
  appendHistory entry c = Some (u, c') -> keeps c c'.
Proof.
  intros [= _ <-]. split; [now split |].
  intros h0 rest Hh. cbn. rewrite Hh. cbn. eexists. reflexivity.
Qed.

Lemma truncateHistory_keeps (c c' : Client) :
  truncateHistory c = Some (tt, c') -> keeps c c'.
Proof.
  intros H. split; [now apply truncateHistory_trace |].
  intros h0 rest Hh.
  destruct (truncateHistory_result c c' h0 rest Hh H) as [_ [k Hk]]. eauto.
Qed.

Lemma updateHistory_keeps (env : Collaborators) (response : string)
    (c c' : Client) :
  updateHistory env response c = Some (tt, c') ->
  Client_Config c' = Client_Config c
  /\ forall h0 rest,
       Client_History c = h0 :: rest ->
       exists rest', Client_History c' = h0 :: rest'.
Proof.
  intros H. destruct (updateHistory_effect _ _ _ _ H) as [Hcfg [Hh _]].
  split; [exact Hcfg |]. intros h0 rest Hc. rewrite Hh, Hc. cbn.
  eexists. reflexivity.
Qed.

Lemma addQuery_keeps (env : Collaborators) (query : string) (c c' : Client) :
  addQuery env query c = Some (tt, c') -> keeps c c'.
Proof.
  rewrite addQuery_unfold. intros H. apply truncateHistory_keeps in H.
  destruct H as [[Hcfg Hwr] K]. split; [now split |].
  intros h0 rest Hh. apply (K h0 (rest ++ [queryTurn env query
                                             (Client_clock c)])).
  cbn. now rewrite Hh.
Qed.

(** What [initHistory] establishes from a state that is anchored. *)
Lemma initHistory_anchors (env : Collaborators) (c c1 : Client) :
  anchored c ->
  initHistory env c = Some (tt, c1) ->
  anchorIs (Config_Role (Client_Config c)) c1
  /\ Client_Config c1 = Client_Config c.
Proof.
  intros Hanch Hinit.
  destruct (initHistory_trace _ _ _ Hinit) as [Hcfg _].
  split; [| exact Hcfg].
  destruct Hanch as [Hempty | [h0 [rest [Hh Hrole]]]].
  - destruct c as [cfg h clock written]. cbn in Hempty. subst h.
    revert Hinit. unfold initHistory, bind, get, setHistory, ret, now.
    cbn. destruct (Config_OmitHistory cfg); cbn.
    + intros [= <-]. do 2 eexists. split; reflexivity.
    + destruct (fst (Store_Read (historyStore env))); cbn;
        intros [= <-]; do 2 eexists; split; reflexivity.
  - rewrite (initHistory_materialized env c h0 rest Hh) in Hinit.
    injection Hinit as <-. exists h0, rest. now split.
Qed.

Lemma anchorIs_kept (role : string) (c c' : Client) :
  (forall h0 rest,
      Client_History c = h0 :: rest ->
      exists rest', Client_History c' = h0 :: rest') ->
  anchorIs role c -> anchorIs role c'.
Proof.
  intros K [h0 [rest [Hh Hrole]]]. destruct (K _ _ Hh) as [rest' Hh'].
  exists h0, rest'. now split.
Qed.

Lemma prepareQuery_anchors (env : Collaborators) (input : string)
    (c c' : Client) :
  anchored c ->
  prepareQuery env input c = Some (tt, c') ->
  anchorIs (Config_Role (Client_Config c)) c'
  /\ Client_Config c' = Client_Config c.
Proof.
  intros Hanch H. unfold prepareQuery in H.
  step H c1 Hinit. destruct x.
  destruct (initHistory_anchors _ _ _ Hanch Hinit) as [Ha Hcfg].
  apply addQuery_keeps in H. destruct H as [[Hcfg' _] K].
  split; [eapply anchorIs_kept; eassumption | congruence].
Qed.

(** X11.  From a client that holds no history, or one whose first turn
    holds the configured persona text, every call of [Query], [Stream] or
    [Transcribe] that completes, with or without an error, leaves a
    history whose first turn holds the persona text, and leaves the
    configuration as it was. *)
Theorem anchor_survives_calls (env : Collaborators) (c : Client) :
  anchored c ->
  (forall ctx input r c',
      Query env ctx input c = Some (r, c') ->
      anchorIs (Config_Role (Client_Config c)) c'
      /\ Client_Config c' = Client_Config c)
  /\ (forall ctx input r c',
         Stream env ctx input c = Some (r, c') ->
         anchorIs (Config_Role (Client_Config c)) c'
         /\ Client_Config c' = Client_Config c)
  /\ (forall audioPath r c',
         Transcribe env audioPath c = Some (r, c') ->
         anchorIs (Config_Role (Client_Config c)) c'
         /\ Client_Config c' = Client_Config c).
Proof.
  intros Hanch. split; [| split].
  - intros ctx input [[response tokens] err] c' Hrun.
    destruct (Query_cases _ _ _ _ _ _ _ _ Hrun)
      as [c1 [Hprep [[_ [_ ->]] | [_ Hupd]]]];
      destruct (prepareQuery_anchors _ _ _ _ Hanch Hprep) as [Ha Hcfg];
      [now split |].
    destruct (updateHistory_keeps _ _ _ _ Hupd) as [Hcfg' K].
    split; [eapply anchorIs_kept; eassumption | congruence].
  - intros ctx input err c' Hrun.
    destruct (Stream_cases _ _ _ _ _ _ Hrun)
      as [c1 [Hprep [[_ ->] | [_ [result [_ Hupd]]]]]];
      destruct (prepareQuery_anchors _ _ _ _ Hanch Hprep) as [Ha Hcfg];
      [now split |].
    destruct (updateHistory_keeps _ _ _ _ Hupd) as [Hcfg' K].
    split; [eapply anchorIs_kept; eassumption | congruence].
  - intros audioPath [text err] c' H. unfold Transcribe in H.
    step H c1 Hinit. destruct x.
    destruct (initHistory_anchors _ _ _ Hanch Hinit) as [Ha Hcfg].
    destruct (FileReader_Open _ _) as [[contents | e] | e];
      [| injection H as <- <- <-; now split
       | injection H as <- <- <-; now split].
    step H c1' Hget. injection Hget as <- <-.
    destruct (multipart_Form _ _ _ _) as [body contentType].
    destruct (Caller_PostWithHeaders _ _ _ _) as [raw [e|]];
      [injection H as <- <- <-; now split |].
    destruct (json_UnmarshalText _ _) as [t | e];
      [| injection H as <- <- <-; now split].
    step H c2 H1. apply now_keeps in H1.
    step H c3 H2. apply appendHistory_keeps in H2.
    step H c4 H3. apply now_keeps in H3.
    step H c5 H4. apply appendHistory_keeps in H4.
    step H c6 H5. destruct x3. apply truncateHistory_keeps in H5.
    step H c7 Hget. injection Hget as <- <-.
    assert (K : keeps c1 c6) by eauto using keeps_trans.
    destruct K as [[Hcfg6 _] K].
    assert (Hfin : Client_History c' = Client_History c6
                   /\ Client_Config c' = Client_Config c6).
    { destruct (negb _); unfold bind, writeHistory, ret in H;
        injection H as <- <- <-; now split. }
    destruct Hfin as [Hh' Hc'].
    split; [| congruence].
    destruct Ha as [h0 [rest [Hh Hrole]]].
    destruct (K _ _ Hh) as [rest' Hk].
    exists h0, rest'. split; [congruence | assumption].
Qed.

Lemma anchor_survives_calls_witness :
  exists r c',
    Query Sample.plainEnv Sample.noContext "test query"
          (Sample.client "gpt-3.5-turbo" 50 Sample.history)
    = Some (r, c')
    /\ anchorIs "You are a test assistant." c'.
Proof.
  eexists. eexists. split; [vm_compute; reflexivity |].
  refine (proj1 (proj1 (anchor_survives_calls
                          Sample.plainEnv
                          (Sample.client "gpt-3.5-turbo" 50 Sample.history) _)
                       Sample.noContext "test query" _ _ _)).
  - right. do 2 eexists. split; reflexivity.
  - vm_compute. reflexivity.
Defined.

(** ** The messages of a request *)

Lemma messagesFrom_later (caps : ModelCapabilities) (index : nat)
    (items : list History) :
  messagesFrom caps (S index) items = map History_Message items.
Proof.
  revert index. induction items as [|item rest IH]; intros index;
    [reflexivity |].
  cbn [messagesFrom map]. rewrite andb_false_r. now rewrite IH.
Qed.

Lemma messagesFrom_history (c : Client) :
  messagesFrom (GetCapabilities (Config_Model (Client_Config c))) 0
               (Client_History c)
  = historyMessages c.
Proof.
  unfold historyMessages.
  destruct (Client_History c) as [|item rest].
  - now destruct (OmitFirstSystemMsg _).
  - cbn [messagesFrom]. rewrite messagesFrom_later.
    now destruct (OmitFirstSystemMsg _).
Qed.

(** What [appendMediaMessages] adds: nothing without an attachment, one
    message of role user otherwise. *)
Lemma appendMediaMessages_adds (env : Collaborators) (ctx : Context)
    (messages result : list Message) :
  appendMediaMessages env ctx messages = Ok result ->
  exists extra,
    result = messages ++ extra
    /\ (List.length extra <= 1)%nat
    /\ Forall (fun m => Message_Role m = UserRole) extra
    /\ (extra = [] <-> noAttachment ctx).
Proof.
  unfold appendMediaMessages, noAttachment.
  destruct (Context_BinaryData ctx) as [data|].
  { destruct (createImageContentFromBinary _ _); [| discriminate].
    intros [= <-]. eexists. split; [reflexivity |].
    split; [cbn; lia |]. split; [repeat constructor |].
    split; [discriminate | intros [H _]; discriminate H]. }
  destruct (Context_ImagePath ctx) as [path|].
  { destruct (createImageContentFromURLOrFile _ _); [| discriminate].
    intros [= <-]. eexists. split; [reflexivity |].
    split; [cbn; lia |]. split; [repeat constructor |].
    split; [discriminate | intros [_ [H _]]; discriminate H]. }
  destruct (Context_AudioPath ctx) as [path|].
  { destruct (createAudioContentFromFile _ _); [| discriminate].
    intros [= <-]. eexists. split; [reflexivity |].
    split; [cbn; lia |]. split; [repeat constructor |].
    split; [discriminate | intros [_ [_ H]]; discriminate H]. }
  intros [= <-]. exists []. rewrite app_nil_r.
  repeat split; auto.
Qed.

(** X12.  The messages of a request, in either shape, are the messages
    of the history in their order, without the first one when the model
    omits the first system message, followed by at most one message: none
    when the call carries no attachment, one of role user when it carries
    one. *)
Theorem request_carries_history (env : Collaborators) (c : Client)
    (ctx : Context) (stream : bool) :
  (forall req,
      createCompletionsRequest env c ctx stream = Ok req ->
      exists extra,
        CompletionsRequest_Messages req = historyMessages c ++ extra
        /\ (List.length extra <= 1)%nat
        /\ Forall (fun m => Message_Role m = UserRole) extra
        /\ (extra = [] <-> noAttachment ctx))
  /\ (forall req,
         createResponsesRequest env c ctx stream = Ok req ->
         exists extra,
           ResponsesRequest_Input req = historyMessages c ++ extra
           /\ (List.length extra <= 1)%nat
           /\ Forall (fun m => Message_Role m = UserRole) extra
           /\ (extra = [] <-> noAttachment ctx)).
Proof.
  split; intros req.
  - unfold createCompletionsRequest. rewrite messagesFrom_history.
    destruct (appendMediaMessages _ _ _) as [messages | e] eqn:E;
      [| discriminate].
    apply appendMediaMessages_adds in E.
    destruct (SupportsTemperature _); intros [= <-]; exact E.
  - unfold createResponsesRequest. rewrite messagesFrom_history.
    destruct (appendMediaMessages _ _ _) as [messages | e] eqn:E;
      [| discriminate].
    apply appendMediaMessages_adds in E.
    intros [= <-]. exact E.
Qed.

Lemma request_carries_history_witness :
  exists req extra,
    createCompletionsRequest Sample.plainEnv
      (Sample.client "o1-mini" 50 Sample.history) Sample.noContext false
    = Ok req
    /\ CompletionsRequest_Messages req
       = map History_Message (tl Sample.history) ++ extra
    /\ (List.length extra <= 1)%nat.
Proof.
  eexists.
  destruct (proj1 (request_carries_history
                     Sample.plainEnv
                     (Sample.client "o1-mini" 50 Sample.history)
                     Sample.noContext false) _ eq_refl)
    as [extra [H1 [H2 _]]].
  exists extra. split; [reflexivity |]. split; assumption.
Defined.



(** X14.  Both request shapes are built from the same messages, and one
    fails exactly when the other does, with the same error. *)
Theorem request_shapes_agree (env : Collaborators) (c : Client)
    (ctx : Context) (stream : bool) :
  match createCompletionsRequest env c ctx stream,
        createResponsesRequest env c ctx stream with
  | Ok classic, Ok alternate =>
    ResponsesRequest_Input alternate = CompletionsRequest_Messages classic
    /\ ResponsesRequest_Model alternate = CompletionsRequest_Model classic
    /\ ResponsesRequest_MaxOutputTokens alternate
       = CompletionsRequest_MaxTokens classic
    /\ ResponsesRequest_Stream alternate = stream
    /\ CompletionsRequest_Stream classic = stream
  | Err e1, Err e2 => e1 = e2
  | _, _ => False
  end.
Proof.
  unfold createCompletionsRequest, createResponsesRequest.
  destruct (appendMediaMessages _ _ _) as [messages | e]; [| reflexivity].
  destruct (SupportsTemperature _); repeat split.
Qed.

(** ** Capabilities and the budget *)

(** X15.  A model that does not support streaming uses the responses API
    and keeps its first system message; a model whose first system
    message is omitted supports streaming. *)
Theorem capabilities_relations (model : string) :
  let caps := GetCapabilities model in
  (SupportsStreaming caps = false ->
   UsesResponsesAPI caps = true /\ OmitFirstSystemMsg caps = false)
  /\ (OmitFirstSystemMsg caps = true -> SupportsStreaming caps = true)
  /\ (UsesResponsesAPI caps = false -> SupportsStreaming caps = true).
Proof.
  unfold GetCapabilities; cbn.
  destruct (Contains model o1ProPattern), (Contains model gpt5Pattern),
    (HasPrefix model o1Prefix); cbn; repeat split; intros; congruence.
Qed.

Lemma capabilities_relations_witness :
  UsesResponsesAPI (GetCapabilities "o1-pro-2025") = true
  /\ OmitFirstSystemMsg (GetCapabilities "o1-pro-2025") = false.
Proof.
  apply (proj1 (capabilities_relations "o1-pro-2025")). reflexivity.
Defined.

(** X16.  For a context window that is not negative and whose product by
    80 fits in 64 bits, the budget is the window's four fifths rounded
    down: it is not negative, at most the window, and it grows with the
    window. *)
Theorem effective_window_bounds (window : Z) :
  0 <= window -> window * 80 < 2 ^ 63 ->
  let B := calculateEffectiveContextWindow window MaxTokenBufferPercentage in
  0 <= B <= window
  /\ 100 * B <= 80 * window < 100 * (B + 1)
  /\ forall window',
       0 <= window' <= window ->
       calculateEffectiveContextWindow window' MaxTokenBufferPercentage <= B.
Proof.
  intros H0 Hfit B.
  assert (HB : B = window * 80 / 100).
  { unfold B. rewrite effective_window_in_range by lia.
    rewrite Z.quot_div_nonneg by lia. reflexivity. }
  pose proof (Z.div_mod (window * 80) 100 ltac:(lia)) as Hdm.
  pose proof (Z.mod_pos_bound (window * 80) 100 ltac:(lia)) as Hmod.
  rewrite <- HB in Hdm.
  split; [lia |]. split; [lia |].
  intros window' Hw'.
  rewrite effective_window_in_range by lia.
  rewrite Z.quot_div_nonneg by lia. rewrite HB.
  apply Z.div_le_mono; lia.
Qed.

Lemma effective_window_bounds_witness :
  0 <= calculateEffectiveContextWindow 8192 MaxTokenBufferPercentage <= 8192.
Proof.
  apply (proj1 (effective_window_bounds 8192 ltac:(lia) ltac:(lia))).
Defined.

(** ** Bounds on the costs *)

(** Reading a rune takes at least one byte. *)
Lemma decodeRunes_length (n : nat) :
  forall bs,
    (List.length bs <= n)%nat ->
    (List.length (decodeRunes bs) <= List.length bs)%nat.
Proof.
  induction n as [|n IH]; intros bs Hn.
  - destruct bs; [cbn; lia | cbn in Hn; lia].
  - destruct bs as [|b0 t0]; [cbn; lia |].
    cbn [List.length] in Hn.
    assert (H0 : (List.length (decodeRunes t0) <= List.length t0)%nat)
      by (apply IH; lia).
    cbn [decodeRunes].
    destruct (b0 <? 128); [cbn [List.length] in *; unfold rune in *; lia |].
    destruct (first b0) as [[[sz lo] hi]|]; [| cbn [List.length] in *; unfold rune in *; lia].
    destruct t0 as [|b1 t1]; [cbn; lia |].
    cbn [List.length] in *.
    assert (H1 : (List.length (decodeRunes t1) <= List.length t1)%nat)
      by (apply IH; lia).
    destruct (negb (inRange lo hi b1)); [cbn [List.length] in *; unfold rune in *; lia |].
    destruct (sz =? 2); [cbn [List.length] in *; unfold rune in *; lia |].
    destruct t1 as [|b2 t2]; [cbn [List.length] in *; unfold rune in *; lia |].
    cbn [List.length] in *.
    assert (H2 : (List.length (decodeRunes t2) <= List.length t2)%nat)
      by (apply IH; lia).
    destruct (negb (inRange 128 191 b2)); [cbn [List.length] in *; unfold rune in *; lia |].
    destruct (sz =? 3); [cbn [List.length] in *; unfold rune in *; lia |].
    destruct t2 as [|b3 t3]; [cbn [List.length] in *; unfold rune in *; lia |].
    cbn [List.length] in *.
    assert (H3 : (List.length (decodeRunes t3) <= List.length t3)%nat)
      by (apply IH; lia).
    destruct (negb (inRange 128 191 b3)); cbn [List.length] in *; unfold rune in *; lia.
Qed.

Lemma runes_length (s : string) :
  (List.length (runes s) <= String.length s)%nat.
Proof.
  unfold runes.
  assert (Hb : List.length (bytes s) = String.length s).
  { unfold bytes. rewrite length_map.
    induction s as [|a s IH]; cbn; [reflexivity | now rewrite IH]. }
  pose proof (decodeRunes_length (List.length (bytes s)) (bytes s)
                                 (le_n _)) as H.
  unfold rune in *. lia.
Qed.

(** The characters and the number of the words [fieldsFrom] gives. *)
Lemma fieldsFrom_weight (rs : list rune) :
  forall cur,
    let words := fieldsFrom rs cur in
    sumZ (map (fun w => Z.of_nat (List.length w)) words)
    + Z.of_nat (List.length words)
    <= Z.of_nat (List.length rs) + Z.of_nat (List.length cur)
       + (match rs, cur with [], [] => 0 | _, _ => 1 end).
Proof.
  induction rs as [|r rest IH]; intros cur; cbv zeta.
  - destruct cur as [|x cur]; cbn [fieldsFrom].
    + cbn. lia.
    + cbn [map List.length]. rewrite length_rev.
      change (sumZ [?a]) with (a + 0). cbn [List.length]. lia.
  - cbn [fieldsFrom]. destruct (IsSpace r).
    + destruct cur as [|x cur].
      * specialize (IH []). cbv zeta in IH. cbn [List.length] in *.
        destruct rest; lia.
      * specialize (IH []). cbv zeta in IH.
        cbn [map List.length] in *. rewrite length_rev.
        change (sumZ (?a :: ?l)) with (a + sumZ l).
        cbn [List.length]. destruct rest; lia.
    + specialize (IH (r :: cur)). cbv zeta in IH.
      cbn [List.length] in *. destruct rest; lia.
Qed.

Lemma textCost_le_runes (s : string) :
  textCost s <= Z.of_nat (List.length (runes s)).
Proof.
  unfold textCost, Fields.
  pose proof (fieldsFrom_weight (runes s) []) as H. cbv zeta in H.
  cbn [List.length] in H.
  destruct (runes s) as [|r rs] eqn:E.
  - cbn. reflexivity.
  - rewrite <- E in *.
    assert (1 <= Z.of_nat (List.length (runes s)))
      by (rewrite E; cbn [List.length]; lia).
    apply Z.div_le_upper_bound; lia.
Qed.

(** X17.  The cost of a text is at most the number of its runes, which
    is at most its length in bytes; a text of white space costs nothing;
    and the total [countTokens] gives for a history is at most the number
    of bytes of its contents. *)
Theorem cost_bounded_by_size :
  (forall s,
      0 <= tokenCountForMessage s
      /\ tokenCountForMessage s <= Z.of_nat (List.length (runes s))
      /\ Z.of_nat (List.length (runes s)) <= Z.of_nat (String.length s))
  /\ (forall s,
         forallb IsSpace (runes s) = true -> tokenCountForMessage s = 0)
  /\ (forall entries total rolling,
         countTokens entries = Some (total, rolling) ->
         0 <= total <= sumZ (map contentBytes entries)).
Proof.
  split; [| split].
  - intros s. rewrite tokenCountForMessage_textCost.
    split; [apply textCost_nonneg |].
    split; [apply textCost_le_runes |].
    apply Nat2Z.inj_le, runes_length.
  - intros s Hs. rewrite tokenCountForMessage_textCost.
    unfold textCost, Fields.
    assert (Hw : fieldsFrom (runes s) [] = []).
    { induction (runes s) as [|r rs IH]; [reflexivity |].
      cbn [forallb] in Hs. apply andb_true_iff in Hs. destruct Hs as [Hr Hs].
      cbn [fieldsFrom]. rewrite Hr. now apply IH. }
    rewrite Hw. reflexivity.
  - intros entries total rolling Hrun.
    assert (Htext : Forall isText entries).
    { unfold countTokens in Hrun.
      eapply countTokensFrom_Some_text. exact Hrun. }
    rewrite (countTokens_text entries Htext) in Hrun.
    injection Hrun as <- _.
    split; [apply totalCost_nonneg |].
    unfold totalCost. clear - Htext.
    induction Htext as [|h rest [s Hs] _ IH]; [cbn; lia |].
    change (sumZ (map turnCost (h :: rest)))
      with (turnCost h + sumZ (map turnCost rest)).
    change (sumZ (map contentBytes (h :: rest)))
      with (contentBytes h + sumZ (map contentBytes rest)).
    assert (turnCost h <= contentBytes h).
    { unfold turnCost, contentBytes. rewrite Hs.
      pose proof (textCost_le_runes s). pose proof (runes_length s). lia. }
    lia.
Qed.

Lemma cost_bounded_by_size_witness :
  tokenCountForMessage "   " = 0
  /\ 0 <= 45 <= sumZ (map contentBytes Sample.history).
Proof.
  split.
  - apply (proj1 (proj2 cost_bounded_by_size)). reflexivity.
  - apply (proj2 (proj2 cost_bounded_by_size) Sample.history 45
                 [13; 5; 4; 5; 4; 5; 4; 5]).
    reflexivity.
Defined.

(** ** Listing the models *)

Lemma ascii_compare_N (a b : ascii) :
  Ascii.compare a b = N.compare (N_of_ascii a) (N_of_ascii b).
Proof. reflexivity. Qed.

Lemma string_leb_trans (a : string) :
  forall b c,
    String.leb a b = true -> String.leb b c = true -> String.leb a c = true.
Proof.
  unfold String.leb.
  induction a as [|x a IH]; intros [|y b] [|z c]; cbn; try congruence.
  rewrite !ascii_compare_N.
  destruct (N.compare_spec (N_of_ascii x) (N_of_ascii y)) as [Hxy|Hxy|Hxy];
    destruct (N.compare_spec (N_of_ascii y) (N_of_ascii z)) as [Hyz|Hyz|Hyz];
    try congruence; intros Hab Hbc.
  - replace (N_of_ascii x ?= N_of_ascii z)%N with Eq
      by (symmetry; apply N.compare_eq_iff; congruence).
    exact (IH b c Hab Hbc).
  - replace (N_of_ascii x ?= N_of_ascii z)%N with Lt
      by (symmetry; apply N.compare_lt_iff; lia).
    reflexivity.
  - replace (N_of_ascii x ?= N_of_ascii z)%N with Lt
      by (symmetry; apply N.compare_lt_iff; lia).
    reflexivity.
  - replace (N_of_ascii x ?= N_of_ascii z)%N with Lt
      by (symmetry; apply N.compare_lt_iff; lia).
    reflexivity.
Qed.

Lemma string_ltb_leb (a b : string) :
  String.ltb a b = true -> String.leb a b = true.
Proof.
  unfold String.ltb, String.leb. now destruct (String.compare a b).
Qed.

Lemma string_not_ltb_leb (a b : string) :
  String.ltb a b = false -> String.leb b a = true.
Proof.
  unfold String.ltb, String.leb. rewrite (String.compare_antisym a b).
  destruct (String.compare b a); cbn; congruence.
Qed.

Lemma insertId_perm (id : string) (sorted : list string) :
  Permutation (insertId id sorted) (id :: sorted).
Proof.
  induction sorted as [|other rest IH]; cbn; [reflexivity |].
  destruct (String.ltb other id); [| reflexivity].
  rewrite IH. apply perm_swap.
Qed.

Lemma insertId_ascending (id : string) (sorted : list string) :
  ascending sorted -> ascending (insertId id sorted).
Proof.
  unfold ascending. induction 1 as [|other rest Hrest IH Hhd]; cbn.
  - repeat constructor.
  - destruct (String.ltb other id) eqn:E.
    + constructor; [exact IH |].
      destruct rest as [|next rest]; cbn.
      * constructor. now apply string_ltb_leb.
      * inversion Hhd; subst.
        destruct (String.ltb next id); constructor;
          [assumption | now apply string_ltb_leb].
    + constructor; [now constructor |].
      constructor. now apply string_not_ltb_leb.
Qed.

Lemma sortIds_perm (ids : list string) : Permutation (sortIds ids) ids.
Proof.
  induction ids as [|id rest IH]; cbn; [reflexivity |].
  rewrite insertId_perm. now constructor.
Qed.

Lemma sortIds_ascending (ids : list string) : ascending (sortIds ids).
Proof.
  induction ids as [|id rest IH]; cbn; [constructor |].
  now apply insertId_ascending.
Qed.

Lemma ascending_filter (keep : string -> bool) (ids : list string) :
  ascending ids -> ascending (filter keep ids).
Proof.
  unfold ascending. intros H.
  apply Sorted_StronglySorted in H;
    [| intros a b c; apply string_leb_trans].
  apply StronglySorted_Sorted.
  induction H as [|id rest Hrest IH Hall]; cbn; [constructor |].
  destruct (keep id); [| exact IH].
  constructor; [exact IH |].
  apply Forall_forall. intros x Hx. apply filter_In in Hx.
  rewrite Forall_forall in Hall. now apply Hall.
Qed.

Lemma filter_perm (keep : string -> bool) (l l' : list string) :
  Permutation l l' -> Permutation (filter keep l) (filter keep l').
Proof.
  induction 1 as [|x l l' H IH|x y l|l l' l'' H1 IH1 H2 IH2]; cbn.
  - constructor.
  - destruct (keep x); [constructor |]; assumption.
  - destruct (keep x), (keep y); try reflexivity. apply perm_swap.
  - etransitivity; eassumption.
Qed.

Lemma modelLines_filter (current : string) (data : list string) :
  modelLines current data
  = map (modelLine current) (filter isChatModel data).
Proof.
  induction data as [|id rest IH]; cbn; [reflexivity |].
  destruct (isChatModel id); cbn; now rewrite IH.
Qed.

(** X18.  [ListModels] fails with the error of the transport, with
    "empty response" for a nil body and with the wrapped error of the
    decoder.  Otherwise it gives one line for each entry whose identifier
    starts with "gpt" or "o1", and for no other, in ascending order of the
    identifiers; the line is ["* id (current)"] for the configured model
    and ["- id"] for the others. *)
Theorem ListModels_lines
    (callerGet : string -> option string * option error)
    (unmarshalModels : string -> Result (list string))
    (modelsPath : string) (c : Client) :
  match callerGet (getEndpoint c modelsPath) with
  | (_, Some e) => ListModels callerGet unmarshalModels modelsPath c = Err e
  | (None, None) =>
    ListModels callerGet unmarshalModels modelsPath c = Err ErrEmptyResponse
  | (Some raw, None) =>
    match unmarshalModels raw with
    | Err e =>
      ListModels callerGet unmarshalModels modelsPath c
      = Err ("failed to decode response: " ++ e)%string
    | Ok data =>
      exists ids,
        ListModels callerGet unmarshalModels modelsPath c
        = Ok (map (modelLine (Config_Model (Client_Config c))) ids)
        /\ Permutation ids (filter isChatModel data)
        /\ ascending ids
    end
  end.
Proof.
  unfold ListModels.
  destruct (callerGet _) as [[raw|] [e|]]; try reflexivity.
  cbn [processResponse].
  destruct (unmarshalModels raw) as [data | e]; [| reflexivity].
  exists (filter isChatModel (sortIds data)).
  split; [now rewrite modelLines_filter |].
  split.
  - apply filter_perm, sortIds_perm.
  - apply ascending_filter, sortIds_ascending.
Qed.

(** ** Providing context *)

(** The rounds of [entriesFrom] cut the words from [i] on into chunks. *)
Lemma entriesFrom_chunks (env : Collaborators) (words : list string) :
  forall fuel i c,
    (List.length words - i <= fuel)%nat ->
    exists entries c' chunks,
      entriesFrom env fuel i words c = Some (entries, c')
      /\ List.concat chunks = skipn i words
      /\ Forall (fun ch => (1 <= List.length ch <= 100)%nat) chunks
      /\ Forall (fun ch => List.length ch = 100%nat) (removelast chunks)
      /\ map History_Content entries
         = map (fun ch => AnyString (joinWords ch)) chunks
      /\ Forall (fun e => Message_Role (History_Message e) = UserRole)
                entries
      /\ Z.of_nat (List.length entries)
         = (Z.of_nat (List.length words - i) + 99) / 100
      /\ Client_clock c' = (Client_clock c + List.length entries)%nat
      /\ Client_History c' = Client_History c
      /\ sameTrace c c'.
Proof.
  induction fuel as [|fuel IH]; intros i c Hfuel.
  - exists [], c, []. cbn [entriesFrom ret].
    assert (Hlen : (List.length words <= i)%nat) by lia.
    split; [reflexivity |].
    split; [cbn; now rewrite skipn_all2 |].
    repeat split; try constructor; cbn; try lia.
    replace (List.length words - i)%nat with 0%nat by lia. reflexivity.
  - cbn [entriesFrom].
    destruct (i <? List.length words)%nat eqn:Ei.
    + apply Nat.ltb_lt in Ei.
      set (stop := if (List.length words <? i + 100)%nat
                   then List.length words else (i + 100)%nat).
      set (c1 := {| Client_Config := Client_Config c;
                    Client_History := Client_History c;
                    Client_clock := S (Client_clock c);
                    Client_written := Client_written c |}).
      destruct (IH (i + 100)%nat c1 ltac:(lia))
        as (entries & c' & chunks & Hrun & Hcat & Hsize & Hfull & Hcont
            & Hrole & Hcount & Hclock & Hhist & Htrace).
      unfold bind at 1, now at 1. fold c1.
      unfold bind at 1. rewrite Hrun. cbn [ret].
      eexists. exists c', (slice words i stop :: chunks).
      split; [reflexivity |].
      assert (Hstop : (stop - i = Nat.min 100 (List.length words - i))%nat).
      { unfold stop. destruct (_ <? _)%nat eqn:E;
          [apply Nat.ltb_lt in E | apply Nat.ltb_ge in E]; lia. }
      assert (Hchunk : List.length (slice words i stop)
                       = Nat.min 100 (List.length words - i)).
      { unfold slice. rewrite length_firstn, length_skipn. lia. }
      assert (Hrest : skipn (i + 100) words
                      = skipn (stop - i) (skipn i words)).
      { rewrite skipn_skipn.
        destruct (Nat.le_gt_cases 100 (List.length words - i)).
        - f_equal. lia.
        - rewrite !skipn_all2 by lia. reflexivity. }
      split.
      { cbn [List.concat]. rewrite Hcat, Hrest. unfold slice.
        apply firstn_skipn. }
      split; [constructor; [lia | exact Hsize] |].
      split.
      { destruct chunks as [|ch chunks]; [constructor |].
        change (removelast (slice words i stop :: ch :: chunks))
          with (slice words i stop :: removelast (ch :: chunks)).
        constructor; [| exact Hfull].
        rewrite Hchunk.
        assert (skipn (i + 100) words <> []).
        { rewrite <- Hcat. inversion Hsize; subst.
          destruct ch; [cbn in *; lia | discriminate]. }
        destruct (Nat.le_gt_cases 100 (List.length words - i)); [lia |].
        exfalso. apply H. apply skipn_all2. lia. }
      split; [cbn [map]; now rewrite Hcont |].
      split; [constructor; [reflexivity | exact Hrole] |].
      split.
      { cbn [List.length]. rewrite Nat2Z.inj_succ, Hcount.
        assert (Hb : Z.of_nat (List.length words - (i + 100))
                     = Z.max 0 (Z.of_nat (List.length words - i) - 100))
          by lia.
        assert (Ha : 1 <= Z.of_nat (List.length words - i)) by lia.
        rewrite Hb. clear - Ha.
        generalize dependent (Z.of_nat (List.length words - i)).
        intros a Ha. Z.div_mod_to_equations. lia. }
      split; [rewrite Hclock; cbn; lia |].
      split; [rewrite Hhist; reflexivity |].
      destruct Htrace as [H1 H2]. split; assumption.
    + apply Nat.ltb_ge in Ei.
      exists [], c, []. cbn [ret].
      split; [reflexivity |].
      split; [cbn; now rewrite skipn_all2 |].
      repeat split; try constructor; cbn; try lia.
      replace (List.length words - i)%nat with 0%nat by lia. reflexivity.
Qed.

(** X19.  [createHistoryEntriesFromString] cuts the words of its input,
    in their order and with none lost, into chunks of 100 words, the last
    one of 1 to 100 words, and gives one turn of role user for each chunk,
    whose content is the words of the chunk joined by a space; it asks the
    timer once for each turn and changes nothing else.  An input without
    a word gives no turn. *)
Theorem createHistoryEntriesFromString_chunks
    (env : Collaborators) (input : string) (c : Client) :
  exists entries c' chunks,
    createHistoryEntriesFromString env input c = Some (entries, c')
    /\ List.concat chunks = FieldsStr input
    /\ Forall (fun ch => (1 <= List.length ch <= 100)%nat) chunks
    /\ Forall (fun ch => List.length ch = 100%nat) (removelast chunks)
    /\ map History_Content entries
       = map (fun ch => AnyString (joinWords ch)) chunks
    /\ Forall (fun e => Message_Role (History_Message e) = UserRole) entries
    /\ Z.of_nat (List.length entries)
       = (Z.of_nat (List.length (FieldsStr input)) + 99) / 100
    /\ Client_clock c' = (Client_clock c + List.length entries)%nat
    /\ Client_History c' = Client_History c.
Proof.
  unfold createHistoryEntriesFromString.
  destruct (entriesFrom_chunks env (FieldsStr input)
              (List.length (FieldsStr input)) 0 c ltac:(lia))
    as (entries & c' & chunks & Hrun & Hcat & Hsize & Hfull & Hcont
        & Hrole & Hcount & Hclock & Hhist & _).
  exists entries, c', chunks. rewrite Nat.sub_0_r in Hcount.
  repeat split; assumption.
Qed.

(** X20.  [ProvideContext] never panics: it initialises the history and
    appends the turns of the context after it.  It does not truncate the
    history, whatever the budget, and does not write to the store. *)
Theorem ProvideContext_appends (env : Collaborators) (context : string)
    (c : Client) :
  exists c1 entries c2 c',
    initHistory env c = Some (tt, c1)
    /\ createHistoryEntriesFromString env context c1 = Some (entries, c2)
    /\ ProvideContext env context c = Some (tt, c')
    /\ Client_History c' = Client_History c1 ++ entries
    /\ Client_Config c' = Client_Config c
    /\ Client_written c' = Client_written c.
Proof.
  destruct (initHistory_total_idempotent env c)
    as (c1 & Hinit & _ & _ & [Hcfg1 Hwr1] & _).
  unfold createHistoryEntriesFromString.
  destruct (entriesFrom_chunks env (FieldsStr context)
              (List.length (FieldsStr context)) 0 c1 ltac:(lia))
    as (entries & c2 & chunks & Hrun & _ & _ & _ & _ & _ & _ & _ & Hhist
        & [Hcfg2 Hwr2]).
  exists c1, entries, c2. eexists.
  split; [exact Hinit |]. split; [exact Hrun |].
  unfold ProvideContext, bind at 1. rewrite Hinit.
  unfold bind at 1, createHistoryEntriesFromString. rewrite Hrun.
  unfold bind, get, setHistory.
  split; [reflexivity |]. cbn [Client_History Client_Config Client_written].
  rewrite Hhist. repeat split; congruence.
Qed.

(** The two readings of a text agree: the runes of the spans are the
    runes [decodeRunes] reads, their bytes are the bytes of the text, and
    the words are as many. *)
Lemma decodeSpans_runes (n : nat) :
  forall l,
    (List.length l <= n)%nat ->
    map fst (decodeSpans l) = decodeRunes (map byteOf l).
Proof.
  induction n as [|n IH]; intros l Hn.
  - destruct l; [reflexivity | cbn in Hn; lia].
  - destruct l as [|a0 t0]; [reflexivity |].
    cbn [List.length] in Hn.
    assert (H0 : map fst (decodeSpans t0) = decodeRunes (map byteOf t0))
      by (apply IH; lia).
    cbn [decodeSpans decodeRunes map]. cbv zeta.
    destruct (byteOf a0 <? 128); [cbn [map fst]; now rewrite H0 |].
    destruct (first (byteOf a0)) as [[[sz lo] hi]|];
      [| cbn [map fst]; now rewrite H0].
    destruct t0 as [|a1 t1]; [reflexivity |].
    cbn [List.length map] in *.
    assert (H1 : map fst (decodeSpans t1) = decodeRunes (map byteOf t1))
      by (apply IH; lia).
    destruct (negb (inRange lo hi (byteOf a1)));
      [cbn [map fst]; now rewrite H0 |].
    destruct (sz =? 2); [cbn [map fst]; now rewrite H1 |].
    destruct t1 as [|a2 t2]; [cbn [map fst]; now rewrite H0 |].
    cbn [List.length map] in *.
    assert (H2 : map fst (decodeSpans t2) = decodeRunes (map byteOf t2))
      by (apply IH; lia).
    destruct (negb (inRange 128 191 (byteOf a2)));
      [cbn [map fst]; now rewrite H0 |].
    destruct (sz =? 3); [cbn [map fst]; now rewrite H2 |].
    destruct t2 as [|a3 t3]; [cbn [map fst]; now rewrite H0 |].
    cbn [List.length map] in *.
    assert (H3 : map fst (decodeSpans t3) = decodeRunes (map byteOf t3))
      by (apply IH; lia).
    destruct (negb (inRange 128 191 (byteOf a3)));
      cbn [map fst]; [now rewrite H0 | now rewrite H3].
Qed.

Lemma decodeSpans_nonempty (n : nat) :
  forall l,
    (List.length l <= n)%nat ->
    Forall (fun span => snd span <> EmptyString) (decodeSpans l).
Proof.
  induction n as [|n IH]; intros l Hn.
  - destruct l; [constructor | cbn in Hn; lia].
  - destruct l as [|a0 t0]; [constructor |].
    cbn [List.length] in Hn.
    assert (H0 := IH t0 ltac:(lia)).
    cbn [decodeSpans]. cbv zeta.
    destruct (byteOf a0 <? 128); [constructor; [discriminate | exact H0] |].
    destruct (first (byteOf a0)) as [[[sz lo] hi]|];
      [| constructor; [discriminate | exact H0]].
    destruct t0 as [|a1 t1]; [constructor; [discriminate | exact H0] |].
    cbn [List.length] in *. assert (H1 := IH t1 ltac:(lia)).
    destruct (negb (inRange lo hi (byteOf a1)));
      [constructor; [discriminate | exact H0] |].
    destruct (sz =? 2); [constructor; [discriminate | exact H1] |].
    destruct t1 as [|a2 t2]; [constructor; [discriminate | exact H0] |].
    cbn [List.length] in *. assert (H2 := IH t2 ltac:(lia)).
    destruct (negb (inRange 128 191 (byteOf a2)));
      [constructor; [discriminate | exact H0] |].
    destruct (sz =? 3); [constructor; [discriminate | exact H2] |].
    destruct t2 as [|a3 t3]; [constructor; [discriminate | exact H0] |].
    cbn [List.length] in *. assert (H3 := IH t3 ltac:(lia)).
    destruct (negb (inRange 128 191 (byteOf a3)));
      constructor; try discriminate; assumption.
Qed.

Lemma fieldSpansFrom_count (spans : list (rune * string)) :
  Forall (fun span => snd span <> EmptyString) spans ->
  forall cur cur',
    (cur = EmptyString <-> cur' = []) ->
    List.length (fieldSpansFrom spans cur)
    = List.length (fieldsFrom (map fst spans) cur').
Proof.
  induction 1 as [|[r bytes] rest Hne _ IH]; intros cur cur' Hcur.
  - cbn. destruct cur, cur'; try reflexivity.
    + destruct Hcur as [Hcur _]. now discriminate Hcur.
    + destruct Hcur as [_ Hcur]. now discriminate Hcur.
  - cbn [fieldSpansFrom fieldsFrom map fst]. destruct (IsSpace r).
    + destruct cur, cur'.
      * apply IH. tauto.
      * destruct Hcur as [Hcur _]. now discriminate Hcur.
      * destruct Hcur as [_ Hcur]. now discriminate Hcur.
      * cbn [List.length]. f_equal. apply IH. tauto.
    + apply IH. cbn in Hne. split; intros Habs.
      * destruct cur; [| discriminate Habs].
        cbn in Habs. contradiction.
      * discriminate Habs.
Qed.

Lemma FieldsStr_count (s : string) :
  List.length (FieldsStr s) = List.length (Fields s).
Proof.
  unfold FieldsStr, Fields, runes.
  change (bytes s) with (map byteOf (list_ascii_of_string s)).
  rewrite <- (decodeSpans_runes _ _ (le_n _)).
  apply fieldSpansFrom_count; [| tauto].
  apply (decodeSpans_nonempty _ _ (le_n _)).
Qed.

(** ** The history manager *)

Section ManagerProperties.

Import Manager.

Variable readThread : string -> list History * option error.
Variable toUpper : string -> string.
Variable formatTime : Time -> string.
Variable formatValue : any -> string.

Lemma parseUserFrom_text (entries : list History) :
  Forall (fun entry => notUser entry \/ isUserText entry) entries ->
  forall result,
    parseUserFrom entries result
    = Some (result
            ++ map textOf
                   (filter (fun entry =>
                              (Message_Role (History_Message entry)
                               =? userRole)%string) entries)).
Proof.
  induction 1 as [|entry rest Hentry _ IH]; intros result;
    cbn [parseUserFrom filter].
  - cbn. now rewrite app_nil_r.
  - destruct Hentry as [Hnot | [Hrole [s Hs]]].
    + apply String.eqb_neq in Hnot. rewrite Hnot. apply IH.
    + apply String.eqb_eq in Hrole. rewrite Hrole, Hs. cbn [assertString map].
      rewrite IH, <- app_assoc. unfold textOf at 2. rewrite Hs. reflexivity.
Qed.

Lemma parseUserFrom_panics (entries : list History) :
  Exists (fun entry =>
            Message_Role (History_Message entry) = userRole
            /\ assertString (History_Content entry) = None) entries ->
  forall result, parseUserFrom entries result = None.
Proof.
  induction entries as [|entry rest IH]; intros Hex result.
  - inversion Hex.
  - cbn. inversion Hex as [? ? [Hrole Hcontent] | ? ? Hrest]; subst.
    + apply String.eqb_eq in Hrole. now rewrite Hrole, Hcontent.
    + destruct (_ =? _)%string; [| now apply IH].
      destruct (assertString _); [now apply IH | reflexivity].
Qed.

(** X21.  [ParseUserHistory] returns the error of the store as it is,
    with no text.  Otherwise it gives the contents of the entries of role
    user, in their order, and skips every other entry, whatever its
    content; it panics when an entry of role user has a content that is
    not a string. *)
Theorem ParseUserHistory_user_texts (thread : string) :
  let (entries, err) := readThread thread in
  (forall e, err = Some e ->
             ParseUserHistory readThread thread = Some ([], Some e))
  /\ (err = None ->
      Forall (fun entry => notUser entry \/ isUserText entry) entries ->
      ParseUserHistory readThread thread
      = Some (map textOf
                  (filter (fun entry =>
                             (Message_Role (History_Message entry)
                              =? userRole)%string) entries),
              None))
  /\ (err = None ->
      Exists (fun entry =>
                Message_Role (History_Message entry) = userRole
                /\ assertString (History_Content entry) = None) entries ->
      ParseUserHistory readThread thread = None).
Proof.
  unfold ParseUserHistory.
  destruct (readThread thread) as [entries err].
  split; [| split].
  - intros e ->. reflexivity.
  - intros -> Hall. now rewrite (parseUserFrom_text entries Hall []).
  - intros -> Hex. now rewrite (parseUserFrom_panics entries Hex []).
Qed.

(** User messages in a row add their texts to the message put together. *)
Lemma printFrom_user_run (us rest : list History) :
  Forall isUserText us ->
  forall result concatenated,
    printFrom toUpper formatTime formatValue (us ++ rest)
              result userRole concatenated
    = printFrom toUpper formatTime formatValue rest
                result userRole (concatenated ++ texts us)%string.
Proof.
  induction 1 as [|u us [Hrole [s Hs]] _ IH]; intros result concatenated.
  - cbn. now rewrite append_empty_r.
  - cbn [app printFrom texts]. rewrite Hrole, Hs. cbn [assertString].
    rewrite String.eqb_refl. cbn [andb].
    rewrite IH, <- append_assoc3. unfold textOf. now rewrite Hs.
Qed.

(** An exchange met with no message put together: the user messages are
    put together and printed as one block, with the instant of the entry
    that follows them, then this entry is printed. *)
Lemma printFrom_exchange (x : exchange) (rest : list History) :
  isExchange x ->
  forall result lastRole,
    printFrom toUpper formatTime formatValue
              (fst x ++ [snd x] ++ rest) result lastRole ""
    = printFrom toUpper formatTime formatValue rest
                (result
                 ++ userBlock toUpper formatTime formatValue
                              (texts (fst x)) (History_Timestamp (snd x))
                 ++ formatHistory toUpper formatTime formatValue (snd x))
                (Message_Role (History_Message (snd x))) "".
Proof.
  destruct x as [us e]. intros [Hus He] result lastRole.
  cbn [fst snd] in *.
  destruct us as [|u us].
  { cbn [app printFrom texts]. unfold notUser in He.
    apply String.eqb_neq in He. rewrite He. cbn [andb].
    unfold userBlock. cbn.
    destruct (lastRole =? userRole)%string; reflexivity. }
  inversion Hus as [|? ? [Hrole [s Hs]] Hus']; subst.
  cbn [app printFrom texts]. rewrite Hrole, Hs. cbn [assertString].
  transitivity (printFrom toUpper formatTime formatValue
                          (us ++ e :: rest) result userRole s).
  { rewrite String.eqb_refl.
    destruct (lastRole =? userRole)%string; reflexivity. }
  rewrite (printFrom_user_run us (e :: rest) Hus').
  cbn [printFrom]. unfold notUser in He. apply String.eqb_neq in He.
  rewrite He. cbn [andb]. rewrite String.eqb_refl. cbn [andb].
  unfold userBlock, textOf. rewrite Hs.
  destruct ((s ++ texts us) =? "")%string eqn:E; cbn [negb].
  - apply String.eqb_eq in E. rewrite E. reflexivity.
  - now rewrite <- !append_assoc3.
Qed.

Lemma last_nonempty_default {A : Type} (a : A) (l : list A) (d d' : A) :
  last (a :: l) d = last (a :: l) d'.
Proof.
  revert a. induction l as [|b l IH]; intros a; [reflexivity |].
  change (last (b :: l) d = last (b :: l) d'). apply IH.
Qed.

Lemma last_cons_default {A : Type} (a : A) (l : list A) (d : A) :
  last (a :: l) d = last l a.
Proof.
  destruct l as [|b l]; [reflexivity |].
  change (last (b :: l) d = last (b :: l) a). apply last_nonempty_default.
Qed.

Lemma concat_empty_cons (a : string) (l : list string) :
  String.concat "" (a :: l) = (a ++ String.concat "" l)%string.
Proof. destruct l; cbn; [now rewrite append_empty_r | reflexivity]. Qed.

Lemma printFrom_exchanges (xs : list exchange) (rest : list History) :
  Forall isExchange xs ->
  forall result lastRole,
    printFrom toUpper formatTime formatValue
              (entriesOf xs ++ rest) result lastRole ""
    = printFrom toUpper formatTime formatValue rest
        (result
         ++ String.concat ""
              (map (fun x =>
                      (userBlock toUpper formatTime formatValue
                                 (texts (fst x)) (History_Timestamp (snd x))
                       ++ formatHistory toUpper formatTime formatValue
                                        (snd x))%string) xs))
        (last (map (fun x => Message_Role (History_Message (snd x))) xs)
              lastRole) "".
Proof.
  induction 1 as [|x xs Hx _ IH]; intros result lastRole.
  - cbn. now rewrite append_empty_r.
  - unfold entriesOf. cbn [map List.concat]. fold (entriesOf xs).
    rewrite <- !app_assoc.
    rewrite (printFrom_exchange x (entriesOf xs ++ rest) Hx).
    rewrite IH. f_equal.
    + cbn [map]. rewrite concat_empty_cons. symmetry. apply append_assoc3.
    + cbn [map]. now rewrite last_cons_default.
Qed.

End ManagerProperties.


(** ** The history manager: [Print] *)

Section PrintProperties.

Import Manager.

Variable readThread : string -> list History * option error.
Variable toUpper : string -> string.
Variable formatTime : Time -> string.
Variable formatValue : any -> string.

(** Every thread whose user entries hold text is made of exchanges and of
    user messages at its end. *)
Lemma thread_decomposes (entries : list History) :
  Forall (fun entry => notUser entry \/ isUserText entry) entries ->
  exists xs us,
    entries = entriesOf xs ++ us
    /\ Forall isExchange xs /\ Forall isUserText us.
Proof.
  induction 1 as [|entry rest Hentry _ [xs [us [-> [Hxs Hus]]]]].
  - exists [], []. repeat split; constructor.
  - destruct Hentry as [Hnot | Huser].
    + exists (([], entry) :: xs), us. repeat split; try assumption.
      constructor; [split; [constructor | exact Hnot] | exact Hxs].
    + destruct xs as [|[us0 e0] xs].
      * exists [], (entry :: us). repeat split; [constructor |].
        now constructor.
      * exists ((entry :: us0, e0) :: xs), us.
        inversion Hxs as [|? ? [Hus0 He0] Hxs']; subst.
        repeat split; try assumption.
        constructor; [| exact Hxs'].
        split; [now constructor | exact He0].
Qed.

Lemma printFrom_panics (entries : list History) :
  Exists (fun entry =>
            Message_Role (History_Message entry) = userRole
            /\ assertString (History_Content entry) = None) entries ->
  forall result lastRole concatenated,
    printFrom toUpper formatTime formatValue entries
              result lastRole concatenated = None.
Proof.
  induction entries as [|entry rest IH];
    intros Hex result lastRole concatenated.
  - inversion Hex.
  - cbn [printFrom].
    inversion Hex as [? ? [Hrole Hcontent] | ? ? Hrest]; subst.
    + apply String.eqb_eq in Hrole. rewrite Hrole, Hcontent. cbn [andb].
      destruct (lastRole =? userRole)%string; cbn [andb]; [reflexivity |].
      reflexivity.
    + destruct (_ && _).
      * destruct (assertString _); [now apply IH | reflexivity].
      * destruct (_ && _);
          (destruct (_ =? _)%string;
           [destruct (assertString _); [now apply IH | reflexivity]
           | now apply IH]).
Qed.

(** X22.  [Print] on a thread made of exchanges (user messages in a row,
    then an entry of another role) and of user messages at its end: the
    user messages of an exchange are printed as one block, their texts
    joined with nothing in between, under the instant of the entry that
    follows them, and then this entry is printed; the user messages at
    the end are printed as one block with no instant; a block whose
    joined text is empty is left out.  The instants of the user entries
    themselves are never printed. *)
Theorem Print_merges_user_runs (thread : string)
    (xs : list exchange) (us : list History) :
  readThread thread = (entriesOf xs ++ us, None) ->
  Forall isExchange xs ->
  Forall isUserText us ->
  Print readThread toUpper formatTime formatValue thread
  = Some ((String.concat ""
             (map (fun x =>
                     (userBlock toUpper formatTime formatValue
                                (texts (fst x)) (History_Timestamp (snd x))
                      ++ formatHistory toUpper formatTime formatValue
                                       (snd x))%string) xs)
           ++ userBlock toUpper formatTime formatValue (texts us) zeroTime)
          %string, None).
Proof.
  intros Hread Hxs Hus. unfold Print. rewrite Hread.
  rewrite (printFrom_exchanges toUpper formatTime formatValue xs us Hxs).
  cbn [String.append].
  set (blocks := String.concat "" _).
  set (role := last _ _).
  destruct us as [|u us].
  - cbn [printFrom texts]. rewrite String.eqb_refl, Bool.andb_false_r.
    unfold userBlock. cbn. now rewrite append_empty_r.
  - inversion Hus as [|? ? [Hrole [s Hs]] Hus']; subst.
    assert (E : printFrom toUpper formatTime formatValue (u :: us)
                          blocks role ""
                = printFrom toUpper formatTime formatValue us
                            blocks userRole s).
    { cbn [printFrom]. rewrite Hrole, Hs. cbn [assertString].
      rewrite String.eqb_refl.
      destruct (role =? userRole)%string; reflexivity. }
    rewrite E.
    rewrite <- (app_nil_r us) at 1.
    rewrite (printFrom_user_run toUpper formatTime formatValue us [] Hus').
    cbn [printFrom texts]. rewrite String.eqb_refl. cbn [andb].
    unfold userBlock, textOf. rewrite Hs.
    destruct ((s ++ texts us) =? "")%string eqn:E'; cbn [negb].
    + now rewrite append_empty_r.
    + reflexivity.
Qed.

(** X23.  [Print] returns the error of the store as it is, with an empty
    text; and it panics when an entry of role user, wherever it is in the
    thread, has a content that is not a string. *)
Theorem Print_failures (thread : string) (entries : list History)
    (err : option error) :
  readThread thread = (entries, err) ->
  (forall e, err = Some e ->
             Print readThread toUpper formatTime formatValue thread
             = Some ("", Some e))
  /\ (err = None ->
      Exists (fun entry =>
                Message_Role (History_Message entry) = userRole
                /\ assertString (History_Content entry) = None) entries ->
      Print readThread toUpper formatTime formatValue thread = None).
Proof.
  intros Hread. unfold Print. rewrite Hread. split.
  - intros e ->. reflexivity.
  - intros -> Hex. now rewrite (printFrom_panics entries Hex).
Qed.

End PrintProperties.

Lemma ManagerSample_exchanges :
  Forall Manager.isExchange ManagerSample.exchanges.
Proof.
  repeat constructor; cbn; try discriminate; eexists; reflexivity.
Qed.

Lemma ManagerSample_trailing :
  Forall Manager.isUserText ManagerSample.trailing.
Proof. repeat constructor. eexists; reflexivity. Qed.

Lemma ParseUserHistory_user_texts_witness :
  Manager.ParseUserHistory ManagerSample.readThread "default"
  = Some (["how "; "are you?"; "and now?"], None).
Proof.
  pose proof (ParseUserHistory_user_texts ManagerSample.readThread "default")
    as H.
  cbn in H. destruct H as [_ [H _]]. apply H; [reflexivity |].
  unfold ManagerSample.trailing.
  repeat (apply Forall_cons;
          [first [ left; unfold Manager.notUser; cbn; discriminate
                 | right; split; [reflexivity | eexists; reflexivity] ] |]).
  apply Forall_nil.
Defined.

Lemma Print_merges_user_runs_witness :
  Manager.Print ManagerSample.readThread ManagerSample.toUpper
                ManagerSample.formatTime ManagerSample.formatValue "default"
  = Some ((newline ++ "**SYSTEM** 💻:" ++ newline ++ "be brief" ++ newline
           ++ "---" ++ newline ++ "**USER** 👤 [2024-05-01 10:00:03]:"
           ++ newline ++ "how are you?" ++ newline
           ++ newline ++ "**ASSISTANT** 🤖:" ++ newline ++ "fine" ++ newline
           ++ "---" ++ newline ++ "**USER** 👤:" ++ newline ++ "and now?"
           ++ newline)%string, None).
Proof.
  exact (Print_merges_user_runs ManagerSample.readThread
           ManagerSample.toUpper ManagerSample.formatTime
           ManagerSample.formatValue "default"
           ManagerSample.exchanges ManagerSample.trailing
           eq_refl ManagerSample_exchanges ManagerSample_trailing).
Defined.

Lemma Print_failures_witness :
  Manager.Print ManagerSample.readThread ManagerSample.toUpper
                ManagerSample.formatTime ManagerSample.formatValue "missing"
  = Some ("", Some "no such thread")
  /\ Manager.Print ManagerSample.readThread ManagerSample.toUpper
                   ManagerSample.formatTime ManagerSample.formatValue
                   "pictures" = None.
Proof.
  split.
  - apply (proj1 (Print_failures ManagerSample.readThread
                    ManagerSample.toUpper ManagerSample.formatTime
                    ManagerSample.formatValue "missing" [] _ eq_refl)
                 "no such thread" eq_refl).
  - apply (proj2 (Print_failures ManagerSample.readThread
                    ManagerSample.toUpper ManagerSample.formatTime
                    ManagerSample.formatValue "pictures" _ None eq_refl)
                 eq_refl).
    cbn. do 4 apply Exists_cons_tl. apply Exists_cons_hd.
    split; reflexivity.
Defined.


(** ** Context from a plugin *)

Lemma replaceTilde_no_tilde (s : string) :
  Contains (replaceTilde s) "~" = false.
Proof.
  induction s as [|a s IH]; [reflexivity |].
  cbn [replaceTilde Contains String.prefix]. rewrite IH.
  destruct (Ascii.eqb a "~") eqn:E.
  - destruct (ascii_dec "~" "-") as [H | _]; [discriminate H | reflexivity].
  - destruct (ascii_dec "~" a) as [<- | _]; [| reflexivity].
    rewrite Ascii.eqb_refl in E. discriminate E.
Qed.

Lemma formatMCPResponse_tagged (env : Collaborators) (raw : option string)
    (function : string) :
  startsWith ("[MCP: " ++ function ++ "]") (formatMCPResponse env raw function).
Proof.
  unfold formatMCPResponse, startsWith.
  destruct (json_UnmarshalAny _ _) as [v | e];
    [| eexists; reflexivity].
  destruct v as [| | | | | [|[] ?] | | |]; eexists; reflexivity.
Qed.

(** A pass leaves the history as it is, or keeps its first turn and an end
    of the others. *)
Lemma truncateHistory_shape (c c' : Client) :
  truncateHistory c = Some (tt, c') ->
  c' = c
  \/ exists h0 rest k,
       Client_History c = h0 :: rest
       /\ c' = withHistory c (h0 :: skipn k rest).
Proof.
  unfold truncateHistory, bind, get.
  destruct (countTokens _) as [[tokens rolling]|]; [| discriminate].
  destruct (_ <=? _); [intros [= <-]; now left |].
  destruct (Client_History c) as [|h0 rest] eqn:E; [discriminate |].
  intros [= <-]. right. exists h0, rest. eexists. split; [reflexivity |].
  rewrite Nat.add_1_r. reflexivity.
Qed.

Lemma skipn_ends {A : Type} (k : nat) (l : list A) (a : A) :
  skipn k (l ++ [a]) = [] \/ exists pre, skipn k (l ++ [a]) = pre ++ [a].
Proof.
  revert k. induction l as [|b l IH]; intros [|k]; cbn [skipn app].
  - right. now exists [].
  - left. now destruct k.
  - right. now exists (b :: l).
  - apply IH.
Qed.

(** X24.  A call of [InjectMCPContext] that returns either returns an
    error and leaves the client as it was (history tracking off, a
    provider that is not supported, no API key, a failure of the
    encoder or of the transport), or it has handed its history to the
    store, once, and returns what the write returned.  In the second
    case the history ends with the turn of the function, unless the pass
    that follows has cut the history down to its first turn; this turn
    has the role function, a name without tilde, and a text that starts
    with the tag of the function, whatever the transport answered. *)
Theorem InjectMCPContext_outcomes (env : Collaborators) (mcp : MCPRequest)
    (c c' : Client) (err : option error) :
  InjectMCPContext env mcp c = Some (err, c') ->
  (err <> None /\ c' = c)
  \/ (wroteHistory c c'
      /\ err = Store_Write (historyStore env) (Client_History c')
      /\ exists raw t,
           let entry := functionTurn env (MCPRequest_Function mcp) raw t in
           ((exists pre, Client_History c' = pre ++ [entry])
            \/ exists h0, Client_History c' = [h0])
           /\ Message_Role (History_Message entry) = FunctionRole
           /\ Contains (Message_Name (History_Message entry)) "~" = false
           /\ exists text,
                History_Content entry = AnyString text
                /\ startsWith ("[MCP: " ++ MCPRequest_Function mcp ++ "]")
                              text).
Proof.
  intros H. unfold InjectMCPContext in H.
  step H c0 Hget. injection Hget as <- <-.
  destruct (Config_OmitHistory _);
    [injection H as <- <-; left; split; [discriminate | reflexivity] |].
  destruct (buildMCPRequest env c mcp) as [[[[endpoint headers] body] | e]|];
    [| injection H as <- <-; left; split; [discriminate | reflexivity]
     | discriminate].
  destruct (Caller_PostWithHeaders _ _ _ _) as [raw [e|]];
    [injection H as <- <-; left; split; [discriminate | reflexivity] |].
  right.
  step H c1 Hinit. destruct x. apply initHistory_trace in Hinit.
  step H c2 Hnow. rename x into t. injection Hnow as Ht Hc2.
  step H c3 Happ. destruct x. injection Happ as Hc3.
  step H c4 Htrunc. destruct x.
  unfold writeHistory in H. injection H as <- <-.
  assert (Hwr : Client_written c4 = Client_written c).
  { destruct Hinit as [_ Hw1].
    apply truncateHistory_trace in Htrunc. destruct Htrunc as [_ Hw4].
    rewrite Hw4, <- Hc3, <- Hc2. cbn. exact Hw1. }
  split; [unfold wroteHistory; cbn; now rewrite Hwr |].
  split; [reflexivity |].
  exists raw, t. cbv zeta. cbn [Client_History].
  split; [| split; [reflexivity | split;
                    [apply replaceTilde_no_tilde
                    | eexists; split;
                      [reflexivity | apply formatMCPResponse_tagged]]]].
  assert (Hh3 : Client_History c3
                = Client_History c1
                  ++ [functionTurn env (MCPRequest_Function mcp) raw t]).
  { rewrite <- Hc3, <- Hc2. reflexivity. }
  destruct (truncateHistory_shape _ _ Htrunc)
    as [-> | (h0 & rest & k & Hh & ->)].
  - left. eexists. exact Hh3.
  - cbn [withHistory Client_History]. rewrite Hh3 in Hh.
    destruct (Client_History c1) as [|h1 rest1].
    + injection Hh as <- <-. left. exists []. now destruct k.
    + injection Hh as <- <-.
      destruct (skipn_ends k rest1
                  (functionTurn env (MCPRequest_Function mcp) raw t))
        as [-> | [pre ->]].
      * right. now exists h1.
      * left. now exists (h1 :: pre).
Qed.

Lemma InjectMCPContext_outcomes_witness :
  exists c',
    InjectMCPContext Sample.plainEnv Sample.mcp
                     (Sample.client "gpt-3.5-turbo" 50 [])
    = Some (Some "write failed", c')
    /\ ((Some "write failed" <> None
         /\ c' = Sample.client "gpt-3.5-turbo" 50 [])
        \/ (wroteHistory (Sample.client "gpt-3.5-turbo" 50 []) c'
            /\ Some "write failed"
               = Store_Write (historyStore Sample.plainEnv)
                             (Client_History c')
            /\ exists raw t,
                 let entry :=
                   functionTurn Sample.plainEnv
                                (MCPRequest_Function Sample.mcp) raw t in
                 ((exists pre, Client_History c' = pre ++ [entry])
                  \/ exists h0, Client_History c' = [h0])
                 /\ Message_Role (History_Message entry) = FunctionRole
                 /\ Contains (Message_Name (History_Message entry)) "~"
                    = false
                 /\ exists text,
                      History_Content entry = AnyString text
                      /\ startsWith
                           ("[MCP: " ++ MCPRequest_Function Sample.mcp ++ "]")
                           text)).
Proof.
  eexists. split; [vm_compute; reflexivity |].
  apply (InjectMCPContext_outcomes Sample.plainEnv Sample.mcp
           (Sample.client "gpt-3.5-turbo" 50 [])).
  vm_compute. reflexivity.
Defined.
